(** * Duocards: the SM-2 review scheduler and the review queue

    A shallow embedding of [spaced_rep.py] ([calculate_sm2], [get_due_cards],
    [get_new_cards]), of the two ORM classes of [models.py] they work on, and
    of the two review handlers of [app.py] ([get_review_cards],
    [review_card]); then of the other database handlers of [app.py]
    ([list_cards], [create_card], [get_card], [get_card_details],
    [delete_card], [get_stats]).

    - Python [int] is [Z]; Python [float] is the kernel's binary64 [float],
      whose operations are the IEEE 754 ones Python uses.
    - Exceptions raised by the Python primitives the code calls ([round] on a
      float that is not finite, [int * float] on an [int] too large for a
      float, [timedelta] and [datetime] out of range) and by the handler
      ([HTTPException]) are results of the model.
    - [calculate_sm2] assigns to the attributes of the card it is given: it
      is a program of a state-and-exception monad over the card object.
    - [datetime.utcnow()] is a parameter of every function that reads the
      clock, one parameter for each reading.
    - The database is SQLite, through the sqlite3 module: a Python [int]
      bound to a statement is a 64-bit integer, or the statement raises
      [OverflowError]. [review_card] has this check on every [int] it
      binds; [get_card], [get_card_details] and [delete_card] are given
      for an identifier of that range. *)

From Stdlib Require Import ZArith List Bool String Lia Floats.
From Stdlib Require Import Sorted Permutation.
From Stdlib Require Uint63.
Import ListNotations.

#[local] Set Warnings "-inexact-float".
#[local] Open Scope Z_scope.

(** ** Python primitives *)

Module Py.

Inductive exn : Type :=
| OverflowError
| ValueError
| HTTPException (status_code : Z) (detail : string).

Inductive result (A : Type) : Type :=
| Ok (a : A)
| Raise (e : exn).
Arguments Ok {A} a.
Arguments Raise {A} e.

(** [max(a, b)] on two arguments: [b] when [b > a], else [a] (so a NaN
    second argument is dropped). *)
Definition max (a b : float) : float :=
  if PrimFloat.ltb a b then b else a.

(** [float(n)] for an [int]: correctly rounded (ties to even);
    [OverflowError] when the value is beyond the largest float. *)
Definition float_of_int (n : Z) : result float :=
  match binary_normalize prec emax n 0 false with
  | S754_infinity _ => Raise OverflowError
  | s => Ok (SF2Prim s)
  end.

(** The integer nearest to [m * 2^e], ties to the even one. *)
Definition round_half_even (m e : Z) : Z :=
  if 0 <=? e then m * 2 ^ e
  else
    let d := 2 ^ (- e) in
    let q := m / d in
    match 2 * (m mod d) ?= d with
    | Lt => q
    | Gt => q + 1
    | Eq => if Z.even q then q else q + 1
    end.

(** [round(x)] for a float, one argument: an [int], ties to even;
    [OverflowError] on an infinity, [ValueError] on a NaN. *)
Definition round (x : float) : result Z :=
  match Prim2SF x with
  | S754_nan => Raise ValueError
  | S754_infinity _ => Raise OverflowError
  | S754_zero _ => Ok 0
  | S754_finite s m e => Ok (cond_Zopp s (round_half_even (Zpos m) e))
  end.

(** A binary64 value that is [+inf] or a positive finite one of at least
    [2 ^ (k - 1)]: its mantissa has [k - e] binary digits or more. *)
Definition at_least (k : Z) (s : spec_float) : Prop :=
  s = S754_infinity false \/
  exists m e, s = S754_finite false m e /\ k <= Zpos (digits2_pos m) + e.

(** A positive finite binary64 value of [2 ^ (lo - 1)] or more and below
    [2 ^ hi]. *)
Definition magnitude_in (lo hi : Z) (s : spec_float) : Prop :=
  exists m e,
    s = S754_finite false m e /\ lo <= Zpos (digits2_pos m) + e <= hi.

(** A naive [datetime]: microseconds since 0001-01-01T00:00:00.
    [datetime.max] is 9999-12-31T23:59:59.999999, day 3652059 of the
    proleptic Gregorian calendar. *)
Definition datetime : Type := Z.
Definition timedelta : Type := Z.

Definition us_per_day : Z := 86400000000.
Definition datetime_max : datetime := 3652059 * us_per_day - 1.
Definition max_delta_days : Z := 999999999.

(** [timedelta(days=n)]: [OverflowError] beyond 999999999 days. *)
Definition timedelta_days (n : Z) : result timedelta :=
  if (- max_delta_days <=? n) && (n <=? max_delta_days)
  then Ok (n * us_per_day)
  else Raise OverflowError.

(** [t + d]: [OverflowError] ("date value out of range") outside
    [datetime.min .. datetime.max]. *)
Definition datetime_add (t : datetime) (d : timedelta) : result datetime :=
  let r := t + d in
  if (0 <=? r) && (r <=? datetime_max) then Ok r else Raise OverflowError.

(** SQL [ORDER BY key] (ascending; rows with equal keys keep the order of
    the table) and [LIMIT n] (SQLite: a negative [n] is no limit). *)
Section Query.
Context {A : Type} (key : A -> Z).

Fixpoint insert_by (x : A) (l : list A) : list A :=
  match l with
  | [] => [x]
  | y :: l' => if key y <=? key x then y :: insert_by x l' else x :: l
  end.

Definition order_by (l : list A) : list A :=
  fold_left (fun acc x => insert_by x acc) l [].
End Query.

Definition limit {A : Type} (n : Z) (l : list A) : list A :=
  if n <? 0 then l else firstn (Z.to_nat n) l.

Definition len {A : Type} (l : list A) : Z := Z.of_nat (List.length l).

End Py.

Import Py.

(** ** sqlite3 *)

Module Sqlite.

(** A Python [int] that sqlite3 binds to a parameter of a statement: one
    of the 64-bit signed integers. Any other raises [OverflowError]
    ("Python int too large to convert to SQLite INTEGER") when the
    statement is executed. *)
Definition integer (n : Z) : bool := (- 2 ^ 63 <=? n) && (n <? 2 ^ 63).

End Sqlite.

(** ** models.py *)

Module ReviewHistory.
Record t : Type := {
  id : Z;
  card_id : Z;
  quality : Z;
  reviewed_at : datetime
}.
End ReviewHistory.

Module CardDB.
Record t : Type := {
  id : Z;
  word : string;
  translation : string;
  grammar : option string;
  example : option string;
  audio_url : option string;
  ease_factor : float;
  interval : Z;
  repetitions : Z;
  next_review : datetime;
  created_at : datetime;
  updated_at : datetime;
  history : list ReviewHistory.t
}.

(** Attribute assignment, [card.x = v]. *)
Definition set_ease_factor (v : float) (c : t) : t :=
  {| id := id c; word := word c; translation := translation c;
     grammar := grammar c; example := example c; audio_url := audio_url c;
     ease_factor := v; interval := interval c;
     repetitions := repetitions c; next_review := next_review c;
     created_at := created_at c; updated_at := updated_at c;
     history := history c |}.

Definition set_interval (v : Z) (c : t) : t :=
  {| id := id c; word := word c; translation := translation c;
     grammar := grammar c; example := example c; audio_url := audio_url c;
     ease_factor := ease_factor c; interval := v;
     repetitions := repetitions c; next_review := next_review c;
     created_at := created_at c; updated_at := updated_at c;
     history := history c |}.

Definition set_repetitions (v : Z) (c : t) : t :=
  {| id := id c; word := word c; translation := translation c;
     grammar := grammar c; example := example c; audio_url := audio_url c;
     ease_factor := ease_factor c; interval := interval c;
     repetitions := v; next_review := next_review c;
     created_at := created_at c; updated_at := updated_at c;
     history := history c |}.

Definition set_next_review (v : datetime) (c : t) : t :=
  {| id := id c; word := word c; translation := translation c;
     grammar := grammar c; example := example c; audio_url := audio_url c;
     ease_factor := ease_factor c; interval := interval c;
     repetitions := repetitions c; next_review := v;
     created_at := created_at c; updated_at := updated_at c;
     history := history c |}.

Definition set_updated_at (v : datetime) (c : t) : t :=
  {| id := id c; word := word c; translation := translation c;
     grammar := grammar c; example := example c; audio_url := audio_url c;
     ease_factor := ease_factor c; interval := interval c;
     repetitions := repetitions c; next_review := next_review c;
     created_at := created_at c; updated_at := v;
     history := history c |}.

Definition set_history (v : list ReviewHistory.t) (c : t) : t :=
  {| id := id c; word := word c; translation := translation c;
     grammar := grammar c; example := example c; audio_url := audio_url c;
     ease_factor := ease_factor c; interval := interval c;
     repetitions := repetitions c; next_review := next_review c;
     created_at := created_at c; updated_at := updated_at c;
     history := v |}.

(** A row as [create_card] inserts it: the column defaults of the class
    ([ease_factor] 2.5, [interval] 0, [repetitions] 0, the three
    timestamps at the insertion time). *)
Definition create (i : Z) (w tr : string) (now : datetime) : t :=
  {| id := i; word := w; translation := tr;
     grammar := None; example := None; audio_url := None;
     ease_factor := 2.5%float; interval := 0; repetitions := 0;
     next_review := now; created_at := now; updated_at := now;
     history := [] |}.
End CardDB.

(** [ReviewRequest]: [quality: int = Field(..., ge=0, le=5)]. *)
Module ReviewRequest.
Record t : Type := { quality : Z }.
Definition valid (r : t) : bool := (0 <=? quality r) && (quality r <=? 5).
End ReviewRequest.

(** [CardCreate]: the body of [POST /api/cards]. *)
Module CardCreate.
Record t : Type := {
  word : string;
  translation : string;
  grammar : option string;
  example : option string;
  audio_url : option string
}.
End CardCreate.

(** ** spaced_rep.py *)

Module SpacedRep.

(** Programs over the card object: each step returns a value or raises,
    and leaves the card as it has mutated it so far. *)
Definition M (A : Type) : Type := CardDB.t -> result A * CardDB.t.

Definition ret {A : Type} (a : A) : M A := fun c => (Ok a, c).

Definition bind {A B : Type} (m : M A) (k : A -> M B) : M B :=
  fun c =>
    match m c with
    | (Ok a, c') => k a c'
    | (Raise e, c') => (Raise e, c')
    end.

Definition lift {A : Type} (r : result A) : M A := fun c => (r, c).
Definition attr {A : Type} (f : CardDB.t -> A) : M A := fun c => (Ok (f c), c).
Definition assign (f : CardDB.t -> CardDB.t) : M unit := fun c => (Ok tt, f c).

Declare Scope py_scope.
Delimit Scope py_scope with py.
Notation "x <- m ;; k" := (bind m (fun x => k))
  (at level 61, m at next level, right associativity) : py_scope.
Notation "m ;; k" := (bind m (fun _ => k))
  (at level 61, right associativity) : py_scope.

(** [0.1 - (5 - quality) * (0.08 + (5 - quality) * 0.02)]: [5 - quality]
    is an [int], converted at each product with a float. *)
Definition ease_delta (quality : Z) : result float :=
  match float_of_int (5 - quality) with
  | Ok d => Ok (0.1 - d * (0.08 + d * 0.02))%float
  | Raise e => Raise e
  end.

Definition int_times_float (n : Z) (x : float) : result float :=
  match float_of_int n with
  | Ok f => Ok (f * x)%float
  | Raise e => Raise e
  end.

Definition calculate_sm2 (card : CardDB.t) (quality : Z) (now : datetime)
  : result CardDB.t * CardDB.t :=
  (let quality := Z.max 0 (Z.min 5 quality) in
   ef <- attr CardDB.ease_factor ;;
   delta <- lift (ease_delta quality) ;;
   assign (CardDB.set_ease_factor (Py.max 1.3 (ef + delta))) ;;
   (if quality <? 3 then
      assign (CardDB.set_repetitions 0) ;;
      assign (CardDB.set_interval 1)
    else
      reps <- attr CardDB.repetitions ;;
      (if reps =? 0 then assign (CardDB.set_interval 1)
       else if reps =? 1 then assign (CardDB.set_interval 6)
       else
         i <- attr CardDB.interval ;;
         ef' <- attr CardDB.ease_factor ;;
         p <- lift (int_times_float i ef') ;;
         r <- lift (Py.round p) ;;
         assign (CardDB.set_interval r)) ;;
      reps <- attr CardDB.repetitions ;;
      assign (CardDB.set_repetitions (reps + 1))) ;;
   i <- attr CardDB.interval ;;
   d <- lift (timedelta_days i) ;;
   t <- lift (datetime_add now d) ;;
   assign (CardDB.set_next_review t) ;;
   attr (fun c => c))%py card.

(** The last statements of [calculate_sm2] ([card.next_review = ...] and
    [return card]) on their own, to state what each branch hands them. *)
Definition reschedule (now : datetime) (card : CardDB.t)
  : result CardDB.t * CardDB.t :=
  (i <- attr CardDB.interval ;;
   d <- lift (timedelta_days i) ;;
   t <- lift (datetime_add now d) ;;
   assign (CardDB.set_next_review t) ;;
   attr (fun c => c))%py card.

Definition get_due_cards (session : list CardDB.t) (limit : Z) (now : datetime)
  : list CardDB.t :=
  Py.limit limit
    (order_by CardDB.next_review
       (filter (fun c => CardDB.next_review c <=? now) session)).

Definition get_new_cards (session : list CardDB.t) (limit : Z) : list CardDB.t :=
  Py.limit limit
    (order_by CardDB.created_at
       (filter (fun c => CardDB.repetitions c =? 0) session)).

End SpacedRep.

Import SpacedRep.

(** ** app.py *)

(** The dictionary [get_stats] returns. *)
Module Stats.
Record t : Type := {
  total : Z;
  due : Z;
  new : Z;
  learning : Z;
  mature : Z
}.
End Stats.

Module App.

(** The [cards] table with, on each card, its [history] relationship. *)
Definition Session : Type := list CardDB.t.

(** [db.query(CardDB).filter(CardDB.id == card_id).first()], for a
    [card_id] that sqlite3 binds. *)
Definition query_first (db : Session) (card_id : Z) : option CardDB.t :=
  find (fun c => CardDB.id c =? card_id) db.

(** The row of the first card of that id, written back. *)
Fixpoint write_back (card : CardDB.t) (db : Session) : Session :=
  match db with
  | [] => []
  | c :: db' =>
      if CardDB.id c =? CardDB.id card then card :: db'
      else c :: write_back card db'
  end.

(** The next key of [review_history]: one more than the largest. *)
Definition next_history_id (db : Session) : Z :=
  1 + fold_left Z.max
        (map ReviewHistory.id (flat_map CardDB.history db)) 0.

Definition get_review_cards (limit : Z) (db : Session) (now : datetime)
  : list CardDB.t :=
  let due := get_due_cards db limit now in
  if len due <? limit then
    let remaining := limit - len due in
    let new := get_new_cards db remaining in
    due ++ new
  else due.

(** The columns [calculate_sm2] has assigned, as [db.commit()] flushes
    them: SQLAlchemy compares each with the value it loaded, by [==], and
    the [UPDATE] sets the ones that differ. When none differs there is no
    [UPDATE], and the [onupdate] of [updated_at] is not called. *)
Definition modified (loaded card : CardDB.t) : bool :=
  negb (CardDB.ease_factor card =? CardDB.ease_factor loaded)%float
  || negb (CardDB.interval card =? CardDB.interval loaded)
  || negb (CardDB.repetitions card =? CardDB.repetitions loaded)
  || negb (CardDB.next_review card =? CardDB.next_review loaded).

(** The Python [int]s that the flush binds: in the [UPDATE] of the card
    the [interval] and the [repetitions] when they differ from the ones
    loaded, and the key of the row; in the [INSERT] of the history row its
    [card_id] and its [quality]. *)
Definition flushed_integers
    (loaded card : CardDB.t) (history : ReviewHistory.t) : list Z :=
  (if CardDB.interval card =? CardDB.interval loaded then []
   else [CardDB.interval card])
  ++ (if CardDB.repetitions card =? CardDB.repetitions loaded then []
      else [CardDB.repetitions card])
  ++ (if modified loaded card then [CardDB.id card] else [])
  ++ [ReviewHistory.card_id history; ReviewHistory.quality history].

(** What binding those comes to when the key of the card is one the lookup
    has bound: the quality is a 64-bit integer, and so are the interval and
    the repetitions that the [UPDATE] sets ([flushed_integers_bound]
    below). *)
Definition flush_binds (loaded card : CardDB.t) (quality : Z) : bool :=
  Sqlite.integer quality
  && ((CardDB.interval card =? CardDB.interval loaded)
      || Sqlite.integer (CardDB.interval card))
  && ((CardDB.repetitions card =? CardDB.repetitions loaded)
      || Sqlite.integer (CardDB.repetitions card)).

(** [now] is the clock read by [calculate_sm2]. [db.commit()] flushes the
    card and the new history row, and reads the clock once for each column
    default it calls: [t_updated_at] for the [onupdate] of [updated_at],
    called when the flush has an [UPDATE] of the card to send, and
    [t_reviewed_at] for the default of [reviewed_at]. [db.refresh(card)]
    then loads the row as stored.

    The lookup binds [card_id], and the flush the integers of
    [flushed_integers]: one that is not a 64-bit integer raises
    [OverflowError]. Whatever is raised, by the lookup, by [calculate_sm2]
    or by [db.commit()], leaves the handler, and the session is closed
    without a commit: the database is as it was. *)
Definition review_card (card_id : Z) (review : ReviewRequest.t)
    (db : Session) (now t_updated_at t_reviewed_at : datetime)
  : result CardDB.t * Session :=
  if negb (Sqlite.integer card_id) then (Raise OverflowError, db)
  else
    match query_first db card_id with
    | None => (Raise (HTTPException 404 "Card not found"), db)
    | Some loaded =>
        match calculate_sm2 loaded (ReviewRequest.quality review) now with
        | (Raise e, _) => (Raise e, db)
        | (Ok card, _) =>
            let history :=
              {| ReviewHistory.id := next_history_id db;
                 ReviewHistory.card_id := CardDB.id card;
                 ReviewHistory.quality := ReviewRequest.quality review;
                 ReviewHistory.reviewed_at := t_reviewed_at |} in
            if forallb Sqlite.integer (flushed_integers loaded card history)
            then
              let card :=
                CardDB.set_updated_at
                  (if modified loaded card then t_updated_at
                   else CardDB.updated_at card)
                  (CardDB.set_history (CardDB.history card ++ [history])
                     card) in
              (Ok card, write_back card db)
            else (Raise OverflowError, db)
        end
    end.

(** The key SQLite gives a row inserted into [cards] without one. [id] is
    [Column(Integer, primary_key=True, autoincrement=True)], for which
    SQLAlchemy declares an [INTEGER PRIMARY KEY] (the rowid, without the
    [AUTOINCREMENT] keyword): the new key is one more than the largest key
    of the table, 1 in an empty table, as long as the largest is below
    2 ^ 63 - 1. *)
Definition next_card_id (db : Session) : Z :=
  match map CardDB.id db with
  | [] => 1
  | i :: ids => 1 + fold_left Z.max ids i
  end.

(** [db.query(CardDB).order_by(CardDB.created_at.desc()).all()]. Cards
    created at the same microsecond are in the order of the table here;
    nothing below depends on it. *)
Definition list_cards (db : Session) : list CardDB.t :=
  order_by (fun c => - CardDB.created_at c) db.

(** [create_card] adds a row with the five fields of the request and the
    column defaults of [CardDB], commits and returns the row as stored.
    The three column defaults [datetime.utcnow] are three readings of the
    clock, taken when [db.commit()] flushes the row; the row is the last
    of the table, its key being the largest. *)
Definition create_card (card : CardCreate.t) (db : Session)
    (t_next_review t_created_at t_updated_at : datetime)
  : CardDB.t * Session :=
  let db_card :=
    {| CardDB.id := next_card_id db;
       CardDB.word := CardCreate.word card;
       CardDB.translation := CardCreate.translation card;
       CardDB.grammar := CardCreate.grammar card;
       CardDB.example := CardCreate.example card;
       CardDB.audio_url := CardCreate.audio_url card;
       CardDB.ease_factor := 2.5%float;
       CardDB.interval := 0;
       CardDB.repetitions := 0;
       CardDB.next_review := t_next_review;
       CardDB.created_at := t_created_at;
       CardDB.updated_at := t_updated_at;
       CardDB.history := [] |} in
  (db_card, db ++ [db_card]).

(** [get_card] and [get_card_details] have one body; FastAPI serialises
    what they return with [CardResponse] and with [CardDetailResponse],
    which adds the history. *)
Definition get_card (card_id : Z) (db : Session) : result CardDB.t :=
  match query_first db card_id with
  | None => Raise (HTTPException 404 "Card not found")
  | Some card => Ok card
  end.

Definition get_card_details (card_id : Z) (db : Session) : result CardDB.t :=
  match query_first db card_id with
  | None => Raise (HTTPException 404 "Card not found")
  | Some card => Ok card
  end.

(** [db.delete(card)] deletes the row of the card and, by the cascade
    ([all, delete-orphan]) of the [history] relationship, the rows of its
    history. The handler answers [{"message": "Card deleted"}]. *)
Definition delete_card (card_id : Z) (db : Session)
  : result (list (string * string)) * Session :=
  match query_first db card_id with
  | None => (Raise (HTTPException 404 "Card not found"), db)
  | Some card =>
      (Ok [("message"%string, "Card deleted"%string)],
       filter (fun c => negb (CardDB.id c =? CardDB.id card)) db)
  end.

(** Five [count()] queries; [now] is the clock the second one reads. *)
Definition get_stats (db : Session) (now : datetime) : Stats.t :=
  let total := len db in
  let due := len (filter (fun c => CardDB.next_review c <=? now) db) in
  let new := len (filter (fun c => CardDB.repetitions c =? 0) db) in
  let learning :=
    len (filter (fun c => (0 <? CardDB.repetitions c)
                          && (CardDB.interval c <? 21)) db) in
  let mature := len (filter (fun c => 21 <=? CardDB.interval c) db) in
  {| Stats.total := total; Stats.due := due; Stats.new := new;
     Stats.learning := learning; Stats.mature := mature |}.

End App.

Import App.

(** ** The stores the handlers build *)

Module Store.

(** The tables that [create_card], [review_card] and [delete_card] make of
    the empty one, at any readings of the clock. A review that raises
    leaves the table as it was. *)
Inductive reachable : Session -> Prop :=
| reach_empty : reachable []
| reach_create card db t1 t2 t3 :
    reachable db -> reachable (snd (create_card card db t1 t2 t3))
| reach_review card_id review db now t_updated_at t_reviewed_at :
    reachable db ->
    reachable (snd (review_card card_id review db now t_updated_at
                      t_reviewed_at))
| reach_delete card_id db :
    reachable db -> reachable (snd (delete_card card_id db)).

(** Keys are keys: no two cards of one [id], no two history rows of one
    [id], and every history row under the card its [card_id] names. *)
Definition consistent (db : Session) : Prop :=
  NoDup (map CardDB.id db) /\
  NoDup (map ReviewHistory.id (flat_map CardDB.history db)) /\
  Forall (fun c =>
            Forall (fun h => ReviewHistory.card_id h = CardDB.id c)
              (CardDB.history c)) db.

(** What the scheduler keeps of a card. *)
Definition scheduled (c : CardDB.t) : Prop :=
  (1.3 <=? CardDB.ease_factor c)%float = true /\
  0 <= CardDB.repetitions c <= len (CardDB.history c) /\
  (CardDB.repetitions c = 0 -> CardDB.interval c <= 1) /\
  match CardDB.history c with
  | [] => CardDB.interval c = 0
  | _ :: _ => 1 <= CardDB.interval c
  end.

End Store.

Import Store.

(** ** Sample data *)

Module Sample.

(** 2026-01-01T00:00:00, day 739617 of the calendar. *)
Definition clock : datetime := 739616 * us_per_day.

(** A card as [create_card] has just inserted it. *)
Definition fresh : CardDB.t := CardDB.create 1 "voda" "Wasser" clock.

(** A card at its third success or later whose [interval] is 0. *)
Definition stalled : CardDB.t :=
  CardDB.set_repetitions 2 (CardDB.create 2 "hvala" "danke" clock).

(** [n] reviews of card 1 in a row, each of quality 5, through the
    handler; a review that raises leaves the database as it was. *)
Fixpoint perfect_reviews (n : nat) (db : Session) : Session :=
  match n with
  | O => db
  | S n' =>
      snd (review_card 1 {| ReviewRequest.quality := 5 |}
             (perfect_reviews n' db) clock clock clock)
  end.

(** The card after two such reviews of a fresh card: [interval] 6,
    [repetitions] 2. *)
Definition learning : CardDB.t := hd fresh (perfect_reviews 2 [fresh]).

(** The database after thirteen such reviews of a fresh card, and the
    card in it. *)
Definition seasoned_db : Session := perfect_reviews 13 [fresh].
Definition seasoned : CardDB.t := hd fresh seasoned_db.

(** A table of three cards that are due (reviewed before, [next_review]
    one, three and two days ago) and five that were inserted in the last
    five hours and never reviewed. *)
Definition us_per_hour : Z := 3600000000.

Definition reviewed (i : Z) (w tr : string) (next : datetime) : CardDB.t :=
  CardDB.set_next_review next
    (CardDB.set_repetitions 2
       (CardDB.set_interval 6
          (CardDB.set_ease_factor 2.7%float
             (CardDB.create i w tr (clock - 30 * us_per_day))))).

Definition store : Session :=
  [ reviewed 1 "hisa" "Haus" (clock - 1 * us_per_day);
    reviewed 2 "mesto" "Stadt" (clock - 3 * us_per_day);
    reviewed 3 "cesta" "Strasse" (clock - 2 * us_per_day);
    CardDB.create 4 "kruh" "Brot" (clock - 5 * us_per_hour);
    CardDB.create 5 "mleko" "Milch" (clock - 4 * us_per_hour);
    CardDB.create 6 "sir" "Kaese" (clock - 3 * us_per_hour);
    CardDB.create 7 "jabolko" "Apfel" (clock - 2 * us_per_hour);
    CardDB.create 8 "sol" "Salz" (clock - 1 * us_per_hour) ].

Definition voda : CardCreate.t :=
  {| CardCreate.word := "voda"; CardCreate.translation := "Wasser";
     CardCreate.grammar := None; CardCreate.example := None;
     CardCreate.audio_url := None |}.

Definition kruh : CardCreate.t :=
  {| CardCreate.word := "kruh"; CardCreate.translation := "Brot";
     CardCreate.grammar := Some "m"%string; CardCreate.example := None;
     CardCreate.audio_url := None |}.

(** The card a call has returned. *)
Definition returned (r : result CardDB.t) : CardDB.t :=
  match r with
  | Ok c => c
  | Raise _ => fresh
  end.

(** Two cards made and reviewed through the handlers: card 1 created and
    reviewed twice with quality 5 at [clock], card 2 created at [clock]
    and failed five and a half days later. *)
Definition mixed_db : Session :=
  let db1 := snd (create_card voda [] clock clock clock) in
  let db2 := snd (review_card 1 {| ReviewRequest.quality := 5 |} db1
                    clock clock clock) in
  let db3 := snd (review_card 1 {| ReviewRequest.quality := 5 |} db2
                    clock clock clock) in
  let db4 := snd (create_card kruh db3 clock clock clock) in
  snd (review_card 2 {| ReviewRequest.quality := 1 |} db4
         (clock + 132 * us_per_hour) (clock + 132 * us_per_hour)
         (clock + 132 * us_per_hour)).

(** Six days and an hour after [clock]: card 1 is due, card 2 is not. *)
Definition later : datetime := clock + 145 * us_per_hour.

End Sample.

(** * Properties *)

(** ** The clamp and the ease-factor increment *)

Lemma clamp_cases (quality : Z) :
  let q := Z.max 0 (Z.min 5 quality) in
  q = 0 \/ q = 1 \/ q = 2 \/ q = 3 \/ q = 4 \/ q = 5.
Proof. cbv zeta. lia. Qed.

Lemma clamp_id (quality : Z) :
  0 <= quality <= 5 -> Z.max 0 (Z.min 5 quality) = quality.
Proof. lia. Qed.

(** The six increments the clamped quality can give, as binary64 values. *)
Lemma ease_delta_clamped (quality : Z) :
  exists delta, ease_delta (Z.max 0 (Z.min 5 quality)) = Ok delta.
Proof.
  destruct (clamp_cases quality) as [E|[E|[E|[E|[E|E]]]]];
    rewrite E; vm_compute; eexists; reflexivity.
Qed.

(** ** The clock and the calendar *)

Lemma us_per_day_eq : us_per_day = 86400000000.
Proof. reflexivity. Qed.

Lemma datetime_max_eq : datetime_max = 315537897599999999.
Proof. reflexivity. Qed.

Lemma max_delta_days_eq : max_delta_days = 999999999.
Proof. reflexivity. Qed.

Ltac calendar :=
  rewrite ?datetime_max_eq, ?us_per_day_eq, ?max_delta_days_eq in *; lia.

Lemma datetime_add_in_range (t : datetime) (d : timedelta) :
  0 <= t + d <= datetime_max -> datetime_add t d = Ok (t + d).
Proof.
  intros [H0 H1]. unfold datetime_add. cbv zeta.
  apply Z.leb_le in H0, H1. rewrite H0, H1. reflexivity.
Qed.

Lemma timedelta_days_in_range (n : Z) :
  - max_delta_days <= n <= max_delta_days ->
  timedelta_days n = Ok (n * us_per_day).
Proof.
  intros [H0 H1]. unfold timedelta_days.
  apply Z.leb_le in H0, H1. rewrite H0, H1. reflexivity.
Qed.

Lemma timedelta_days_inv (n : Z) (d : timedelta) :
  timedelta_days n = Ok d -> d = n * us_per_day.
Proof.
  unfold timedelta_days.
  destruct ((- max_delta_days <=? n) && (n <=? max_delta_days));
    congruence.
Qed.

Lemma datetime_add_inv (t : datetime) (d : timedelta) (r : datetime) :
  datetime_add t d = Ok r -> r = t + d.
Proof.
  unfold datetime_add. cbv zeta.
  destruct ((0 <=? t + d) && (t + d <=? datetime_max)); congruence.
Qed.

(** ** What [max(1.3, x)] returns *)

Lemma SFltb_SFleb (x y : spec_float) : SFltb x y = true -> SFleb x y = true.
Proof.
  unfold SFltb, SFleb. destruct (SFcompare x y) as [[ | | ]|]; congruence.
Qed.

Lemma max_floor (x : float) : (1.3 <=? Py.max 1.3 x)%float = true.
Proof.
  unfold Py.max. destruct (1.3 <? x)%float eqn:E.
  - rewrite leb_spec. apply SFltb_SFleb. rewrite <- ltb_spec. exact E.
  - reflexivity.
Qed.

(** ** [calculate_sm2], branch by branch *)

Lemma reschedule_eq (now : datetime) (c : CardDB.t) :
  reschedule now c =
  match timedelta_days (CardDB.interval c) with
  | Ok d =>
      match datetime_add now d with
      | Ok t => (Ok (CardDB.set_next_review t c), CardDB.set_next_review t c)
      | Raise e => (Raise e, c)
      end
  | Raise e => (Raise e, c)
  end.
Proof.
  unfold reschedule, bind, attr, lift, assign.
  destruct (timedelta_days (CardDB.interval c)); [|reflexivity].
  destruct (datetime_add now a); reflexivity.
Qed.

Lemma calculate_sm2_eq (card : CardDB.t) (quality : Z) (now : datetime) :
  exists delta,
    ease_delta (Z.max 0 (Z.min 5 quality)) = Ok delta /\
    let c1 :=
      CardDB.set_ease_factor
        (Py.max 1.3 (CardDB.ease_factor card + delta)) card in
    let reps := CardDB.repetitions card in
    calculate_sm2 card quality now =
    if Z.max 0 (Z.min 5 quality) <? 3 then
      reschedule now (CardDB.set_interval 1 (CardDB.set_repetitions 0 c1))
    else if reps =? 0 then
      reschedule now (CardDB.set_repetitions (reps + 1) (CardDB.set_interval 1 c1))
    else if reps =? 1 then
      reschedule now (CardDB.set_repetitions (reps + 1) (CardDB.set_interval 6 c1))
    else
      match int_times_float (CardDB.interval card) (CardDB.ease_factor c1) with
      | Ok p =>
          match Py.round p with
          | Ok r =>
              reschedule now
                (CardDB.set_repetitions (reps + 1) (CardDB.set_interval r c1))
          | Raise e => (Raise e, c1)
          end
      | Raise e => (Raise e, c1)
      end.
Proof.
  destruct (ease_delta_clamped quality) as [delta E].
  exists delta. split; [exact E|]. cbv zeta.
  unfold calculate_sm2, reschedule, bind, attr, lift, assign.
  rewrite E.
  destruct (Z.max 0 (Z.min 5 quality) <? 3); [reflexivity|].
  cbn [CardDB.set_ease_factor CardDB.ease_factor CardDB.interval
       CardDB.repetitions].
  destruct (CardDB.repetitions card =? 0); [reflexivity|].
  destruct (CardDB.repetitions card =? 1); [reflexivity|].
  destruct (int_times_float _ _); [|reflexivity].
  destruct (Py.round a); reflexivity.
Qed.

Lemma reschedule_returns (now : datetime) (c : CardDB.t) :
  - max_delta_days <= CardDB.interval c <= max_delta_days ->
  0 <= now + CardDB.interval c * us_per_day <= datetime_max ->
  reschedule now c =
  (Ok (CardDB.set_next_review (now + CardDB.interval c * us_per_day) c),
   CardDB.set_next_review (now + CardDB.interval c * us_per_day) c).
Proof.
  intros Hi Ht. rewrite reschedule_eq.
  rewrite timedelta_days_in_range by exact Hi.
  rewrite datetime_add_in_range by exact Ht. reflexivity.
Qed.

Lemma reschedule_inv (now : datetime) (c c' after : CardDB.t) :
  reschedule now c = (Ok c', after) ->
  after = c' /\
  c' = CardDB.set_next_review (now + CardDB.interval c * us_per_day) c.
Proof.
  rewrite reschedule_eq.
  destruct (timedelta_days (CardDB.interval c)) as [d|] eqn:Ed; [|discriminate].
  destruct (datetime_add now d) as [t|] eqn:Et; [|discriminate].
  apply timedelta_days_inv in Ed. apply datetime_add_inv in Et.
  intros [= <- <-]. subst. auto.
Qed.

(** Whether it returns or raises, [reschedule] leaves the card as it was
    or with a new [next_review] only. *)
Lemma reschedule_after (now : datetime) (c : CardDB.t) :
  exists t,
    snd (reschedule now c) = CardDB.set_next_review t c /\
    match fst (reschedule now c) with
    | Ok c' => c' = snd (reschedule now c)
    | Raise e => e = OverflowError
    end.
Proof.
  rewrite reschedule_eq. unfold timedelta_days, datetime_add. cbv zeta.
  destruct ((- max_delta_days <=? CardDB.interval c)
            && (CardDB.interval c <=? max_delta_days)).
  - destruct ((0 <=? now + CardDB.interval c * us_per_day)
              && (now + CardDB.interval c * us_per_day <=? datetime_max)).
    + eexists. split; reflexivity.
    + exists (CardDB.next_review c). destruct c; split; reflexivity.
  - exists (CardDB.next_review c). destruct c; split; reflexivity.
Qed.

Lemma int_times_float_raises (n : Z) (x : float) (e : exn) :
  int_times_float n x = Raise e -> e = OverflowError.
Proof.
  unfold int_times_float, float_of_int.
  destruct (binary_normalize prec emax n 0 false); congruence.
Qed.

Lemma round_raises (x : float) (e : exn) :
  Py.round x = Raise e -> e = OverflowError \/ e = ValueError.
Proof.
  unfold Py.round. destruct (Prim2SF x); intros [= <-]; auto.
Qed.

(** The card after the call, returned or not: the card with its new ease
    factor, and then some of [interval], [repetitions], [next_review]
    assigned. *)
Lemma calculate_sm2_after (card : CardDB.t) (quality : Z) (now : datetime) :
  exists delta,
    ease_delta (Z.max 0 (Z.min 5 quality)) = Ok delta /\
    exists i r t,
      snd (calculate_sm2 card quality now) =
      CardDB.set_next_review t
        (CardDB.set_repetitions r
           (CardDB.set_interval i
              (CardDB.set_ease_factor
                 (Py.max 1.3 (CardDB.ease_factor card + delta)) card))) /\
      match fst (calculate_sm2 card quality now) with
      | Ok c' => c' = snd (calculate_sm2 card quality now)
      | Raise e => e = OverflowError \/ e = ValueError
      end.
Proof.
  destruct (calculate_sm2_eq card quality now) as (delta & E & ->).
  exists delta. split; [exact E|]. cbv zeta.
  set (c1 := CardDB.set_ease_factor _ card).
  assert (Hre : forall c i r,
    c = CardDB.set_repetitions r (CardDB.set_interval i c1) \/
    c = CardDB.set_interval i (CardDB.set_repetitions r c1) ->
    exists i r t,
      snd (reschedule now c) =
      CardDB.set_next_review t
        (CardDB.set_repetitions r (CardDB.set_interval i c1)) /\
      match fst (reschedule now c) with
      | Ok c' => c' = snd (reschedule now c)
      | Raise e => e = OverflowError \/ e = ValueError
      end).
  { intros c i r Hc. destruct (reschedule_after now c) as (t & Hs & Hf).
    exists i, r, t. split.
    - rewrite Hs. destruct Hc as [-> | ->]; reflexivity.
    - destruct (fst (reschedule now c)); auto. }
  assert (Hraise : forall e, e = OverflowError \/ e = ValueError ->
    exists i r t,
      snd (Raise (A:=CardDB.t) e, c1) =
      CardDB.set_next_review t
        (CardDB.set_repetitions r (CardDB.set_interval i c1)) /\
      match fst (Raise (A:=CardDB.t) e, c1) with
      | Ok c' => c' = snd (Raise (A:=CardDB.t) e, c1)
      | Raise e => e = OverflowError \/ e = ValueError
      end).
  { intros e He.
    exists (CardDB.interval card), (CardDB.repetitions card),
      (CardDB.next_review card).
    split; [|exact He]. subst c1. destruct card; reflexivity. }
  destruct (Z.max 0 (Z.min 5 quality) <? 3).
  { apply (Hre _ 1 0). auto. }
  destruct (CardDB.repetitions card =? 0).
  { apply (Hre _ 1 (CardDB.repetitions card + 1)). auto. }
  destruct (CardDB.repetitions card =? 1).
  { apply (Hre _ 6 (CardDB.repetitions card + 1)). auto. }
  destruct (int_times_float _ _) as [p|e] eqn:Ep.
  - destruct (Py.round p) as [r|e] eqn:Er.
    + apply (Hre _ r (CardDB.repetitions card + 1)). auto.
    + apply round_raises in Er. apply Hraise, Er.
  - apply int_times_float_raises in Ep. apply Hraise. auto.
Qed.

(** What a call that returns has done. *)
Lemma calculate_sm2_returned
    (card : CardDB.t) (quality : Z) (now : datetime) (c' after : CardDB.t) :
  calculate_sm2 card quality now = (Ok c', after) ->
  let q := Z.max 0 (Z.min 5 quality) in
  after = c' /\
  (exists delta,
     ease_delta q = Ok delta /\
     CardDB.ease_factor c' = Py.max 1.3 (CardDB.ease_factor card + delta)) /\
  CardDB.next_review c' = now + CardDB.interval c' * us_per_day /\
  (q < 3 /\ CardDB.repetitions c' = 0 /\ CardDB.interval c' = 1 \/
   3 <= q /\ CardDB.repetitions c' = CardDB.repetitions card + 1 /\
   (CardDB.repetitions card = 0 /\ CardDB.interval c' = 1 \/
    CardDB.repetitions card = 1 /\ CardDB.interval c' = 6 \/
    CardDB.repetitions card <> 0 /\ CardDB.repetitions card <> 1 /\
    exists p,
      int_times_float (CardDB.interval card) (CardDB.ease_factor c') = Ok p /\
      Py.round p = Ok (CardDB.interval c'))).
Proof.
  destruct (calculate_sm2_eq card quality now) as (delta & E & ->).
  cbv zeta. set (q := Z.max 0 (Z.min 5 quality)) in *.
  set (c1 := CardDB.set_ease_factor _ card).
  destruct (q <? 3) eqn:Eq.
  { intros H. apply reschedule_inv in H as [-> ->]. apply Z.ltb_lt in Eq.
    split; [reflexivity|]. split; [exists delta; split; [exact E|reflexivity]|].
    split; [reflexivity|]. left. split; [exact Eq|]. split; reflexivity. }
  apply Z.ltb_ge in Eq.
  destruct (CardDB.repetitions card =? 0) eqn:E0.
  { intros H. apply reschedule_inv in H as [-> ->]. apply Z.eqb_eq in E0.
    split; [reflexivity|]. split; [exists delta; split; [exact E|reflexivity]|].
    split; [reflexivity|]. right. split; [exact Eq|]. split; [reflexivity|].
    left. split; [exact E0|reflexivity]. }
  apply Z.eqb_neq in E0.
  destruct (CardDB.repetitions card =? 1) eqn:E1.
  { intros H. apply reschedule_inv in H as [-> ->]. apply Z.eqb_eq in E1.
    split; [reflexivity|]. split; [exists delta; split; [exact E|reflexivity]|].
    split; [reflexivity|]. right. split; [exact Eq|]. split; [reflexivity|].
    right. left. split; [exact E1|reflexivity]. }
  apply Z.eqb_neq in E1.
  destruct (int_times_float _ _) as [p|e] eqn:Ep; [|discriminate].
  destruct (Py.round p) as [r|e] eqn:Er; [|discriminate].
  intros H. apply reschedule_inv in H as [-> ->].
  split; [reflexivity|]. split; [exists delta; split; [exact E|reflexivity]|].
  split; [reflexivity|]. right.
  split; [exact Eq|]. split; [reflexivity|]. right. right.
  split; [exact E0|]. split; [exact E1|]. exists p. split; [exact Ep|exact Er].
Qed.

Lemma calculate_sm2_failure (card : CardDB.t) (quality : Z) (now : datetime) :
  quality < 3 ->
  0 <= now <= datetime_max - us_per_day ->
  exists c',
    calculate_sm2 card quality now = (Ok c', c') /\
    CardDB.repetitions c' = 0 /\ CardDB.interval c' = 1 /\
    CardDB.next_review c' = now + us_per_day.
Proof.
  intros Hq Hnow.
  destruct (calculate_sm2_eq card quality now) as (delta & E & ->). cbv zeta.
  assert ((Z.max 0 (Z.min 5 quality) <? 3) = true) as ->
    by (apply Z.ltb_lt; lia).
  rewrite reschedule_returns.
  - eexists. split; [reflexivity|]. cbn. auto.
  - cbn. calendar.
  - cbn. calendar.
Qed.

Lemma calculate_sm2_first_successes
    (card : CardDB.t) (quality : Z) (now : datetime) :
  3 <= quality ->
  CardDB.repetitions card = 0 \/ CardDB.repetitions card = 1 ->
  0 <= now <= datetime_max - 6 * us_per_day ->
  exists c',
    calculate_sm2 card quality now = (Ok c', c') /\
    CardDB.repetitions c' = CardDB.repetitions card + 1 /\
    CardDB.interval c' = (if CardDB.repetitions card =? 0 then 1 else 6).
Proof.
  intros Hq Hreps Hnow.
  destruct (calculate_sm2_eq card quality now) as (delta & E & ->). cbv zeta.
  assert ((Z.max 0 (Z.min 5 quality) <? 3) = false) as ->
    by (apply Z.ltb_ge; lia).
  destruct Hreps as [H | H]; rewrite H; cbn [Z.eqb Pos.eqb].
  - rewrite reschedule_returns.
    + eexists. split; [reflexivity|]. cbn. auto.
    + cbn. calendar.
    + cbn. calendar.
  - rewrite reschedule_returns.
    + eexists. split; [reflexivity|]. cbn. auto.
    + cbn. calendar.
    + cbn. calendar.
Qed.

Lemma calculate_sm2_later_success
    (card : CardDB.t) (quality : Z) (now : datetime)
    (delta p : float) (r : Z) :
  3 <= quality ->
  CardDB.repetitions card <> 0 -> CardDB.repetitions card <> 1 ->
  ease_delta (Z.max 0 (Z.min 5 quality)) = Ok delta ->
  int_times_float (CardDB.interval card)
    (Py.max 1.3 (CardDB.ease_factor card + delta)) = Ok p ->
  Py.round p = Ok r ->
  - max_delta_days <= r <= max_delta_days ->
  0 <= now + r * us_per_day <= datetime_max ->
  exists c',
    calculate_sm2 card quality now = (Ok c', c') /\
    CardDB.interval c' = r /\
    CardDB.repetitions c' = CardDB.repetitions card + 1.
Proof.
  intros Hq H0 H1 Hd Hp Hr Hdays Hdate.
  destruct (calculate_sm2_eq card quality now) as (delta' & E & ->). cbv zeta.
  rewrite Hd in E. injection E as <-.
  assert ((Z.max 0 (Z.min 5 quality) <? 3) = false) as ->
    by (apply Z.ltb_ge; lia).
  apply Z.eqb_neq in H0, H1. rewrite H0, H1.
  cbn [CardDB.ease_factor CardDB.set_ease_factor].
  rewrite Hp, Hr. rewrite reschedule_returns.
  - eexists. split; [reflexivity|]. split; reflexivity.
  - exact Hdays.
  - exact Hdate.
Qed.

(** ** The claims about [calculate_sm2] *)

(** C10. [calculate_sm2] assigns to [ease_factor], [interval],
    [repetitions] and [next_review] only: whether the call returns or
    raises, the card's [id], [word], [translation], [grammar], [example],
    [audio_url], [created_at], [updated_at] and [history] are what they
    were, and the value returned is the card itself. *)
Theorem calculate_sm2_frame (card : CardDB.t) (quality : Z) (now : datetime) :
  let after := snd (calculate_sm2 card quality now) in
  CardDB.id after = CardDB.id card /\
  CardDB.word after = CardDB.word card /\
  CardDB.translation after = CardDB.translation card /\
  CardDB.grammar after = CardDB.grammar card /\
  CardDB.example after = CardDB.example card /\
  CardDB.audio_url after = CardDB.audio_url card /\
  CardDB.created_at after = CardDB.created_at card /\
  CardDB.updated_at after = CardDB.updated_at card /\
  CardDB.history after = CardDB.history card /\
  match fst (calculate_sm2 card quality now) with
  | Ok c' => c' = after
  | Raise _ => True
  end.
Proof.
  cbv zeta.
  destruct (calculate_sm2_after card quality now)
    as (delta & _ & i & r & t & Hs & Hf).
  destruct (fst (calculate_sm2 card quality now)) as [c'|e];
    rewrite Hs in *; cbn; intuition.
Qed.

(** C5. Whatever the card and the quality, the ease factor the call
    leaves on the card is at least 1.3 (Python's [1.3 <= ease_factor]),
    and so is the one of the card it returns: in particular from an ease
    factor of at least 1.3 and a quality in 0..5. *)
Theorem ease_factor_floor (card : CardDB.t) (quality : Z) (now : datetime) :
  (1.3 <=? CardDB.ease_factor (snd (calculate_sm2 card quality now)))%float
  = true /\
  match fst (calculate_sm2 card quality now) with
  | Ok c' => (1.3 <=? CardDB.ease_factor c')%float = true
  | Raise _ => True
  end.
Proof.
  destruct (calculate_sm2_after card quality now)
    as (delta & _ & i & r & t & Hs & Hf).
  assert (H : (1.3 <=? CardDB.ease_factor
                         (snd (calculate_sm2 card quality now)))%float = true).
  { rewrite Hs. cbn [CardDB.ease_factor CardDB.set_next_review
      CardDB.set_repetitions CardDB.set_interval CardDB.set_ease_factor].
    apply max_floor. }
  split; [exact H|].
  destruct (fst (calculate_sm2 card quality now)); [subst; exact H|exact I].
Qed.

(** C4. A review of quality below 3 returns the card with [repetitions]
    0 and [interval] 1, whatever the card was (the clock reading at least a
    day before [datetime.max]); the same card with any other ease factor
    gets the same two values; and so does a second failing review of the
    card returned. *)
Theorem failure_resets
    (card : CardDB.t) (ef : float) (q1 q2 : Z) (now1 now2 : datetime) :
  q1 < 3 -> q2 < 3 ->
  0 <= now1 <= datetime_max - us_per_day ->
  0 <= now2 <= datetime_max - us_per_day ->
  exists c1 c1' c2,
    calculate_sm2 card q1 now1 = (Ok c1, c1) /\
    CardDB.repetitions c1 = 0 /\ CardDB.interval c1 = 1 /\
    calculate_sm2 (CardDB.set_ease_factor ef card) q1 now1 = (Ok c1', c1') /\
    CardDB.repetitions c1' = 0 /\ CardDB.interval c1' = 1 /\
    calculate_sm2 c1 q2 now2 = (Ok c2, c2) /\
    CardDB.repetitions c2 = 0 /\ CardDB.interval c2 = 1.
Proof.
  intros Hq1 Hq2 Hn1 Hn2.
  destruct (calculate_sm2_failure card q1 now1 Hq1 Hn1)
    as (c1 & E1 & R1 & I1 & _).
  destruct (calculate_sm2_failure (CardDB.set_ease_factor ef card) q1 now1
              Hq1 Hn1) as (c1' & E1' & R1' & I1' & _).
  destruct (calculate_sm2_failure c1 q2 now2 Hq2 Hn2)
    as (c2 & E2 & R2 & I2 & _).
  exists c1, c1', c2. repeat (split; [assumption|]). assumption.
Qed.

Lemma failure_resets_witness :
  exists c1 c1' c2,
    calculate_sm2 Sample.fresh 2 Sample.clock = (Ok c1, c1) /\
    CardDB.repetitions c1 = 0 /\ CardDB.interval c1 = 1 /\
    calculate_sm2 (CardDB.set_ease_factor 1.3 Sample.fresh) 2 Sample.clock
    = (Ok c1', c1') /\
    CardDB.repetitions c1' = 0 /\ CardDB.interval c1' = 1 /\
    calculate_sm2 c1 0 Sample.clock = (Ok c2, c2) /\
    CardDB.repetitions c2 = 0 /\ CardDB.interval c2 = 1.
Proof.
  apply (failure_resets Sample.fresh 1.3 2 0 Sample.clock Sample.clock);
    vm_compute; try reflexivity; split; discriminate.
Defined.

(** C3. From [repetitions] 0, [interval] 0 and [ease_factor] 2.5, three
    reviews of quality 5 return [interval] 1 and [repetitions] 1, then 6
    and 2, then [round(6 * ease_factor)] and 3, where [ease_factor] is the
    one the third review has just assigned (the interval is then 17). In
    general a review of quality 3 or more that returns has added 1 to
    [repetitions] and has chosen the interval from the [repetitions] it
    found (0: 1; 1: 6; else [round(interval * ease_factor)] with the old
    interval and the new ease factor); one of quality below 3 has put
    [repetitions] to 0. *)
Theorem first_success_sequencing
    (card : CardDB.t) (now1 now2 now3 : datetime)
    (card' c' : CardDB.t) (quality : Z) (now : datetime) :
  (CardDB.repetitions card = 0 -> CardDB.interval card = 0 ->
   CardDB.ease_factor card = 2.5%float ->
   0 <= now1 <= datetime_max - 17 * us_per_day ->
   0 <= now2 <= datetime_max - 17 * us_per_day ->
   0 <= now3 <= datetime_max - 17 * us_per_day ->
   exists c1 c2 c3 p,
     calculate_sm2 card 5 now1 = (Ok c1, c1) /\
     CardDB.interval c1 = 1 /\ CardDB.repetitions c1 = 1 /\
     calculate_sm2 c1 5 now2 = (Ok c2, c2) /\
     CardDB.interval c2 = 6 /\ CardDB.repetitions c2 = 2 /\
     calculate_sm2 c2 5 now3 = (Ok c3, c3) /\
     int_times_float 6 (CardDB.ease_factor c3) = Ok p /\
     Py.round p = Ok (CardDB.interval c3) /\
     CardDB.interval c3 = 17 /\ CardDB.repetitions c3 = 3) /\
  (calculate_sm2 card' quality now = (Ok c', c') ->
   if quality <? 3 then CardDB.repetitions c' = 0
   else
     CardDB.repetitions c' = CardDB.repetitions card' + 1 /\
     (CardDB.repetitions card' = 0 /\ CardDB.interval c' = 1 \/
      CardDB.repetitions card' = 1 /\ CardDB.interval c' = 6 \/
      CardDB.repetitions card' <> 0 /\ CardDB.repetitions card' <> 1 /\
      exists p,
        int_times_float (CardDB.interval card') (CardDB.ease_factor c') = Ok p /\
        Py.round p = Ok (CardDB.interval c'))).
Proof.
  split.
  - intros Hr Hi He Hn1 Hn2 Hn3.
    destruct (calculate_sm2_first_successes card 5 now1)
      as (c1 & E1 & R1 & I1); [lia|auto|calendar|].
    rewrite Hr in R1, I1. cbn in R1, I1.
    destruct (calculate_sm2_returned _ _ _ _ _ E1)
      as (_ & (d1 & Ed1 & F1) & _).
    vm_compute in Ed1. injection Ed1 as <-. rewrite He in F1.
    destruct (calculate_sm2_first_successes c1 5 now2)
      as (c2 & E2 & R2 & I2); [lia|auto|calendar|].
    rewrite R1 in R2, I2. cbn in R2, I2.
    destruct (calculate_sm2_returned _ _ _ _ _ E2)
      as (_ & (d2 & Ed2 & F2) & _).
    vm_compute in Ed2. injection Ed2 as <-. rewrite F1 in F2.
    assert (Hp3 : int_times_float (CardDB.interval c2)
                    (Py.max 1.3 (CardDB.ease_factor c2 + 0.1))
                  = Ok 16.800000000000001%float)
      by (rewrite I2, F2; vm_compute; reflexivity).
    assert (Hr3 : Py.round 16.800000000000001%float = Ok 17)
      by (vm_compute; reflexivity).
    destruct (calculate_sm2_later_success c2 5 now3 _ _ _
                ltac:(lia) ltac:(lia) ltac:(lia) eq_refl Hp3 Hr3
                ltac:(calendar) ltac:(calendar))
      as (c3 & E3 & I3 & R3).
    destruct (calculate_sm2_returned _ _ _ _ _ E3)
      as (_ & _ & _ & [(Hq & _) | (_ & _ & [(H & _) | [(H & _) | H]])]);
      try (vm_compute in Hq; discriminate); try (rewrite R2 in H; lia).
    destruct H as (_ & _ & p & Hp & Hround).
    rewrite I2 in Hp. rewrite I3 in Hround. rewrite R2 in R3.
    exists c1, c2, c3, p. rewrite I3. repeat (split; [assumption|]).
    split; [reflexivity|exact R3].
  - intros E.
    destruct (calculate_sm2_returned _ _ _ _ _ E)
      as (_ & _ & _ & [(Hq & R & _) | (Hq & R & H)]).
    + assert ((quality <? 3) = true) as -> by (apply Z.ltb_lt; lia). exact R.
    + assert ((quality <? 3) = false) as -> by (apply Z.ltb_ge; lia).
      split; [exact R | exact H].
Qed.

Lemma first_success_sequencing_witness :
  (exists c1 c2 c3 p,
     calculate_sm2 Sample.fresh 5 Sample.clock = (Ok c1, c1) /\
     CardDB.interval c1 = 1 /\ CardDB.repetitions c1 = 1 /\
     calculate_sm2 c1 5 Sample.clock = (Ok c2, c2) /\
     CardDB.interval c2 = 6 /\ CardDB.repetitions c2 = 2 /\
     calculate_sm2 c2 5 Sample.clock = (Ok c3, c3) /\
     int_times_float 6 (CardDB.ease_factor c3) = Ok p /\
     Py.round p = Ok (CardDB.interval c3) /\
     CardDB.interval c3 = 17 /\ CardDB.repetitions c3 = 3) /\
  CardDB.repetitions (snd (calculate_sm2 Sample.stalled 4 Sample.clock)) = 3.
Proof.
  destruct (first_success_sequencing Sample.fresh
              Sample.clock Sample.clock Sample.clock
              Sample.stalled (snd (calculate_sm2 Sample.stalled 4 Sample.clock))
              4 Sample.clock) as [H1 H2].
  split.
  - apply H1; vm_compute; try reflexivity; split; discriminate.
  - apply H2. vm_compute. reflexivity.
Defined.

(** C9, as the code has it. The new ease factor is
    [max(1.3, ease_factor + (0.1 - (5 - q) * (0.08 + (5 - q) * 0.02)))] on
    the ease factor the card had and the clamped quality [q], in binary64
    arithmetic. From 2.5, quality 5 gives the double 2.6; quality 0 gives
    the double after 1.7 (1.7000000000000002, [0x1.b333333333334p+0]), with
    [repetitions] 0 and [interval] 1. *)
Theorem ease_factor_recurrence
    (card : CardDB.t) (quality : Z) (now : datetime) :
  (exists delta,
     ease_delta (Z.max 0 (Z.min 5 quality)) = Ok delta /\
     CardDB.ease_factor (snd (calculate_sm2 card quality now))
     = Py.max 1.3 (CardDB.ease_factor card + delta)) /\
  (CardDB.ease_factor card = 2.5%float ->
   0 <= now <= datetime_max - us_per_day ->
   CardDB.ease_factor (snd (calculate_sm2 card 5 now)) = 2.6%float /\
   exists c',
     calculate_sm2 card 0 now = (Ok c', c') /\
     CardDB.ease_factor c' = 0x1.b333333333334p+0%float /\
     CardDB.ease_factor c' = next_up 1.7 /\
     CardDB.repetitions c' = 0 /\ CardDB.interval c' = 1).
Proof.
  assert (G : forall q,
    exists delta,
      ease_delta (Z.max 0 (Z.min 5 q)) = Ok delta /\
      CardDB.ease_factor (snd (calculate_sm2 card q now))
      = Py.max 1.3 (CardDB.ease_factor card + delta)).
  { intros q.
    destruct (calculate_sm2_after card q now)
      as (delta & E & i & r & t & Hs & _).
    exists delta. split; [exact E|]. rewrite Hs. reflexivity. }
  split; [apply G|]. intros He Hnow. split.
  - destruct (G 5) as (delta & E & ->).
    vm_compute in E. injection E as <-. rewrite He. vm_compute. reflexivity.
  - destruct (calculate_sm2_failure card 0 now) as (c' & E & R & I0 & _);
      [lia|exact Hnow|].
    destruct (G 0) as (delta & Ed & F). rewrite E in F. cbn [snd] in F.
    vm_compute in Ed. injection Ed as <-. rewrite He in F.
    exists c'. split; [exact E|].
    split; [rewrite F; vm_compute; reflexivity|].
    split; [rewrite F; vm_compute; reflexivity|]. auto.
Qed.

Lemma ease_factor_recurrence_witness :
  CardDB.ease_factor (snd (calculate_sm2 Sample.fresh 5 Sample.clock))
  = 2.6%float /\
  exists c',
    calculate_sm2 Sample.fresh 0 Sample.clock = (Ok c', c') /\
    CardDB.ease_factor c' = 0x1.b333333333334p+0%float /\
    CardDB.ease_factor c' = next_up 1.7 /\
    CardDB.repetitions c' = 0 /\ CardDB.interval c' = 1.
Proof.
  apply (proj2 (ease_factor_recurrence Sample.fresh 0 Sample.clock)).
  - reflexivity.
  - vm_compute. split; discriminate.
Defined.

(** C9 as stated fails: from 2.5, quality 0 leaves an ease factor that is
    not the double 1.7 (Python's [ease_factor == 1.7] is [False]). *)
Lemma ease_factor_after_blackout_is_not_1_7 :
  let c' := snd (calculate_sm2 Sample.fresh 0 Sample.clock) in
  CardDB.ease_factor Sample.fresh = 2.5%float /\
  CardDB.ease_factor c' <> 1.7%float /\
  (CardDB.ease_factor c' =? 1.7)%float = false.
Proof.
  cbv zeta. split; [reflexivity|]. split; [|vm_compute; reflexivity].
  intros H. apply (f_equal Prim2SF) in H. vm_compute in H. discriminate.
Qed.

(** ** Binary64 magnitudes *)

(** The number of binary digits of a mantissa. *)
Lemma digits2_bounds (m : positive) :
  2 ^ (Zpos (digits2_pos m) - 1) <= Zpos m < 2 ^ Zpos (digits2_pos m).
Proof.
  induction m as [m IH | m IH | ]; cbn [digits2_pos].
  - rewrite Pos2Z.inj_succ, (Pos2Z.inj_xI m).
    replace (Z.succ (Zpos (digits2_pos m)) - 1)
      with (Z.succ (Zpos (digits2_pos m) - 1)) by lia.
    rewrite !Z.pow_succ_r by lia.
    destruct IH as [IH1 IH2]. revert IH1 IH2.
    generalize (2 ^ (Zpos (digits2_pos m) - 1)), (2 ^ Zpos (digits2_pos m)).
    lia.
  - rewrite Pos2Z.inj_succ, (Pos2Z.inj_xO m).
    replace (Z.succ (Zpos (digits2_pos m)) - 1)
      with (Z.succ (Zpos (digits2_pos m) - 1)) by lia.
    rewrite !Z.pow_succ_r by lia.
    destruct IH as [IH1 IH2]. revert IH1 IH2.
    generalize (2 ^ (Zpos (digits2_pos m) - 1)), (2 ^ Zpos (digits2_pos m)).
    lia.
  - cbn. lia.
Qed.

Lemma digits2_unique (m : positive) (k : Z) :
  2 ^ (k - 1) <= Zpos m < 2 ^ k -> Zpos (digits2_pos m) = k.
Proof.
  intros [Hlo Hhi]. pose proof (digits2_bounds m) as [Dlo Dhi].
  assert (0 < k).
  { destruct (Z.lt_ge_cases 0 k) as [|Hk]; [assumption|].
    assert (2 ^ k <= 2 ^ 0) by (apply Z.pow_le_mono_r; lia).
    change (2 ^ 0) with 1 in *. lia. }
  assert (k - 1 < Zpos (digits2_pos m)).
  { apply (Z.pow_lt_mono_r_iff 2); lia. }
  assert (Zpos (digits2_pos m) - 1 < k).
  { apply (Z.pow_lt_mono_r_iff 2); lia. }
  lia.
Qed.

Lemma digits2_mono (m m' : positive) :
  Zpos m <= Zpos m' -> Zpos (digits2_pos m) <= Zpos (digits2_pos m').
Proof.
  intros H. pose proof (digits2_bounds m) as [Dlo _].
  pose proof (digits2_bounds m') as [_ Dhi'].
  assert (Zpos (digits2_pos m) - 1 < Zpos (digits2_pos m')).
  { apply (Z.pow_lt_mono_r_iff 2); lia. }
  lia.
Qed.

Lemma digits2_mul (m m' : positive) :
  Zpos (digits2_pos m) + Zpos (digits2_pos m') - 1
  <= Zpos (digits2_pos (m * m')).
Proof.
  pose proof (digits2_bounds m) as [Dlo _].
  pose proof (digits2_bounds m') as [Dlo' _].
  pose proof (digits2_bounds (m * m')) as [_ Dhi].
  assert (2 ^ (Zpos (digits2_pos m) - 1 + (Zpos (digits2_pos m') - 1))
          <= Zpos (m * m')).
  { rewrite Z.pow_add_r by lia. rewrite Pos2Z.inj_mul.
    apply Z.mul_le_mono_nonneg; try lia; apply Z.pow_nonneg; lia. }
  assert (Zpos (digits2_pos m) - 1 + (Zpos (digits2_pos m') - 1)
          < Zpos (digits2_pos (m * m'))).
  { apply (Z.pow_lt_mono_r_iff 2); lia. }
  lia.
Qed.

Lemma digits2_shl (m d : positive) :
  Zpos (digits2_pos (Pos.iter xO m d)) = Zpos (digits2_pos m) + Zpos d.
Proof.
  induction d as [|d IH] using Pos.peano_ind.
  - cbn. lia.
  - rewrite Pos.iter_succ. cbn [digits2_pos]. lia.
Qed.

(** Shifting a mantissa right. *)
Lemma shr_1_m (mrs : shr_record) :
  0 <= shr_m mrs -> shr_m (shr_1 mrs) = shr_m mrs / 2.
Proof.
  destruct mrs as [m r s]. cbn [shr_m]. intros H.
  rewrite <- Z.div2_div.
  destruct m as [|[p|p|]|p]; try reflexivity. lia.
Qed.

Lemma iter_shr_1_m (p : positive) (mrs : shr_record) :
  0 <= shr_m mrs ->
  shr_m (iter_pos shr_1 p mrs) = shr_m mrs / 2 ^ Zpos p.
Proof.
  revert mrs. induction p as [p IH | p IH | ]; intros mrs H; cbn [iter_pos].
  - assert (H1 : 0 <= shr_m (shr_1 mrs))
      by (rewrite shr_1_m by exact H; apply Z.div_pos; lia).
    assert (H2 : 0 <= shr_m (iter_pos shr_1 p (shr_1 mrs)))
      by (rewrite IH by exact H1; apply Z.div_pos; [lia|apply Z.pow_pos_nonneg; lia]).
    rewrite IH by exact H2. rewrite IH by exact H1. rewrite shr_1_m by exact H.
    rewrite !Z.div_div by (try apply Z.pow_pos_nonneg; lia).
    f_equal. rewrite (Pos2Z.inj_xI p).
    replace (2 * Zpos p + 1) with (1 + Zpos p + Zpos p) by lia.
    rewrite !Z.pow_add_r by lia. lia.
  - assert (H2 : 0 <= shr_m (iter_pos shr_1 p mrs))
      by (rewrite IH by exact H; apply Z.div_pos; [lia|apply Z.pow_pos_nonneg; lia]).
    rewrite IH by exact H2. rewrite IH by exact H.
    rewrite !Z.div_div by (try apply Z.pow_pos_nonneg; lia).
    f_equal. rewrite (Pos2Z.inj_xO p).
    replace (2 * Zpos p) with (Zpos p + Zpos p) by lia.
    rewrite !Z.pow_add_r by lia. lia.
  - rewrite shr_1_m by exact H. reflexivity.
Qed.

(** In the normal range [fexp] leaves 53 digits. *)
Lemma fexp_normal (x : Z) : -1021 <= x -> fexp prec emax x = x - 53.
Proof. unfold fexp, SpecFloat.emin, prec, emax. lia. Qed.

Lemma shr_record_of_loc_m (m : Z) (l : location) :
  shr_m (shr_record_of_loc m l) = m.
Proof. destruct l as [|[]]; reflexivity. Qed.

Lemma shr_fexp_normal (m : positive) (e : Z) (l : location) :
  -1021 <= Zpos (digits2_pos m) + e ->
  exists mrs m',
    shr_fexp prec emax (Zpos m) e l
    = (mrs, e + Z.max 0 (Zpos (digits2_pos m) - 53)) /\
    shr_m mrs = Zpos m' /\
    Zpos (digits2_pos m') = Z.min (Zpos (digits2_pos m)) 53 /\
    (Zpos (digits2_pos m) <= 53 -> mrs = shr_record_of_loc (Zpos m) l).
Proof.
  intros Hn. unfold shr_fexp. cbn [Zdigits2]. rewrite fexp_normal by exact Hn.
  replace (Zpos (digits2_pos m) + e - 53 - e)
    with (Zpos (digits2_pos m) - 53) by lia.
  destruct (Zpos (digits2_pos m) - 53) as [|p|p] eqn:Ep; cbn [shr].
  - exists (shr_record_of_loc (Zpos m) l), m.
    rewrite shr_record_of_loc_m, Z.add_0_r. repeat split. lia.
  - pose proof (digits2_bounds m) as [Dlo Dhi].
    assert (Hm : shr_m (iter_pos shr_1 p (shr_record_of_loc (Zpos m) l))
                 = Zpos m / 2 ^ Zpos p).
    { rewrite iter_shr_1_m; rewrite shr_record_of_loc_m; [reflexivity|lia]. }
    assert (Hp : 0 < 2 ^ Zpos p) by (apply Z.pow_pos_nonneg; lia).
    replace (Zpos (digits2_pos m) - 1) with (Zpos p + 52) in Dlo by lia.
    replace (Zpos (digits2_pos m)) with (Zpos p + 53) in Dhi by lia.
    rewrite Z.pow_add_r in Dlo, Dhi by lia.
    assert (Hlo : 2 ^ 52 <= Zpos m / 2 ^ Zpos p)
      by (apply Z.div_le_lower_bound; lia).
    assert (Hhi : Zpos m / 2 ^ Zpos p < 2 ^ 53)
      by (apply Z.div_lt_upper_bound; lia).
    destruct (Zpos m / 2 ^ Zpos p) as [|m'|m'] eqn:Eq;
      [change (2 ^ 52) with 4503599627370496 in Hlo; lia| |lia].
    exists (iter_pos shr_1 p (shr_record_of_loc (Zpos m) l)), m'.
    rewrite (Z.max_r 0 (Zpos p)) by lia. split; [reflexivity|].
    split; [exact Hm|].
    rewrite (digits2_unique m' 53) by (split; assumption). lia.
  - exists (shr_record_of_loc (Zpos m) l), m.
    rewrite shr_record_of_loc_m, (Z.max_l 0 (Zneg p)), Z.add_0_r by lia.
    repeat split. lia.
Qed.

Lemma digits2_succ (m : positive) :
  Zpos (digits2_pos (m + 1)) <= Zpos (digits2_pos m) + 1.
Proof.
  pose proof (digits2_bounds m) as [_ Dhi].
  pose proof (digits2_bounds (m + 1)) as [Dlo' _].
  assert (Zpos (digits2_pos (m + 1)) - 1 < Zpos (digits2_pos m) + 1).
  { apply (Z.pow_lt_mono_r_iff 2); try lia.
    rewrite Z.pow_add_r by lia. change (2 ^ 1) with 2. lia. }
  lia.
Qed.

Lemma round_nearest_even_pos (m : positive) (l : location) :
  exists m',
    round_nearest_even (Zpos m) l = Zpos m' /\
    Zpos (digits2_pos m) <= Zpos (digits2_pos m')
    <= Zpos (digits2_pos m) + 1.
Proof.
  pose proof (digits2_succ m) as Hs.
  assert (Hm : Zpos (digits2_pos m) <= Zpos (digits2_pos (m + 1)))
    by (apply digits2_mono; lia).
  destruct l as [|[]]; cbn [round_nearest_even];
    try (exists m; split; [reflexivity|lia]).
  - destruct (Z.even (Zpos m)).
    + exists m. split; [reflexivity|lia].
    + exists (m + 1)%positive. split; [reflexivity|lia].
  - exists (m + 1)%positive. split; [reflexivity|lia].
Qed.

(** Rounding a mantissa of the normal range: the magnitude stays or grows
    by one, and stays when the mantissa had 53 digits or fewer; the result
    is the infinity only from a magnitude of 972 or more. *)
Lemma binary_round_aux_magnitude (sx : bool) (m : positive) (e : Z) :
  -1021 <= Zpos (digits2_pos m) + e ->
  binary_round_aux prec emax sx (Zpos m) e loc_Exact = S754_infinity sx /\
  972 <= Zpos (digits2_pos m) + e \/
  exists m' e',
    binary_round_aux prec emax sx (Zpos m) e loc_Exact = S754_finite sx m' e' /\
    Zpos (digits2_pos m) + e <= Zpos (digits2_pos m') + e'
    <= Zpos (digits2_pos m) + e + 1 /\
    Zpos (digits2_pos m') <= 53 /\
    (Zpos (digits2_pos m) <= 53 ->
     Zpos (digits2_pos m') + e' = Zpos (digits2_pos m) + e).
Proof.
  intros Hn. unfold binary_round_aux.
  destruct (shr_fexp_normal m e loc_Exact Hn)
    as (mrs & m1 & -> & Hm1 & HD1 & Hrec).
  rewrite Hm1.
  destruct (round_nearest_even_pos m1 (loc_of_shr_record mrs))
    as (m2 & Hr & H12).
  rewrite Hr.
  destruct (shr_fexp_normal m2 (e + Z.max 0 (Zpos (digits2_pos m) - 53))
              loc_Exact) as (mrs2 & m3 & -> & Hm3 & HD3 & _); [lia|].
  rewrite Hm3.
  destruct (_ <=? _) eqn:Ee; [right|left].
  - exists m3, (e + Z.max 0 (Zpos (digits2_pos m) - 53)
                + Z.max 0 (Zpos (digits2_pos m2) - 53)).
    split; [reflexivity|]. split; [lia|]. split; [lia|].
    intros HD. rewrite (Hrec HD) in Hr. cbn in Hr. injection Hr as <-. lia.
  - split; [reflexivity|]. apply Z.leb_gt in Ee.
    unfold prec, emax in Ee. lia.
Qed.

Lemma binary_round_magnitude (sx : bool) (m : positive) (e : Z) :
  -1021 <= Zpos (digits2_pos m) + e ->
  binary_round prec emax sx m e = S754_infinity sx /\
  972 <= Zpos (digits2_pos m) + e \/
  exists m' e',
    binary_round prec emax sx m e = S754_finite sx m' e' /\
    Zpos (digits2_pos m) + e <= Zpos (digits2_pos m') + e'
    <= Zpos (digits2_pos m) + e + 1 /\
    Zpos (digits2_pos m') <= 53 /\
    (Zpos (digits2_pos m) <= 53 ->
     Zpos (digits2_pos m') + e' = Zpos (digits2_pos m) + e).
Proof.
  intros Hn. unfold binary_round, shl_align.
  rewrite fexp_normal by exact Hn.
  destruct (Zpos (digits2_pos m) + e - 53 - e) as [|d|d] eqn:Ed;
    try (apply binary_round_aux_magnitude; exact Hn).
  destruct (binary_round_aux_magnitude sx (Pos.iter xO m d)
              (Zpos (digits2_pos m) + e - 53))
    as [(H & Hinf) | (m' & e' & H & Hmag & HD & Hex)];
    rewrite ?digits2_shl in *; try lia; [left|right].
  - split; [exact H|lia].
  - exists m', e'. split; [exact H|]. lia.
Qed.

(** ** What [round(interval * ease_factor)] is at least *)

Lemma at_least_1_3 (x : float) :
  (1.3 <=? x)%float = true -> at_least 1 (Prim2SF x).
Proof.
  rewrite leb_spec.
  change (Prim2SF 1.3) with (S754_finite false 5854679515581645 (-52)).
  pose proof (Prim2SF_valid x) as Hv.
  destruct (Prim2SF x) as [s|s| |s m e]; try destruct s;
    unfold SFleb, SFcompare; try discriminate.
  - left. reflexivity.
  - intros H. right. exists m, e. split; [reflexivity|].
    assert (He : -52 <= e)
      by (destruct (Z.compare_spec (-52) e); try lia; discriminate H).
    cbn in Hv. apply andb_prop in Hv as [Hc _].
    unfold canonical_mantissa in Hc. apply Z.eqb_eq in Hc.
    unfold fexp, SpecFloat.emin, prec, emax in Hc. lia.
Qed.

Lemma float_of_int_at_least_1 (n : Z) (f : float) :
  1 <= n -> float_of_int n = Ok f -> at_least 1 (Prim2SF f).
Proof.
  intros Hn. unfold float_of_int.
  destruct n as [|q|q]; try lia. cbn [binary_normalize].
  pose proof (digits2_bounds q) as _.
  destruct (binary_round_magnitude false q 0)
    as [(-> & _) | (m & e & -> & Hmag & HD & _)]; [lia|discriminate|].
  intros [= <-]. cbn [SF2Prim].
  rewrite Z_ldexp_spec, of_uint63_spec.
  change (Uint63Axioms.of_pos m) with (Uint63Axioms.of_Z (Zpos m)).
  rewrite Uint63.of_Z_spec.
  rewrite Z.mod_small.
  2:{ pose proof (digits2_bounds m) as [_ Hhi]. split; [lia|].
      apply Z.lt_le_trans with (1 := Hhi).
      change Uint63.wB with (2 ^ 63). apply Z.pow_le_mono_r; lia. }
  cbn [binary_normalize].
  destruct (binary_round_magnitude false m 0)
    as [(-> & _) | (m2 & e2 & -> & Hmag2 & HD2 & _)]; [lia|left; reflexivity|].
  cbn [SFldexp].
  destruct (binary_round_magnitude false m2 (e2 + e))
    as [(-> & _) | (m3 & e3 & -> & Hmag3 & HD3 & _)]; [lia|left; reflexivity|].
  right. exists m3, e3. split; [reflexivity|lia].
Qed.

Lemma mul_at_least_1 (f x : float) :
  at_least 1 (Prim2SF f) -> at_least 1 (Prim2SF x) ->
  at_least 1 (Prim2SF (f * x)).
Proof.
  rewrite mul_spec. unfold SF64mul.
  intros [-> | (mf & ef & -> & Hf)] [-> | (mx & ex & -> & Hx)];
    cbn [SFmul xorb]; try (left; reflexivity).
  pose proof (digits2_mul mf mx) as Hmul.
  destruct (binary_round_aux_magnitude false (mf * mx) (ef + ex))
    as [(-> & _) | (m & e & -> & Hmag & _)]; [lia|left; reflexivity|].
  right. exists m, e. split; [reflexivity|lia].
Qed.

Lemma round_half_even_at_least_1 (m : positive) (e : Z) :
  1 <= Zpos (digits2_pos m) + e -> 1 <= round_half_even (Zpos m) e.
Proof.
  intros Hmag. unfold round_half_even.
  pose proof (digits2_bounds m) as [Dlo _].
  destruct (0 <=? e) eqn:He.
  - apply Z.leb_le in He.
    assert (0 < 2 ^ e) by (apply Z.pow_pos_nonneg; lia). nia.
  - apply Z.leb_gt in He. cbv zeta.
    assert (Hd : 0 < 2 ^ (- e)) by (apply Z.pow_pos_nonneg; lia).
    assert (Hle : 2 ^ (- e) <= 2 ^ (Zpos (digits2_pos m) - 1))
      by (apply Z.pow_le_mono_r; lia).
    assert (Hq : 1 <= Zpos m / 2 ^ (- e))
      by (apply Z.div_le_lower_bound; lia).
    destruct (2 * (Zpos m mod 2 ^ (- e)) ?= 2 ^ (- e)); try lia.
    destruct (Z.even (Zpos m / 2 ^ (- e))); lia.
Qed.

Lemma round_at_least_1 (p : float) (r : Z) :
  at_least 1 (Prim2SF p) -> Py.round p = Ok r -> 1 <= r.
Proof.
  unfold Py.round. intros [-> | (m & e & -> & Hmag)]; [discriminate|].
  intros [= <-]. cbn [cond_Zopp]. apply round_half_even_at_least_1, Hmag.
Qed.

(** [round(interval * ease_factor)] is at least 1 when [interval] is and
    [ease_factor] is at least 1.3. *)
Lemma round_product_at_least_1 (n : Z) (x p : float) (r : Z) :
  1 <= n -> (1.3 <=? x)%float = true ->
  int_times_float n x = Ok p -> Py.round p = Ok r -> 1 <= r.
Proof.
  intros Hn Hx. unfold int_times_float.
  destruct (float_of_int n) as [f|] eqn:Ef; [|discriminate].
  intros [= <-]. apply round_at_least_1, mul_at_least_1.
  - exact (float_of_int_at_least_1 n f Hn Ef).
  - exact (at_least_1_3 x Hx).
Qed.

Lemma round_product_nonneg (n : Z) (x p : float) (r : Z) :
  0 <= n -> (1.3 <=? x)%float = true ->
  int_times_float n x = Ok p -> Py.round p = Ok r -> 0 <= r.
Proof.
  intros Hn Hx Hp Hr. destruct (Z.eq_dec n 0) as [-> | Hn0].
  - unfold int_times_float in Hp. cbn in Hp. injection Hp as <-.
    unfold Py.round in Hr. rewrite mul_spec in Hr.
    change (Prim2SF 0) with (S754_zero false) in Hr.
    destruct (at_least_1_3 x Hx) as [E | (m & e & E & _)];
      rewrite E in Hr; cbn in Hr; [discriminate|].
    injection Hr as <-. lia.
  - assert (1 <= r); [|lia].
    apply (round_product_at_least_1 n x p r); auto. lia.
Qed.

(** ** When [calculate_sm2] returns *)

Lemma digits2_lt (m : positive) (k : Z) :
  0 <= k -> Zpos m < 2 ^ k -> Zpos (digits2_pos m) <= k.
Proof.
  intros Hk H. pose proof (digits2_bounds m) as [Dlo _].
  assert (Zpos (digits2_pos m) - 1 < k).
  { apply (Z.pow_lt_mono_r_iff 2); lia. }
  lia.
Qed.

Lemma digits2_mul_le (m m' : positive) :
  Zpos (digits2_pos (m * m'))
  <= Zpos (digits2_pos m) + Zpos (digits2_pos m').
Proof.
  pose proof (digits2_bounds m) as [_ Dhi].
  pose proof (digits2_bounds m') as [_ Dhi'].
  apply digits2_lt; [lia|].
  rewrite Z.pow_add_r, Pos2Z.inj_mul by lia.
  apply Z.mul_lt_mono_nonneg; lia.
Qed.

Lemma shl_align_value (m : positive) (e e' : Z) :
  e' <= e -> Zpos (fst (shl_align m e e')) = Zpos m * 2 ^ (e - e').
Proof.
  intros H. unfold shl_align.
  destruct (e' - e) as [|d|d] eqn:Ed; cbn [fst]; try lia.
  - replace (e - e') with 0 by lia. lia.
  - change (Pos.iter xO m d) with (shift_pos d m).
    rewrite shift_pos_correct, Zpower_pos_nat, Zpower_nat_Z, positive_nat_Z.
    replace (e - e') with (Zpos d) by lia. lia.
Qed.

Ltac eval_Prim2SF :=
  match goal with
  | |- context [Prim2SF ?d] =>
      let v := eval vm_compute in (Prim2SF d) in change (Prim2SF d) with v
  end.

Lemma ease_delta_small (quality : Z) (delta : float) :
  ease_delta (Z.max 0 (Z.min 5 quality)) = Ok delta ->
  Prim2SF delta = S754_zero false \/
  exists s m e,
    Prim2SF delta = S754_finite s m e /\
    Zpos (digits2_pos m) + e <= 0 /\ -60 <= e.
Proof.
  intros H.
  destruct (clamp_cases quality) as [E|[E|[E|[E|[E|E]]]]];
    rewrite E in H; vm_compute in H; injection H as <-; eval_Prim2SF;
    try (left; reflexivity);
    right; do 3 eexists; (split; [reflexivity|]);
    split; vm_compute; discriminate.
Qed.

Lemma finite_1_3_4 (x : float) :
  (1.3 <=? x)%float = true -> (x <=? 4)%float = true ->
  exists m e,
    Prim2SF x = S754_finite false m e /\
    1 <= Zpos (digits2_pos m) + e <= 3 /\ -52 <= e.
Proof.
  rewrite !leb_spec.
  change (Prim2SF 1.3) with (S754_finite false 5854679515581645 (-52)).
  change (Prim2SF 4) with (S754_finite false 4503599627370496 (-50)).
  pose proof (Prim2SF_valid x) as Hv.
  destruct (Prim2SF x) as [s|s| |s m e]; try destruct s;
    unfold SFleb, SFcompare; try discriminate.
  intros H1 H2. exists m, e. split; [reflexivity|].
  assert (He : -52 <= e)
    by (destruct (Z.compare_spec (-52) e); try lia; discriminate H1).
  assert (He' : e <= -50)
    by (destruct (Z.compare_spec e (-50)); try lia; discriminate H2).
  cbn in Hv. apply andb_prop in Hv as [Hc _].
  unfold canonical_mantissa in Hc. apply Z.eqb_eq in Hc.
  unfold fexp, SpecFloat.emin, prec, emax in Hc. lia.
Qed.

Lemma add_delta_magnitude (x delta : float) (mx : positive) (ex : Z) :
  Prim2SF x = S754_finite false mx ex ->
  1 <= Zpos (digits2_pos mx) + ex <= 3 -> -52 <= ex ->
  (Prim2SF delta = S754_zero false \/
   exists s m e,
     Prim2SF delta = S754_finite s m e /\
     Zpos (digits2_pos m) + e <= 0 /\ -60 <= e) ->
  exists m e,
    Prim2SF (x + delta) = S754_finite false m e /\
    Zpos (digits2_pos m) + e <= 5.
Proof.
  intros Hx Hmag Hex Hd. rewrite add_spec. unfold SF64add. rewrite Hx.
  destruct Hd as [-> | (s & my & ey & -> & Hy & Hey)]; cbn [SFadd].
  { exists mx, ex. split; [reflexivity|lia]. }
  cbv zeta. rewrite !shl_align_value by lia.
  set (ez := Z.min ex ey).
  pose proof (digits2_bounds mx) as [Xlo Xhi].
  pose proof (digits2_bounds my) as [_ Yhi].
  assert (Hez : 0 < 2 ^ (- ez)) by (apply Z.pow_pos_nonneg; lia).
  assert (HA1 : 2 ^ (- ez) <= Zpos mx * 2 ^ (ex - ez)).
  { apply Z.le_trans
      with (2 ^ (Zpos (digits2_pos mx) - 1) * 2 ^ (ex - ez)).
    - rewrite <- Z.pow_add_r by lia. apply Z.pow_le_mono_r; lia.
    - apply Z.mul_le_mono_nonneg_r; [apply Z.pow_nonneg; lia|exact Xlo]. }
  assert (HA2 : Zpos mx * 2 ^ (ex - ez) < 8 * 2 ^ (- ez)).
  { apply Z.lt_le_trans
      with (2 ^ Zpos (digits2_pos mx) * 2 ^ (ex - ez)).
    - apply Z.mul_lt_mono_pos_r; [apply Z.pow_pos_nonneg; lia|exact Xhi].
    - rewrite <- Z.pow_add_r by lia. change 8 with (2 ^ 3).
      rewrite <- Z.pow_add_r by lia. apply Z.pow_le_mono_r; lia. }
  assert (HB1 : 0 < Zpos my * 2 ^ (ey - ez))
    by (apply Z.mul_pos_pos; [lia|apply Z.pow_pos_nonneg; lia]).
  assert (HB2 : Zpos my * 2 ^ (ey - ez) < 2 ^ (- ez)).
  { apply Z.lt_le_trans
      with (2 ^ Zpos (digits2_pos my) * 2 ^ (ey - ez)).
    - apply Z.mul_lt_mono_pos_r; [apply Z.pow_pos_nonneg; lia|exact Yhi].
    - rewrite <- Z.pow_add_r by lia. apply Z.pow_le_mono_r; lia. }
  assert (H16 : 2 ^ (4 - ez) = 16 * 2 ^ (- ez)).
  { replace (4 - ez) with (4 + - ez) by lia.
    rewrite Z.pow_add_r by lia. reflexivity. }
  revert HA1 HA2 HB1 HB2.
  generalize (Zpos mx * 2 ^ (ex - ez)), (Zpos my * 2 ^ (ey - ez)).
  intros A B HA1 HA2 HB1 HB2.
  assert (HM : 1 <= cond_Zopp false A + cond_Zopp s B < 2 ^ (4 - ez))
    by (destruct s; cbn [cond_Zopp]; lia).
  destruct (cond_Zopp false A + cond_Zopp s B) as [|M|M]; try lia.
  cbn [binary_normalize].
  assert (HD : Zpos (digits2_pos M) <= 4 - ez) by (apply digits2_lt; lia).
  destruct (binary_round_magnitude false M ez)
    as [(_ & Hinf) | (m & e & -> & Hm & _)]; [lia|lia|].
  exists m, e. split; [reflexivity|lia].
Qed.

Lemma new_ease_factor_magnitude (quality : Z) (x delta : float) :
  (1.3 <=? x)%float = true -> (x <=? 4)%float = true ->
  ease_delta (Z.max 0 (Z.min 5 quality)) = Ok delta ->
  magnitude_in 1 5 (Prim2SF (Py.max 1.3 (x + delta))).
Proof.
  intros H1 H2 Hd.
  destruct (finite_1_3_4 x H1 H2) as (mx & ex & Hx & Hmag & Hex).
  destruct (add_delta_magnitude x delta mx ex Hx Hmag Hex
              (ease_delta_small quality delta Hd)) as (m & e & Hs & Hm).
  pose proof (at_least_1_3 _ (max_floor (x + delta))) as Hlo.
  unfold Py.max in *. destruct (1.3 <? x + delta)%float.
  - rewrite Hs in *. destruct Hlo as [Hlo | (m' & e' & [= <- <-] & Hlo)];
      [discriminate Hlo|].
    exists m, e. split; [reflexivity|lia].
  - exists 5854679515581645%positive, (-52). split; [reflexivity|].
    vm_compute. split; discriminate.
Qed.

Lemma float_of_int_magnitude (n k : Z) :
  1 <= n < 2 ^ k -> 0 <= k <= 53 ->
  exists f, float_of_int n = Ok f /\ magnitude_in 1 k (Prim2SF f).
Proof.
  intros Hn Hk. unfold float_of_int.
  destruct n as [|q|q]; try lia. cbn [binary_normalize].
  pose proof (digits2_bounds q) as _.
  assert (HDq : Zpos (digits2_pos q) <= k) by (apply digits2_lt; lia).
  destruct (binary_round_magnitude false q 0)
    as [(_ & Hinf) | (m & e & -> & _ & HD & Hmag)]; [lia|lia|].
  specialize (Hmag ltac:(lia)).
  eexists. split; [reflexivity|]. cbn [SF2Prim].
  rewrite Z_ldexp_spec, of_uint63_spec.
  change (Uint63Axioms.of_pos m) with (Uint63Axioms.of_Z (Zpos m)).
  rewrite Uint63.of_Z_spec.
  rewrite Z.mod_small.
  2:{ pose proof (digits2_bounds m) as [_ Hhi]. split; [lia|].
      apply Z.lt_le_trans with (1 := Hhi).
      change Uint63.wB with (2 ^ 63). apply Z.pow_le_mono_r; lia. }
  cbn [binary_normalize].
  destruct (binary_round_magnitude false m 0)
    as [(_ & Hinf) | (m2 & e2 & -> & _ & HD2 & Hmag2)]; [lia|lia|].
  specialize (Hmag2 ltac:(lia)).
  cbn [SFldexp].
  destruct (binary_round_magnitude false m2 (e2 + e))
    as [(_ & Hinf) | (m3 & e3 & -> & _ & HD3 & Hmag3)]; [lia|lia|].
  specialize (Hmag3 ltac:(lia)).
  exists m3, e3. split; [reflexivity|lia].
Qed.

Lemma mul_magnitude (f x : float) (a b c d : Z) :
  magnitude_in a b (Prim2SF f) -> magnitude_in c d (Prim2SF x) ->
  -1020 <= a + c -> b + d < 972 ->
  magnitude_in (a + c - 1) (b + d + 1) (Prim2SF (f * x)).
Proof.
  rewrite mul_spec. unfold SF64mul.
  intros (mf & ef & -> & Hf) (mx & ex & -> & Hx) Hlo Hhi.
  cbn [SFmul xorb].
  pose proof (digits2_mul mf mx) as Hmul.
  pose proof (digits2_mul_le mf mx) as Hmul'.
  destruct (binary_round_aux_magnitude false (mf * mx) (ef + ex))
    as [(_ & Hinf) | (m & e & -> & Hmag & _)]; [lia|lia|].
  exists m, e. split; [reflexivity|lia].
Qed.

Lemma round_half_even_le (m : positive) (e k : Z) :
  0 <= k -> Zpos (digits2_pos m) + e <= k ->
  round_half_even (Zpos m) e <= 2 ^ k.
Proof.
  intros Hk Hmag. unfold round_half_even.
  pose proof (digits2_bounds m) as [_ Dhi].
  destruct (0 <=? e) eqn:He.
  - apply Z.leb_le in He.
    apply Z.le_trans with (2 ^ Zpos (digits2_pos m) * 2 ^ e).
    + apply Z.mul_le_mono_nonneg_r; [apply Z.pow_nonneg|]; lia.
    + rewrite <- Z.pow_add_r by lia. apply Z.pow_le_mono_r; lia.
  - apply Z.leb_gt in He. cbv zeta.
    assert (Hd : 0 < 2 ^ (- e)) by (apply Z.pow_pos_nonneg; lia).
    assert (Hq : Zpos m / 2 ^ (- e) < 2 ^ k).
    { apply Z.div_lt_upper_bound; [exact Hd|].
      apply Z.lt_le_trans with (1 := Dhi).
      rewrite <- Z.pow_add_r by lia. apply Z.pow_le_mono_r; lia. }
    destruct (2 * (Zpos m mod 2 ^ (- e)) ?= 2 ^ (- e)); try lia.
    destruct (Z.even (Zpos m / 2 ^ (- e))); lia.
Qed.

Lemma round_magnitude (p : float) (k : Z) :
  0 <= k -> magnitude_in 1 k (Prim2SF p) ->
  exists r, Py.round p = Ok r /\ 1 <= r <= 2 ^ k.
Proof.
  intros Hk (m & e & E & Hmag). unfold Py.round. rewrite E.
  eexists. split; [reflexivity|]. cbn [cond_Zopp]. split.
  - apply round_half_even_at_least_1. lia.
  - apply round_half_even_le; lia.
Qed.

(** [round(interval * ease_factor)] returns, and at most 2 ^ 21, when
    [interval] is an [int] of 0 .. 32767 and [ease_factor] a float of at
    least 1.3 and below 32. *)
Lemma round_product_returns (n : Z) (x : float) :
  0 <= n < 32768 -> magnitude_in 1 5 (Prim2SF x) ->
  exists p r,
    int_times_float n x = Ok p /\ Py.round p = Ok r /\ 0 <= r <= 2097152.
Proof.
  intros Hn Hx. destruct (Z.eq_dec n 0) as [-> | Hn0].
  - exists (0 * x)%float, 0. split; [reflexivity|].
    unfold Py.round. rewrite mul_spec.
    change (Prim2SF 0) with (S754_zero false).
    destruct Hx as (m & e & -> & _). cbn. split; [reflexivity|lia].
  - destruct (float_of_int_magnitude n 15) as (f & Ef & Hf);
      [change (2 ^ 15) with 32768; lia|lia|].
    pose proof (mul_magnitude f x 1 15 1 5 Hf Hx ltac:(lia) ltac:(lia)) as Hp.
    destruct (round_magnitude (f * x) 21) as (r & Er & Hr); [lia| |].
    + destruct Hp as (m & e & E & Hmag). exists m, e. split; [exact E|lia].
    + exists (f * x)%float, r. unfold int_times_float. rewrite Ef.
      split; [reflexivity|]. split; [exact Er|].
      change (2 ^ 21) with 2097152 in Hr. lia.
Qed.

Lemma calculate_sm2_in_range
    (card : CardDB.t) (quality : Z) (now : datetime) :
  (1.3 <=? CardDB.ease_factor card)%float = true ->
  (CardDB.ease_factor card <=? 4)%float = true ->
  0 <= CardDB.interval card < 32768 ->
  0 <= now <= datetime_max - 2097152 * us_per_day ->
  exists c', calculate_sm2 card quality now = (Ok c', c').
Proof.
  intros H1 H2 Hi Hnow.
  destruct (calculate_sm2_eq card quality now) as (delta & Ed & ->).
  cbv zeta.
  pose proof (new_ease_factor_magnitude quality _ delta H1 H2 Ed) as Hef.
  set (c1 := CardDB.set_ease_factor _ card) in *.
  assert (Hre : forall c,
    0 <= CardDB.interval c <= 2097152 ->
    exists c', reschedule now c = (Ok c', c')).
  { intros c Hc. eexists. apply reschedule_returns; calendar. }
  destruct (Z.max 0 (Z.min 5 quality) <? 3).
  { apply Hre. cbn. lia. }
  destruct (CardDB.repetitions card =? 0).
  { apply Hre. cbn. lia. }
  destruct (CardDB.repetitions card =? 1).
  { apply Hre. cbn. lia. }
  destruct (round_product_returns (CardDB.interval card)
              (CardDB.ease_factor c1) Hi Hef) as (p & r & -> & -> & Hr).
  apply Hre. cbn. lia.
Qed.

(** [round(0 * x)] for a float of at least 1.3: 0, unless [x] is the
    infinity, for which [0 * x] is a NaN and [round] raises [ValueError]. *)
Lemma round_zero_product (x : float) :
  (1.3 <=? x)%float = true ->
  exists p,
    int_times_float 0 x = Ok p /\
    (x = infinity -> Py.round p = Raise ValueError) /\
    (x <> infinity -> Py.round p = Ok 0).
Proof.
  intros Hx. exists (0 * x)%float. split; [reflexivity|].
  unfold Py.round. rewrite mul_spec.
  change (Prim2SF 0) with (S754_zero false).
  destruct (at_least_1_3 x Hx) as [E | (m & e & E & _)]; rewrite E; cbn.
  - split; [reflexivity|]. intros Hn. elim Hn.
    rewrite <- (SF2Prim_Prim2SF x), E. reflexivity.
  - split; [|reflexivity]. intros ->. discriminate E.
Qed.

(** A success from the third on, on a card whose [interval] is 0. *)
Lemma calculate_sm2_stalled
    (card : CardDB.t) (quality : Z) (now : datetime) :
  CardDB.interval card = 0 -> 3 <= quality ->
  CardDB.repetitions card <> 0 -> CardDB.repetitions card <> 1 ->
  let ef' := CardDB.ease_factor (snd (calculate_sm2 card quality now)) in
  (ef' = infinity ->
   fst (calculate_sm2 card quality now) = Raise ValueError) /\
  (ef' <> infinity ->
   calculate_sm2 card quality now
   = reschedule now
       (CardDB.set_repetitions (CardDB.repetitions card + 1)
          (CardDB.set_interval 0
             (CardDB.set_ease_factor ef' card)))).
Proof.
  intros Hi Hq H0 H1. cbv zeta.
  destruct (calculate_sm2_after card quality now)
    as (delta & Ed & i & r & t & Hs & _).
  rewrite Hs. cbn [CardDB.ease_factor CardDB.set_next_review
    CardDB.set_repetitions CardDB.set_interval CardDB.set_ease_factor].
  clear Hs i r t.
  destruct (calculate_sm2_eq card quality now) as (delta' & Ed' & ->).
  rewrite Ed in Ed'. injection Ed' as <-. cbv zeta.
  assert ((Z.max 0 (Z.min 5 quality) <? 3) = false) as ->
    by (apply Z.ltb_ge; lia).
  apply Z.eqb_neq in H0, H1. rewrite H0, H1, Hi.
  cbn [CardDB.ease_factor CardDB.set_ease_factor].
  destruct (round_zero_product _
              (max_floor (CardDB.ease_factor card + delta)))
    as (p & -> & Hinf & Hfin).
  split; intros H.
  - rewrite (Hinf H). reflexivity.
  - rewrite (Hfin H). reflexivity.
Qed.

(** C2, as the code has it. A call that returns leaves an interval of at
    least 1 when the card had one of at least 1, or the quality is below 3,
    or the card had 0 or 1 repetitions. On a card whose interval is 0, a
    success from the third on (quality 3 or more, [repetitions] not 0 or 1)
    does not: if the ease factor the call assigns is the infinity, as it
    is when the card's was, [round(0 * ease_factor)] raises [ValueError];
    if it is not, as from an ease factor of 1.3 to 4, the call returns, at
    any clock that is a [datetime], the card with the interval
    [round(0 * ease_factor)] = 0 and [next_review] at that clock. *)
Theorem interval_at_least_one
    (card : CardDB.t) (quality : Z) (now : datetime) (c' : CardDB.t) :
  (calculate_sm2 card quality now = (Ok c', c') ->
   1 <= CardDB.interval card \/ quality < 3 \/
   CardDB.repetitions card = 0 \/ CardDB.repetitions card = 1 ->
   1 <= CardDB.interval c') /\
  (CardDB.interval card = 0 -> 3 <= quality ->
   CardDB.repetitions card <> 0 -> CardDB.repetitions card <> 1 ->
   let ef' := CardDB.ease_factor (snd (calculate_sm2 card quality now)) in
   (calculate_sm2 card quality now = (Ok c', c') ->
    CardDB.interval c' = 0 /\ CardDB.next_review c' = now) /\
   (ef' = infinity ->
    fst (calculate_sm2 card quality now) = Raise ValueError) /\
   (ef' <> infinity -> 0 <= now <= datetime_max ->
    exists c,
      calculate_sm2 card quality now = (Ok c, c) /\
      CardDB.interval c = 0 /\ CardDB.next_review c = now) /\
   (CardDB.ease_factor card = infinity -> ef' = infinity) /\
   ((1.3 <=? CardDB.ease_factor card)%float = true ->
    (CardDB.ease_factor card <=? 4)%float = true -> ef' <> infinity)).
Proof.
  split.
  { intros E H.
    destruct (calculate_sm2_returned _ _ _ _ _ E)
      as (_ & (delta & _ & F) & _ &
          [(_ & _ & I) | (Hq & _ & [(_ & I) | [(_ & I) | (H0 & H1 & p & Hp & Hr)]])]);
      try lia.
    apply (round_product_at_least_1 (CardDB.interval card)
             (CardDB.ease_factor c') p); auto.
    - lia.
    - rewrite F. apply max_floor. }
  intros Hi Hq H0 H1.
  destruct (calculate_sm2_stalled card quality now Hi Hq H0 H1)
    as [Hinf Hfin].
  cbv zeta in *.
  destruct (calculate_sm2_after card quality now)
    as (delta & Ed & i & r & t & Hs & _).
  assert (Hef : CardDB.ease_factor (snd (calculate_sm2 card quality now))
                = Py.max 1.3 (CardDB.ease_factor card + delta))
    by (rewrite Hs; reflexivity).
  clear Hs i r t.
  set (ef' := CardDB.ease_factor (snd (calculate_sm2 card quality now)))
    in *.
  assert (Hret : ef' <> infinity -> 0 <= now <= datetime_max ->
    exists c,
      calculate_sm2 card quality now = (Ok c, c) /\
      CardDB.interval c = 0 /\ CardDB.next_review c = now).
  { intros Hne Hnow. rewrite (Hfin Hne).
    rewrite reschedule_returns; cbn [CardDB.interval CardDB.set_repetitions
      CardDB.set_interval CardDB.set_ease_factor]; [|calendar|lia].
    eexists. split; [reflexivity|]. cbn. split; [reflexivity|lia]. }
  split; [|split; [exact Hinf|split; [exact Hret|split]]].
  - intros E.
    destruct (calculate_sm2_returned _ _ _ _ _ E)
      as (_ & _ & N & [(Hlt & _) | (_ & _ & [(H & _) | [(H & _) | H]])]);
      try lia.
    destruct H as (_ & _ & p & Hp & Hr).
    assert (Hne : ef' <> infinity).
    { intros Hi'. specialize (Hinf Hi'). rewrite E in Hinf.
      discriminate Hinf. }
    rewrite (Hfin Hne) in E. apply reschedule_inv in E as [_ ->].
    cbn. split; [reflexivity|lia].
  - intros He. rewrite Hef, He.
    destruct (clamp_cases quality) as [E|[E|[E|[E|[E|E]]]]];
      cbv zeta in E; try lia;
      rewrite E in Ed; vm_compute in Ed; injection Ed as <-;
      vm_compute; reflexivity.
  - intros Hlo Hhi He.
    pose proof (new_ease_factor_magnitude quality _ delta Hlo Hhi Ed)
      as (m & e & Hm & _).
    rewrite <- Hef, He in Hm. discriminate Hm.
Qed.

Lemma interval_at_least_one_witness :
  1 <= CardDB.interval (snd (calculate_sm2 Sample.learning 3 Sample.clock)) /\
  CardDB.interval (snd (calculate_sm2 Sample.stalled 3 Sample.clock)) = 0 /\
  fst (calculate_sm2 (CardDB.set_ease_factor infinity Sample.stalled) 3
         Sample.clock) = Raise ValueError.
Proof.
  split; [|split].
  - apply (proj1 (interval_at_least_one Sample.learning 3 Sample.clock
                    (snd (calculate_sm2 Sample.learning 3 Sample.clock)))).
    + vm_compute. reflexivity.
    + left. vm_compute. discriminate.
  - apply (proj1 (proj2
             (interval_at_least_one Sample.stalled 3 Sample.clock
                (snd (calculate_sm2 Sample.stalled 3 Sample.clock)))
             eq_refl ltac:(lia) ltac:(vm_compute; discriminate)
             ltac:(vm_compute; discriminate))).
    vm_compute. reflexivity.
  - apply (proj1 (proj2 (proj2
             (interval_at_least_one
                (CardDB.set_ease_factor infinity Sample.stalled)
                3 Sample.clock Sample.stalled)
             eq_refl ltac:(lia) ltac:(vm_compute; discriminate)
             ltac:(vm_compute; discriminate)))).
    apply (proj1 (proj2 (proj2 (proj2 (proj2
             (interval_at_least_one
                (CardDB.set_ease_factor infinity Sample.stalled)
                3 Sample.clock Sample.stalled)
             eq_refl ltac:(lia) ltac:(vm_compute; discriminate)
             ltac:(vm_compute; discriminate)))))).
    reflexivity.
Defined.

(** C2 as stated fails: a card with [interval] 0 and [repetitions] 2, both
    non-negative, reviewed with quality 5, is returned with
    [interval] = [round(0 * 2.6)] = 0. *)
Lemma third_success_keeps_interval_0 :
  0 <= CardDB.interval Sample.stalled /\
  0 <= CardDB.repetitions Sample.stalled /\
  exists c',
    calculate_sm2 Sample.stalled 5 Sample.clock = (Ok c', c') /\
    CardDB.interval c' = 0 /\ ~ 1 <= CardDB.interval c'.
Proof.
  split; [vm_compute; discriminate|]. split; [vm_compute; discriminate|].
  eexists. split; [vm_compute; reflexivity|].
  split; [reflexivity|]. cbn. lia.
Qed.

(** C7, as the code has it. A call that returns has put [next_review] at
    the clock it read plus [interval] days; that is after the clock when
    the card had an interval of at least 1, or the quality is below 3, or
    the card had 0 or 1 repetitions, and never before the clock when the
    card's interval was not negative. Against the [next_review] the card
    had before, the new one is not earlier when the card was due (its
    [next_review] not after the clock) and its interval not negative; it
    is earlier whenever a card that is due more than a day after the clock
    is failed, the quality below 3. *)
Theorem next_review_after_now
    (card : CardDB.t) (quality : Z) (now : datetime) (c' : CardDB.t) :
  calculate_sm2 card quality now = (Ok c', c') ->
  CardDB.next_review c' = now + CardDB.interval c' * us_per_day /\
  (1 <= CardDB.interval card \/ quality < 3 \/
   CardDB.repetitions card = 0 \/ CardDB.repetitions card = 1 ->
   now < CardDB.next_review c') /\
  (0 <= CardDB.interval card -> now <= CardDB.next_review c') /\
  (0 <= CardDB.interval card -> CardDB.next_review card <= now ->
   CardDB.next_review card <= CardDB.next_review c') /\
  (quality < 3 -> now + us_per_day < CardDB.next_review card ->
   CardDB.next_review c' < CardDB.next_review card).
Proof.
  intros E.
  destruct (calculate_sm2_returned _ _ _ _ _ E)
    as (_ & (delta & _ & F) & N & H).
  split; [exact N|]. rewrite N, us_per_day_eq.
  assert (Hef : (1.3 <=? CardDB.ease_factor c')%float = true)
    by (rewrite F; apply max_floor).
  assert (H0 : 0 <= CardDB.interval card -> 0 <= CardDB.interval c').
  { intros Hc.
    destruct H as [(_ & _ & I) | (Hq & _ & [(_ & I) | [(_ & I) | (H0 & H1 & p & Hp & Hr)]])];
      try lia.
    apply (round_product_nonneg (CardDB.interval card)
             (CardDB.ease_factor c') p); auto. }
  split; [|split; [|split]].
  - intros Hc. assert (1 <= CardDB.interval c'); [|lia].
    destruct H as [(_ & _ & I) | (Hq & _ & [(_ & I) | [(_ & I) | (H0' & H1 & p & Hp & Hr)]])];
      try lia.
    apply (round_product_at_least_1 (CardDB.interval card)
             (CardDB.ease_factor c') p); auto. lia.
  - intros Hc. specialize (H0 Hc). lia.
  - intros Hc Hdue. specialize (H0 Hc). lia.
  - intros Hq Hahead.
    destruct H as [(_ & _ & I) | (Hq' & _)]; [rewrite I; lia|lia].
Qed.

Lemma next_review_after_now_witness :
  let c' := snd (calculate_sm2 Sample.learning 3 Sample.clock) in
  let due := hd Sample.fresh Sample.store in
  (CardDB.next_review c' = Sample.clock + CardDB.interval c' * us_per_day /\
   Sample.clock < CardDB.next_review c' /\
   Sample.clock <= CardDB.next_review c') /\
  CardDB.next_review due
  <= CardDB.next_review (snd (calculate_sm2 due 3 Sample.clock)) /\
  CardDB.next_review (snd (calculate_sm2 Sample.learning 1 Sample.clock))
  < CardDB.next_review Sample.learning.
Proof.
  cbv zeta. split; [|split].
  - destruct (next_review_after_now Sample.learning 3 Sample.clock
                (snd (calculate_sm2 Sample.learning 3 Sample.clock)))
      as (H1 & H2 & H3 & _).
    + vm_compute. reflexivity.
    + split; [exact H1|]. split.
      * apply H2. left. vm_compute. discriminate.
      * apply H3. vm_compute. discriminate.
  - apply (proj1 (proj2 (proj2 (proj2
             (next_review_after_now (hd Sample.fresh Sample.store) 3
                Sample.clock
                (snd (calculate_sm2 (hd Sample.fresh Sample.store) 3
                        Sample.clock))
                ltac:(vm_compute; reflexivity)))))).
    + vm_compute. discriminate.
    + vm_compute. discriminate.
  - apply (proj2 (proj2 (proj2 (proj2
             (next_review_after_now Sample.learning 1 Sample.clock
                (snd (calculate_sm2 Sample.learning 1 Sample.clock))
                ltac:(vm_compute; reflexivity)))))).
    + lia.
    + vm_compute. reflexivity.
Defined.

(** C7 as stated fails, in each of its two parts. A card at its third
    success with [interval] 0, reviewed with quality 4, is returned with
    [next_review] at the clock the call read, not after it. And the card
    that two reviews of quality 5 have left due six days after [clock],
    failed a day after [clock], is returned with [next_review] two days
    after [clock]: four days earlier than it was. *)
Lemma next_review_can_stall_or_move_backward :
  (exists c',
     calculate_sm2 Sample.stalled 4 Sample.clock = (Ok c', c') /\
     CardDB.next_review c' = Sample.clock /\
     ~ Sample.clock < CardDB.next_review c') /\
  (exists c',
     calculate_sm2 Sample.learning 1 (Sample.clock + us_per_day)
     = (Ok c', c') /\
     CardDB.next_review Sample.learning = Sample.clock + 6 * us_per_day /\
     CardDB.next_review c' = Sample.clock + 2 * us_per_day /\
     CardDB.next_review c' < CardDB.next_review Sample.learning).
Proof.
  split.
  - eexists. split; [vm_compute; reflexivity|].
    split; [reflexivity|]. cbn. lia.
  - eexists. split; [vm_compute; reflexivity|].
    split; [vm_compute; reflexivity|].
    split; [vm_compute; reflexivity|]. vm_compute. reflexivity.
Qed.

(** C6, as the code has it. A quality is never rejected: the call does
    with any integer what it does with that integer clamped to 0..5 (with
    -5 what it does with 0, with 99 what it does with 5), returning the
    same card or raising the same exception. An exception is never about
    the quality: it is the [OverflowError] or [ValueError] of [round], of
    [int * float] or of the date. A quality below 3, in range or not, always
    returns; so does any quality on a card of at most one repetition, and
    any quality on a card whose [ease_factor] is 1.3 to 4 and whose
    [interval] is 0 to 32767 days, when the clock leaves 2097152 days
    before [datetime.max]. *)
Theorem quality_is_clamped (card : CardDB.t) (quality : Z) (now : datetime) :
  calculate_sm2 card quality now
  = calculate_sm2 card (Z.max 0 (Z.min 5 quality)) now /\
  calculate_sm2 card (-5) now = calculate_sm2 card 0 now /\
  calculate_sm2 card 99 now = calculate_sm2 card 5 now /\
  match fst (calculate_sm2 card quality now) with
  | Ok c' => c' = snd (calculate_sm2 card quality now)
  | Raise e => e = OverflowError \/ e = ValueError
  end /\
  (0 <= now <= datetime_max - 6 * us_per_day ->
   quality < 3 \/ CardDB.repetitions card = 0 \/ CardDB.repetitions card = 1 ->
   exists c', calculate_sm2 card quality now = (Ok c', c')) /\
  ((1.3 <=? CardDB.ease_factor card)%float = true ->
   (CardDB.ease_factor card <=? 4)%float = true ->
   0 <= CardDB.interval card < 32768 ->
   0 <= now <= datetime_max - 2097152 * us_per_day ->
   exists c', calculate_sm2 card quality now = (Ok c', c')).
Proof.
  split; [|split; [reflexivity|split; [reflexivity|split; [|split]]]].
  - unfold calculate_sm2. cbv zeta.
    replace (Z.max 0 (Z.min 5 (Z.max 0 (Z.min 5 quality))))
      with (Z.max 0 (Z.min 5 quality)) by lia.
    reflexivity.
  - destruct (calculate_sm2_after card quality now)
      as (delta & _ & i & r & t & _ & H). exact H.
  - intros Hnow H.
    destruct (Z.lt_ge_cases quality 3) as [Hq | Hq].
    + destruct (calculate_sm2_failure card quality now) as (c' & E & _);
        [exact Hq|calendar|]. exists c'. exact E.
    + destruct H as [H | H]; [lia|].
      destruct (calculate_sm2_first_successes card quality now)
        as (c' & E & _); [exact Hq|exact H|exact Hnow|].
      exists c'. exact E.
  - apply calculate_sm2_in_range.
Qed.

Lemma quality_is_clamped_witness :
  (exists c', calculate_sm2 Sample.seasoned (-5) Sample.clock = (Ok c', c')) /\
  (exists c', calculate_sm2 Sample.learning 99 Sample.clock = (Ok c', c')).
Proof.
  split.
  - apply (proj1 (proj2 (proj2 (proj2 (proj2
             (quality_is_clamped Sample.seasoned (-5) Sample.clock)))))).
    + vm_compute. split; discriminate.
    + left. reflexivity.
  - apply (proj2 (proj2 (proj2 (proj2 (proj2
             (quality_is_clamped Sample.learning 99 Sample.clock)))))).
    + vm_compute. reflexivity.
    + vm_compute. reflexivity.
    + vm_compute. split; [discriminate|reflexivity].
    + vm_compute. split; discriminate.
Defined.

(** C6 as stated fails: the call is not total. On the card that thirteen
    reviews of quality 5 leave ([interval] 2900240, [ease_factor] 3.8), the
    out-of-range quality 99 raises [OverflowError]: the new interval,
    11310936 days, is beyond [datetime.max]. *)
Lemma out_of_range_quality_can_raise :
  CardDB.interval Sample.seasoned = 2900240 /\
  CardDB.repetitions Sample.seasoned = 13 /\
  fst (calculate_sm2 Sample.seasoned 99 Sample.clock) = Raise OverflowError /\
  ~ (exists c', calculate_sm2 Sample.seasoned 99 Sample.clock = (Ok c', c')).
Proof.
  split; [vm_compute; reflexivity|]. split; [vm_compute; reflexivity|].
  assert (H : fst (calculate_sm2 Sample.seasoned 99 Sample.clock)
              = Raise OverflowError) by (vm_compute; reflexivity).
  split; [exact H|]. intros (c' & E). rewrite E in H. discriminate H.
Qed.

(** ** The claims about the handlers *)

Lemma query_first_None (db : Session) (card_id : Z) :
  query_first db card_id = None <-> ~ In card_id (map CardDB.id db).
Proof.
  unfold query_first. induction db as [|c db IH]; cbn.
  - tauto.
  - destruct (CardDB.id c =? card_id) eqn:E.
    + apply Z.eqb_eq in E. split; [discriminate|]. intros H. elim H. auto.
    + apply Z.eqb_neq in E. rewrite IH. tauto.
Qed.

Lemma query_first_Some (db : Session) (card_id : Z) (card : CardDB.t) :
  query_first db card_id = Some card ->
  CardDB.id card = card_id /\ In card_id (map CardDB.id db).
Proof.
  intros H. assert (Hid : CardDB.id card = card_id).
  { unfold query_first in H. apply find_some in H as [_ H].
    apply Z.eqb_eq, H. }
  split; [exact Hid|].
  destruct (in_dec Z.eq_dec card_id (map CardDB.id db)) as [|Hn];
    [assumption|].
  apply query_first_None in Hn. congruence.
Qed.

(** What sqlite3 binds, and what the flush of a review binds. *)
Lemma sqlite_integer_spec (n : Z) :
  Sqlite.integer n = true
  <-> -9223372036854775808 <= n < 9223372036854775808.
Proof.
  unfold Sqlite.integer. rewrite andb_true_iff, Z.leb_le, Z.ltb_lt.
  change (2 ^ 63) with 9223372036854775808. reflexivity.
Qed.

Lemma flushed_integers_bound
    (loaded card : CardDB.t) (history : ReviewHistory.t) :
  Sqlite.integer (CardDB.id card) = true ->
  ReviewHistory.card_id history = CardDB.id card ->
  forallb Sqlite.integer (flushed_integers loaded card history)
  = flush_binds loaded card (ReviewHistory.quality history).
Proof.
  intros Hid Hh. unfold flushed_integers, flush_binds.
  rewrite !forallb_app. cbn [forallb]. rewrite Hh, Hid.
  destruct (CardDB.interval card =? CardDB.interval loaded),
    (CardDB.repetitions card =? CardDB.repetitions loaded),
    (modified loaded card); cbn [forallb orb andb]; rewrite ?Hid;
    destruct (Sqlite.integer (CardDB.interval card)),
      (Sqlite.integer (CardDB.repetitions card)),
      (Sqlite.integer (ReviewHistory.quality history)); reflexivity.
Qed.

(** [review_card] on a card that the lookup finds. *)
Lemma review_card_found
    (card_id : Z) (review : ReviewRequest.t) (db : Session)
    (now t_updated_at t_reviewed_at : datetime) (loaded : CardDB.t) :
  Sqlite.integer card_id = true ->
  query_first db card_id = Some loaded ->
  review_card card_id review db now t_updated_at t_reviewed_at =
  match calculate_sm2 loaded (ReviewRequest.quality review) now with
  | (Raise e, _) => (Raise e, db)
  | (Ok card, _) =>
      if flush_binds loaded card (ReviewRequest.quality review) then
        let history :=
          {| ReviewHistory.id := next_history_id db;
             ReviewHistory.card_id := card_id;
             ReviewHistory.quality := ReviewRequest.quality review;
             ReviewHistory.reviewed_at := t_reviewed_at |} in
        let card :=
          CardDB.set_updated_at
            (if modified loaded card then t_updated_at
             else CardDB.updated_at loaded)
            (CardDB.set_history (CardDB.history loaded ++ [history]) card) in
        (Ok card, write_back card db)
      else (Raise OverflowError, db)
  end.
Proof.
  intros Hb Q. unfold review_card. rewrite Hb, Q. cbn [negb].
  destruct (query_first_Some _ _ _ Q) as [Hid _].
  destruct (calculate_sm2_after loaded (ReviewRequest.quality review) now)
    as (delta & _ & i & r & t & Hs & Hf).
  destruct (calculate_sm2 loaded (ReviewRequest.quality review) now)
    as [[card|e] after]; cbn [fst snd] in *; [|reflexivity].
  assert (Hc : CardDB.id card = card_id /\
               CardDB.history card = CardDB.history loaded /\
               CardDB.updated_at card = CardDB.updated_at loaded).
  { rewrite Hf, Hs. cbn. auto. }
  destruct Hc as (Hcid & Hch & Hcu). cbv zeta.
  rewrite flushed_integers_bound; cbn [ReviewHistory.card_id
    ReviewHistory.quality]; [|rewrite Hcid; exact Hb|reflexivity].
  rewrite Hcid, Hch, Hcu. reflexivity.
Qed.

(** C8, as the code has it. The handler raises the 404 [HTTPException]
    exactly when the identifier is a 64-bit integer and no card has it; an
    identifier that is not raises [OverflowError] at the lookup. The
    handler raises nothing else of its own: on a card that exists, what
    [calculate_sm2] raises ([OverflowError] or [ValueError]) leaves the
    handler as it is, and so does the [OverflowError] of [db.commit()]
    when the quality, the new interval or the new [repetitions] is not a
    64-bit integer; the database is then as it was. Otherwise the handler
    returns the card of that identifier. It does for a quality that is a
    64-bit integer: when that is below 3 or the card has at most one
    repetition; and on a card whose [ease_factor] is 1.3 to 4 and whose
    [interval] is 0 to 32767 days, when the clock leaves 2097152 days
    before [datetime.max] and the quality is below 3 or [repetitions]
    plus 1 a 64-bit integer. *)
Theorem review_card_errors
    (card_id : Z) (review : ReviewRequest.t) (db : Session)
    (now t_updated_at t_reviewed_at : datetime) (card : CardDB.t) :
  let out := review_card card_id review db now t_updated_at t_reviewed_at in
  let quality := ReviewRequest.quality review in
  (fst out = Raise (HTTPException 404 "Card not found")
   <-> Sqlite.integer card_id = true /\ ~ In card_id (map CardDB.id db)) /\
  (Sqlite.integer card_id = false -> out = (Raise OverflowError, db)) /\
  match fst out with
  | Ok c => CardDB.id c = card_id /\ In card_id (map CardDB.id db)
  | Raise e =>
      snd out = db /\
      (e = HTTPException 404 "Card not found" \/
       e = OverflowError \/ e = ValueError)
  end /\
  (Sqlite.integer card_id = true -> query_first db card_id = Some card ->
   match fst (calculate_sm2 card quality now) with
   | Ok c' =>
       if flush_binds card c' quality then exists c, fst out = Ok c
       else out = (Raise OverflowError, db)
   | Raise e => out = (Raise e, db)
   end) /\
  (Sqlite.integer card_id = true -> query_first db card_id = Some card ->
   Sqlite.integer quality = true ->
   0 <= now <= datetime_max - 6 * us_per_day ->
   quality < 3 \/
   CardDB.repetitions card = 0 \/ CardDB.repetitions card = 1 ->
   exists c, fst out = Ok c) /\
  (Sqlite.integer card_id = true -> query_first db card_id = Some card ->
   Sqlite.integer quality = true ->
   (1.3 <=? CardDB.ease_factor card)%float = true ->
   (CardDB.ease_factor card <=? 4)%float = true ->
   0 <= CardDB.interval card < 32768 ->
   0 <= now <= datetime_max - 2097152 * us_per_day ->
   quality < 3 \/ Sqlite.integer (CardDB.repetitions card + 1) = true ->
   exists c, fst out = Ok c).
Proof.
  cbv zeta.
  assert (Hsome : forall card0,
    Sqlite.integer card_id = true -> query_first db card_id = Some card0 ->
    match fst (calculate_sm2 card0 (ReviewRequest.quality review) now) with
    | Ok c' =>
        if flush_binds card0 c' (ReviewRequest.quality review)
        then exists c,
               fst (review_card card_id review db now t_updated_at
                      t_reviewed_at) = Ok c
        else review_card card_id review db now t_updated_at t_reviewed_at
             = (Raise OverflowError, db)
    | Raise e =>
        review_card card_id review db now t_updated_at t_reviewed_at
        = (Raise e, db)
    end).
  { intros card0 Hb Q. rewrite (review_card_found _ _ _ _ _ _ _ Hb Q).
    destruct (calculate_sm2 card0 (ReviewRequest.quality review) now)
      as [[c'|e] after]; cbn [fst]; [|reflexivity].
    destruct (flush_binds card0 c' (ReviewRequest.quality review));
      [eexists|]; reflexivity. }
  assert (Hret : forall c',
    Sqlite.integer card_id = true -> query_first db card_id = Some card ->
    calculate_sm2 card (ReviewRequest.quality review) now = (Ok c', c') ->
    Sqlite.integer (ReviewRequest.quality review) = true ->
    Sqlite.integer (CardDB.interval c') = true ->
    Sqlite.integer (CardDB.repetitions c') = true ->
    exists c,
      fst (review_card card_id review db now t_updated_at t_reviewed_at)
      = Ok c).
  { intros c' Hb Q E Hq Hi Hr. specialize (Hsome card Hb Q).
    rewrite E in Hsome. cbn [fst] in Hsome. unfold flush_binds in Hsome.
    rewrite Hq, Hi, Hr, !orb_true_r in Hsome. exact Hsome. }
  split; [|split; [|split; [|split; [|split]]]].
  - destruct (Sqlite.integer card_id) eqn:Hb.
    2:{ unfold review_card. rewrite Hb. cbn [negb fst].
        split; [discriminate|]. intros [H _]. discriminate H. }
    destruct (query_first db card_id) as [card0|] eqn:Q.
    + destruct (query_first_Some _ _ _ Q) as [_ Hin].
      rewrite (review_card_found _ _ _ _ _ _ _ Hb Q).
      destruct (calculate_sm2_after card0 (ReviewRequest.quality review) now)
        as (_ & _ & _ & _ & _ & _ & Hf).
      destruct (calculate_sm2 card0 (ReviewRequest.quality review) now)
        as [[c'|e] after]; cbn [fst] in *.
      * destruct (flush_binds card0 c' (ReviewRequest.quality review));
          cbn [fst]; (split; [discriminate|tauto]).
      * split; [|tauto]. intros [= ->]. destruct Hf; discriminate.
    + unfold review_card. rewrite Hb, Q. cbn [negb fst].
      apply query_first_None in Q. tauto.
  - intros Hb. unfold review_card. rewrite Hb. reflexivity.
  - destruct (Sqlite.integer card_id) eqn:Hb.
    2:{ unfold review_card. rewrite Hb. cbn [negb fst snd].
        split; [reflexivity|tauto]. }
    destruct (query_first db card_id) as [card0|] eqn:Q.
    + destruct (query_first_Some _ _ _ Q) as [Hid Hin].
      rewrite (review_card_found _ _ _ _ _ _ _ Hb Q).
      destruct (calculate_sm2_after card0 (ReviewRequest.quality review) now)
        as (delta & _ & i & r & t & Hs & Hf).
      destruct (calculate_sm2 card0 (ReviewRequest.quality review) now)
        as [[c'|e] after]; cbn [fst snd] in *.
      * destruct (flush_binds card0 c' (ReviewRequest.quality review));
          cbn [fst snd].
        -- split; [|exact Hin]. rewrite <- Hid, Hf, Hs. reflexivity.
        -- split; [reflexivity|tauto].
      * split; [reflexivity|tauto].
    + unfold review_card. rewrite Hb, Q. cbn [negb fst snd].
      split; [reflexivity|tauto].
  - apply Hsome.
  - intros Hb Q Hq Hnow H.
    assert (E : exists c',
      calculate_sm2 card (ReviewRequest.quality review) now = (Ok c', c') /\
      0 <= CardDB.repetitions c' <= 2 /\ 1 <= CardDB.interval c' <= 6).
    { destruct (Z.lt_ge_cases (ReviewRequest.quality review) 3) as [Hlt | Hge].
      - destruct (calculate_sm2_failure card _ now Hlt) as (c' & E & R & I0 & _);
          [calendar|]. exists c'. split; [exact E|]. lia.
      - destruct H as [H | H]; [lia|].
        destruct (calculate_sm2_first_successes card _ now Hge H Hnow)
          as (c' & E & R & I0). exists c'. split; [exact E|].
        destruct H as [H | H]; rewrite H in R, I0; cbn in I0; lia. }
    destruct E as (c' & E & Hr & Hi).
    apply (Hret c' Hb Q E Hq); apply sqlite_integer_spec; lia.
  - intros Hb Q Hq H1 H2 Hi Hnow Hreps.
    destruct (calculate_sm2_in_range card (ReviewRequest.quality review) now
                H1 H2 Hi Hnow) as (c' & E).
    destruct (calculate_sm2_returned _ _ _ _ _ E)
      as (_ & (delta & Ed & F) & _ & H).
    pose proof (new_ease_factor_magnitude _ _ delta H1 H2 Ed) as Hef.
    rewrite <- F in Hef.
    apply (Hret c' Hb Q E Hq); apply sqlite_integer_spec.
    + destruct H as [(_ & _ & I0) | (_ & _ & [(_ & I0) | [(_ & I0) | H]])];
        try lia.
      destruct H as (_ & _ & p & Hp & Hr).
      destruct (round_product_returns (CardDB.interval card)
                  (CardDB.ease_factor c') Hi Hef) as (p' & r' & Hp' & Hr' & Hb').
      rewrite Hp in Hp'. injection Hp' as <-. rewrite Hr in Hr'.
      injection Hr' as <-. lia.
    + destruct H as [(_ & R & _) | (Hge & R & _)]; [lia|].
      destruct Hreps as [Hlt | Hreps]; [lia|].
      apply sqlite_integer_spec in Hreps. lia.
Qed.

Lemma review_card_errors_witness :
  (exists c,
     fst (review_card 1 {| ReviewRequest.quality := 5 |} [Sample.fresh]
            Sample.clock Sample.clock Sample.clock) = Ok c) /\
  (exists c,
     fst (review_card 1 {| ReviewRequest.quality := 5 |} [Sample.learning]
            Sample.clock Sample.clock Sample.clock) = Ok c) /\
  review_card 1 {| ReviewRequest.quality := 5 |}
    [CardDB.set_repetitions 9223372036854775807 Sample.learning]
    Sample.clock Sample.clock Sample.clock
  = (Raise OverflowError,
     [CardDB.set_repetitions 9223372036854775807 Sample.learning]) /\
  review_card 9223372036854775808 {| ReviewRequest.quality := 5 |}
    [Sample.fresh] Sample.clock Sample.clock Sample.clock
  = (Raise OverflowError, [Sample.fresh]).
Proof.
  split; [|split; [|split]].
  - apply (proj1 (proj2 (proj2 (proj2 (proj2
             (review_card_errors 1 {| ReviewRequest.quality := 5 |}
                [Sample.fresh] Sample.clock Sample.clock Sample.clock
                Sample.fresh)))))).
    + reflexivity.
    + reflexivity.
    + reflexivity.
    + vm_compute. split; discriminate.
    + right. left. reflexivity.
  - apply (proj2 (proj2 (proj2 (proj2 (proj2
             (review_card_errors 1 {| ReviewRequest.quality := 5 |}
                [Sample.learning] Sample.clock Sample.clock Sample.clock
                Sample.learning)))))).
    + reflexivity.
    + vm_compute. reflexivity.
    + reflexivity.
    + vm_compute. reflexivity.
    + vm_compute. reflexivity.
    + vm_compute. split; [discriminate|reflexivity].
    + vm_compute. split; discriminate.
    + right. vm_compute. reflexivity.
  - apply (proj1 (proj2 (proj2 (proj2
             (review_card_errors 1 {| ReviewRequest.quality := 5 |}
                [CardDB.set_repetitions 9223372036854775807 Sample.learning]
                Sample.clock Sample.clock Sample.clock
                (CardDB.set_repetitions 9223372036854775807
                   Sample.learning)))))).
    + reflexivity.
    + vm_compute. reflexivity.
  - apply (proj1 (proj2
             (review_card_errors 9223372036854775808
                {| ReviewRequest.quality := 5 |}
                [Sample.fresh] Sample.clock Sample.clock Sample.clock
                Sample.fresh))).
    reflexivity.
Defined.

(** C8 as stated fails: after thirteen reviews of quality 5, each of which
    returned, card 1 exists and the quality 5 is in 0..5, and the handler
    raises [OverflowError]: the review is not recorded. *)
Lemma fourteenth_perfect_review_raises :
  let review := {| ReviewRequest.quality := 5 |} in
  List.length (CardDB.history Sample.seasoned) = 13%nat /\
  In 1 (map CardDB.id Sample.seasoned_db) /\
  ReviewRequest.valid review = true /\
  review_card 1 review Sample.seasoned_db Sample.clock Sample.clock
    Sample.clock
  = (Raise OverflowError, Sample.seasoned_db) /\
  ~ (exists c,
       fst (review_card 1 review Sample.seasoned_db Sample.clock Sample.clock
              Sample.clock)
       = Ok c).
Proof.
  cbv zeta. split; [vm_compute; reflexivity|].
  split; [vm_compute; left; reflexivity|]. split; [reflexivity|].
  assert (H : review_card 1 {| ReviewRequest.quality := 5 |}
                Sample.seasoned_db Sample.clock Sample.clock Sample.clock
              = (Raise OverflowError, Sample.seasoned_db))
    by (vm_compute; reflexivity).
  split; [exact H|]. rewrite H. intros (c & Hc). discriminate Hc.
Qed.

(** C1, on the code. With three due cards and five cards never reviewed
    (whose [next_review] is their creation time, in the past) and a limit of
    20, the handler returns thirteen cards: the eight of the table by
    [next_review], which are due all of them, and then the five new ones
    once more. *)
Theorem review_batch_counts_new_cards_twice :
  let due c := (CardDB.next_review c <=? Sample.clock)
               && (0 <? CardDB.repetitions c) in
  let new c := CardDB.repetitions c =? 0 in
  let batch := get_review_cards 20 Sample.store Sample.clock in
  map CardDB.id (filter due Sample.store) = [1; 2; 3] /\
  map CardDB.id (filter new Sample.store) = [4; 5; 6; 7; 8] /\
  map CardDB.id batch = [2; 3; 1; 4; 5; 6; 7; 8; 4; 5; 6; 7; 8] /\
  len batch = 13 /\
  ~ NoDup (map CardDB.id batch).
Proof.
  cbv zeta.
  assert (H : map CardDB.id (get_review_cards 20 Sample.store Sample.clock)
              = [2; 3; 1; 4; 5; 6; 7; 8; 4; 5; 6; 7; 8])
    by (vm_compute; reflexivity).
  split; [vm_compute; reflexivity|]. split; [vm_compute; reflexivity|].
  split; [exact H|]. split; [vm_compute; reflexivity|].
  rewrite H. intros Hn.
  repeat match goal with
         | Hn : NoDup (_ :: _) |- _ => inversion_clear Hn
         end.
  match goal with
  | Hn : ~ In 4 _ |- _ => solve [apply Hn; cbn; intuition reflexivity]
  end.
Qed.

(** * More of the code: the other handlers and the queries *)

(** Facts of a table that is written out, by computation. *)
Ltac no_duplicates :=
  vm_compute; repeat (constructor; [cbn; intuition discriminate|]); constructor.

Ltac written_out t :=
  let v := eval vm_compute in t in
  let E := fresh "E" in
  assert (E : t = v) by (vm_compute; reflexivity); rewrite E; clear E.

Ltac each_card db tac :=
  lazymatch goal with
  | |- Forall _ _ => idtac
  | _ => apply (proj1 (Forall_forall _ _))
  end;
  written_out db;
  repeat (apply Forall_cons; [tac|]); apply Forall_nil.

Ltac is_scheduled := split; [vm_compute; reflexivity|cbn; lia].

(** ** Queries: [filter], [order_by], [limit] *)

Section QueryFacts.
Context {A : Type} (key : A -> Z).

Lemma insert_by_perm (x : A) (l : list A) :
  Permutation (insert_by key x l) (x :: l).
Proof.
  induction l as [|y l IH]; cbn; [reflexivity|].
  destruct (key y <=? key x); [|reflexivity].
  rewrite IH. apply perm_swap.
Qed.

Lemma fold_insert_by_perm (l acc : list A) :
  Permutation (fold_left (fun acc x => insert_by key x acc) l acc) (acc ++ l).
Proof.
  revert acc. induction l as [|x l IH]; intros acc; cbn.
  - rewrite app_nil_r. reflexivity.
  - rewrite IH, insert_by_perm. apply Permutation_middle.
Qed.

Lemma order_by_perm (l : list A) : Permutation (order_by key l) l.
Proof. unfold order_by. rewrite fold_insert_by_perm. reflexivity. Qed.

Lemma insert_by_sorted (x : A) (l : list A) :
  StronglySorted (fun a b => key a <= key b) l ->
  StronglySorted (fun a b => key a <= key b) (insert_by key x l).
Proof.
  induction 1 as [|y l Hs IH Hy]; cbn.
  - constructor; constructor.
  - destruct (key y <=? key x) eqn:E.
    + apply Z.leb_le in E. constructor; [exact IH|].
      rewrite Forall_forall in *. intros z Hz.
      apply (Permutation_in _ (insert_by_perm x l)) in Hz.
      destruct Hz as [<- | Hz]; auto.
    + apply Z.leb_gt in E. constructor; [constructor; assumption|].
      constructor; [lia|].
      rewrite Forall_forall in *. intros z Hz. specialize (Hy z Hz). lia.
Qed.

Lemma order_by_sorted (l : list A) :
  StronglySorted (fun a b => key a <= key b) (order_by key l).
Proof.
  unfold order_by.
  assert (H : forall acc,
    StronglySorted (fun a b => key a <= key b) acc ->
    StronglySorted (fun a b => key a <= key b)
      (fold_left (fun acc x => insert_by key x acc) l acc)).
  { induction l as [|x l IH]; intros acc Hacc; cbn; [exact Hacc|].
    apply IH, insert_by_sorted, Hacc. }
  apply H. constructor.
Qed.

Lemma sorted_app_inv (l1 l2 : list A) :
  StronglySorted (fun a b => key a <= key b) (l1 ++ l2) ->
  StronglySorted (fun a b => key a <= key b) l1 /\
  forall a b, In a l1 -> In b l2 -> key a <= key b.
Proof.
  induction l1 as [|x l1 IH]; cbn; intros H.
  - split; [constructor|]. intros a b [].
  - inversion H as [|? ? Hs Hx]; subst. destruct (IH Hs) as [IH1 IH2].
    rewrite Forall_forall in Hx. split.
    + constructor; [exact IH1|]. apply Forall_forall. intros z Hz.
      apply Hx, in_or_app. auto.
    + intros a b [<- | Ha] Hb; [apply Hx, in_or_app; auto|auto].
Qed.

End QueryFacts.

Lemma limit_prefix {A : Type} (n : Z) (l : list A) :
  exists rest, l = limit n l ++ rest.
Proof.
  unfold limit. destruct (n <? 0).
  - exists []. rewrite app_nil_r. reflexivity.
  - exists (skipn (Z.to_nat n) l). symmetry. apply firstn_skipn.
Qed.

Lemma len_limit {A : Type} (n : Z) (l : list A) :
  len (limit n l) = if n <? 0 then len l else Z.min n (len l).
Proof.
  unfold limit, len. destruct (n <? 0) eqn:E; [reflexivity|].
  apply Z.ltb_ge in E. rewrite length_firstn. lia.
Qed.

Lemma len_nonneg {A : Type} (l : list A) : 0 <= len l.
Proof. unfold len. lia. Qed.

Lemma len_app {A : Type} (l l' : list A) : len (l ++ l') = len l + len l'.
Proof. unfold len. rewrite length_app. lia. Qed.

(** What a query [filter(p).order_by(key).limit(n).all()] returns. *)
Lemma query_selects {A : Type} (key : A -> Z) (p : A -> bool)
    (n : Z) (l : list A) :
  let r := limit n (order_by key (filter p l)) in
  (forall c, In c r -> In c l /\ p c = true) /\
  StronglySorted (fun a b => key a <= key b) r /\
  len r = (if n <? 0 then len (filter p l) else Z.min n (len (filter p l))) /\
  exists rest,
    Permutation (r ++ rest) (filter p l) /\
    forall c c', In c r -> In c' rest -> key c <= key c'.
Proof.
  cbv zeta.
  destruct (limit_prefix n (order_by key (filter p l))) as [rest Hrest].
  pose proof (order_by_perm key (filter p l)) as Hperm.
  pose proof (order_by_sorted key (filter p l)) as Hsorted.
  rewrite Hrest in Hsorted. apply sorted_app_inv in Hsorted as [Hs1 Hs2].
  split; [|split; [exact Hs1|split]].
  - intros c Hc. apply filter_In. apply (Permutation_in _ Hperm).
    rewrite Hrest. apply in_or_app. auto.
  - rewrite len_limit. unfold len.
    rewrite (Permutation_length Hperm). reflexivity.
  - exists rest. split; [|exact Hs2]. rewrite <- Hrest. exact Hperm.
Qed.

(** ** The two queries of [spaced_rep.py] *)



(** ** [get_review_cards] *)



(** ** Keys and lookups *)

Lemma fold_max_ge (l : list Z) (a : Z) :
  a <= fold_left Z.max l a /\ forall x, In x l -> x <= fold_left Z.max l a.
Proof.
  revert a. induction l as [|y l IH]; intros a; cbn.
  - split; [lia|intros x []].
  - destruct (IH (Z.max a y)) as [H1 H2]. split; [lia|].
    intros x [<- | Hx]; [lia|auto].
Qed.

Lemma next_card_id_above (db : Session) (i : Z) :
  In i (map CardDB.id db) -> i < next_card_id db.
Proof.
  unfold next_card_id. destruct (map CardDB.id db) as [|j ids]; [intros []|].
  destruct (fold_max_ge ids j) as [H1 H2].
  intros [<- | Hi]; [lia|]. specialize (H2 i Hi). lia.
Qed.

Lemma next_card_id_fresh (db : Session) :
  ~ In (next_card_id db) (map CardDB.id db).
Proof. intros H. apply next_card_id_above in H. lia. Qed.

Lemma next_history_id_fresh (db : Session) :
  ~ In (next_history_id db)
      (map ReviewHistory.id (flat_map CardDB.history db)).
Proof.
  unfold next_history_id. intros H.
  destruct (fold_max_ge (map ReviewHistory.id (flat_map CardDB.history db)) 0)
    as [_ H2].
  specialize (H2 _ H). lia.
Qed.

Lemma query_first_app (db db' : Session) (i : Z) :
  query_first (db ++ db') i =
  match query_first db i with
  | Some c => Some c
  | None => query_first db' i
  end.
Proof.
  unfold query_first. induction db as [|c db IH]; cbn; [reflexivity|].
  destruct (CardDB.id c =? i); [reflexivity|exact IH].
Qed.

Lemma query_first_In (db : Session) (i : Z) (c : CardDB.t) :
  query_first db i = Some c -> In c db /\ CardDB.id c = i.
Proof.
  unfold query_first. intros H. apply find_some in H as [H1 H2].
  split; [exact H1|]. apply Z.eqb_eq, H2.
Qed.

Lemma NoDup_map_inj {A B : Type} (f : A -> B) (l : list A) (a b : A) :
  NoDup (map f l) -> In a l -> In b l -> f a = f b -> a = b.
Proof.
  induction l as [|x l IH]; cbn; [intros _ []|].
  intros Hn Ha Hb E. inversion Hn as [|? ? Hx Hl]; subst.
  destruct Ha as [<- | Ha], Hb as [<- | Hb]; auto.
  - elim Hx. rewrite E. apply in_map, Hb.
  - elim Hx. rewrite <- E. apply in_map, Ha.
Qed.




(** [write_back]: the row of that key, replaced where it was. *)
Lemma map_id_write_back (c : CardDB.t) (db : Session) :
  map CardDB.id (write_back c db) = map CardDB.id db.
Proof.
  induction db as [|x db IH]; cbn; [reflexivity|].
  destruct (CardDB.id x =? CardDB.id c) eqn:E; cbn.
  - apply Z.eqb_eq in E. rewrite E. reflexivity.
  - rewrite IH. reflexivity.
Qed.

Lemma query_first_write_back_other (c : CardDB.t) (db : Session) (i : Z) :
  i <> CardDB.id c -> query_first (write_back c db) i = query_first db i.
Proof.
  intros Hi. unfold query_first. induction db as [|x db IH]; cbn; [reflexivity|].
  destruct (CardDB.id x =? CardDB.id c) eqn:E; cbn.
  - apply Z.eqb_eq in E.
    assert ((CardDB.id c =? i) = false) as -> by (apply Z.eqb_neq; lia).
    assert ((CardDB.id x =? i) = false) as -> by (apply Z.eqb_neq; lia).
    reflexivity.
  - destruct (CardDB.id x =? i); [reflexivity|exact IH].
Qed.

Lemma write_back_split (c card : CardDB.t) (db : Session) :
  query_first db (CardDB.id c) = Some card ->
  exists l1 l2, db = l1 ++ card :: l2 /\ write_back c db = l1 ++ c :: l2.
Proof.
  unfold query_first. induction db as [|x db IH]; cbn; [discriminate|].
  destruct (CardDB.id x =? CardDB.id c) eqn:E.
  - intros [= ->]. exists [], db. split; reflexivity.
  - intros H. destruct (IH H) as (l1 & l2 & -> & ->).
    exists (x :: l1), l2. split; reflexivity.
Qed.

Lemma query_first_write_back_same (c card : CardDB.t) (db : Session) :
  query_first db (CardDB.id c) = Some card ->
  query_first (write_back c db) (CardDB.id c) = Some c.
Proof.
  unfold query_first. induction db as [|x db IH]; cbn; [discriminate|].
  destruct (CardDB.id x =? CardDB.id c) eqn:E; cbn.
  - intros _. rewrite Z.eqb_refl. reflexivity.
  - rewrite E. exact IH.
Qed.

(** ** [review_card], step by step *)

Lemma review_card_inv
    (card_id : Z) (review : ReviewRequest.t) (db : Session)
    (now t_updated_at t_reviewed_at : datetime) (c : CardDB.t) :
  fst (review_card card_id review db now t_updated_at t_reviewed_at) = Ok c ->
  exists card c',
    query_first db card_id = Some card /\
    calculate_sm2 card (ReviewRequest.quality review) now = (Ok c', c') /\
    CardDB.id c' = card_id /\
    CardDB.history c' = CardDB.history card /\
    c = CardDB.set_updated_at
          (if modified card c' then t_updated_at else CardDB.updated_at card)
          (CardDB.set_history
             (CardDB.history c' ++
              [{| ReviewHistory.id := next_history_id db;
                  ReviewHistory.card_id := card_id;
                  ReviewHistory.quality := ReviewRequest.quality review;
                  ReviewHistory.reviewed_at := t_reviewed_at |}]) c') /\
    snd (review_card card_id review db now t_updated_at t_reviewed_at)
    = write_back c db.
Proof.
  destruct (Sqlite.integer card_id) eqn:Hb.
  2:{ unfold review_card. rewrite Hb. discriminate. }
  destruct (query_first db card_id) as [card|] eqn:Q.
  2:{ unfold review_card. rewrite Hb, Q. discriminate. }
  rewrite (review_card_found _ _ _ _ _ _ _ Hb Q).
  destruct (query_first_In _ _ _ Q) as [_ Hid].
  destruct (calculate_sm2_after card (ReviewRequest.quality review) now)
    as (delta & _ & i & r & t & Hs & Hf).
  destruct (calculate_sm2 card (ReviewRequest.quality review) now)
    as [[c'|e] after] eqn:E; cbn [fst snd] in *; [|discriminate].
  destruct (flush_binds card c' (ReviewRequest.quality review));
    [|discriminate].
  cbv zeta. cbn [fst snd]. intros [= <-]. subst c'.
  assert (Hid' : CardDB.id after = card_id) by (rewrite Hs; exact Hid).
  assert (Hh : CardDB.history after = CardDB.history card)
    by (rewrite Hs; reflexivity).
  exists card, after.
  split; [reflexivity|]. split; [exact E|]. split; [exact Hid'|].
  split; [exact Hh|]. rewrite Hh. split; reflexivity.
Qed.

(** A review that returns has bound what it had to. *)
Lemma review_card_bound
    (card_id : Z) (review : ReviewRequest.t) (db : Session)
    (now t_updated_at t_reviewed_at : datetime) (c card : CardDB.t) :
  fst (review_card card_id review db now t_updated_at t_reviewed_at) = Ok c ->
  query_first db card_id = Some card ->
  Sqlite.integer card_id = true /\
  flush_binds card c (ReviewRequest.quality review) = true.
Proof.
  destruct (Sqlite.integer card_id) eqn:Hb.
  2:{ unfold review_card. rewrite Hb. discriminate. }
  intros H Q. rewrite (review_card_found _ _ _ _ _ _ _ Hb Q) in H.
  destruct (calculate_sm2 card (ReviewRequest.quality review) now)
    as [[c'|e] after]; [|discriminate].
  destruct (flush_binds card c' (ReviewRequest.quality review)) eqn:F;
    [|discriminate].
  cbv zeta in H. cbn [fst] in H. injection H as <-.
  split; [reflexivity|exact F].
Qed.

Lemma review_card_raises
    (card_id : Z) (review : ReviewRequest.t) (db : Session)
    (now t_updated_at t_reviewed_at : datetime) (e : exn) :
  fst (review_card card_id review db now t_updated_at t_reviewed_at)
  = Raise e ->
  snd (review_card card_id review db now t_updated_at t_reviewed_at) = db.
Proof.
  unfold review_card.
  destruct (negb (Sqlite.integer card_id)); [reflexivity|].
  destruct (query_first db card_id) as [card|]; [|reflexivity].
  destruct (calculate_sm2 card (ReviewRequest.quality review) now)
    as [[c'|e'] after]; [|reflexivity].
  destruct (forallb Sqlite.integer _); [discriminate|reflexivity].
Qed.

(** ** Lookups: [get_card], [get_card_details] *)



(** ** [create_card] *)

(** X5. The card [create_card] returns has an identifier no card of the table
    had; [get_card] on that identifier then returns that very card, and on
    any other identifier what it returned before. The table has grown by
    this one card, which starts with no history, [repetitions] 0 and
    [interval] 0. *)
Theorem create_card_then_get_card
    (card : CardCreate.t) (db : Session) (t1 t2 t3 : datetime) :
  let created := fst (create_card card db t1 t2 t3) in
  let db' := snd (create_card card db t1 t2 t3) in
  ~ In (CardDB.id created) (map CardDB.id db) /\
  get_card (CardDB.id created) db' = Ok created /\
  (forall i, i <> CardDB.id created -> get_card i db' = get_card i db) /\
  Permutation db' (created :: db) /\
  CardDB.history created = [] /\
  CardDB.repetitions created = 0 /\ CardDB.interval created = 0.
Proof.
  cbv zeta. unfold create_card. cbv zeta. cbn [fst snd CardDB.id].
  pose proof (next_card_id_fresh db) as Hf.
  split; [exact Hf|]. unfold get_card.
  split; [|split; [|split; [|repeat split]]].
  - rewrite query_first_app.
    apply query_first_None in Hf. rewrite Hf. unfold query_first. cbn.
    rewrite Z.eqb_refl. reflexivity.
  - intros i Hi. rewrite query_first_app.
    destruct (query_first db i); [reflexivity|].
    unfold query_first. cbn.
    assert ((next_card_id db =? i) = false) as -> by (apply Z.eqb_neq; lia).
    reflexivity.
  - symmetry. apply Permutation_cons_append.
Qed.

(** ** [delete_card] *)


(** ** [review_card] and the lookups *)

(** X7. After a review that returns, [get_card_details] returns the card the
    review returned. Its history is the card's history before and one row
    more, with the quality of the request as sent, the card's identifier
    and the clock that the default of [reviewed_at] read. Its [updated_at]
    is the clock that the [onupdate] read when the review has changed one
    of [ease_factor], [interval], [repetitions] and [next_review], as a
    quality of 3 or more always does; when it has changed none of them,
    [updated_at] is what it was. The identifiers of the table are as they
    were, and every other identifier is looked up as before. *)
Theorem review_card_then_get_card_details
    (card_id : Z) (review : ReviewRequest.t) (db : Session)
    (now t_updated_at t_reviewed_at : datetime) (c : CardDB.t) :
  let out := review_card card_id review db now t_updated_at t_reviewed_at in
  fst out = Ok c ->
  get_card_details card_id (snd out) = Ok c /\
  (exists card,
     get_card_details card_id db = Ok card /\
     CardDB.history c =
     CardDB.history card ++
     [{| ReviewHistory.id := next_history_id db;
         ReviewHistory.card_id := card_id;
         ReviewHistory.quality := ReviewRequest.quality review;
         ReviewHistory.reviewed_at := t_reviewed_at |}] /\
     CardDB.updated_at c =
     (if modified card c then t_updated_at else CardDB.updated_at card) /\
     (3 <= ReviewRequest.quality review ->
      CardDB.updated_at c = t_updated_at)) /\
  map CardDB.id (snd out) = map CardDB.id db /\
  (forall i, i <> card_id ->
     get_card_details i (snd out) = get_card_details i db).
Proof.
  cbv zeta. intros H.
  destruct (review_card_inv _ _ _ _ _ _ _ H)
    as (card & c' & Q & Ec & Hid & Hh & Hc & ->).
  assert (Hidc : CardDB.id c = card_id) by (rewrite Hc; exact Hid).
  assert (Hm : modified card c = modified card c')
    by (rewrite Hc; reflexivity).
  unfold get_card_details.
  split; [|split; [|split]].
  - rewrite <- Hidc at 1.
    rewrite (query_first_write_back_same c card db);
      [reflexivity|rewrite Hidc; exact Q].
  - exists card. rewrite Q. split; [reflexivity|].
    split; [rewrite Hc; cbn; rewrite Hh; reflexivity|].
    split; [rewrite Hm, Hc; reflexivity|].
    intros Hq.
    destruct (calculate_sm2_returned _ _ _ _ _ Ec)
      as (_ & _ & _ & [(Hlt & _) | (_ & R & _)]); [lia|].
    assert (Hne : (CardDB.repetitions c' =? CardDB.repetitions card) = false)
      by (apply Z.eqb_neq; lia).
    rewrite Hc. cbn [CardDB.updated_at CardDB.set_updated_at].
    unfold modified. rewrite Hne. cbn [negb].
    rewrite orb_true_r. reflexivity.
  - apply map_id_write_back.
  - intros i Hi. rewrite query_first_write_back_other by (rewrite Hidc; exact Hi).
    reflexivity.
Qed.

Lemma review_card_then_get_card_details_witness :
  let out := review_card 1 {| ReviewRequest.quality := 4 |} Sample.mixed_db
               Sample.later (Sample.later + 1) (Sample.later + 2) in
  get_card_details 1 (snd out) = Ok (Sample.returned (fst out)) /\
  CardDB.updated_at (Sample.returned (fst out)) = Sample.later + 1.
Proof.
  cbv zeta.
  destruct (review_card_then_get_card_details
              1 {| ReviewRequest.quality := 4 |} Sample.mixed_db
              Sample.later (Sample.later + 1) (Sample.later + 2)
              (Sample.returned
                 (fst (review_card 1 {| ReviewRequest.quality := 4 |}
                         Sample.mixed_db Sample.later (Sample.later + 1)
                         (Sample.later + 2))))
              ltac:(vm_compute; reflexivity))
    as (H1 & (card & _ & _ & _ & H2) & _).
  split; [exact H1|]. apply H2. cbn. lia.
Defined.

(** ** Keys stay keys *)

Lemma filter_keeps_keys {A : Type} (key : A -> Z) (keep : A -> bool)
    (rows : list A) :
  NoDup (map key rows) -> NoDup (map key (filter keep rows)).
Proof.
  induction rows as [|r rows IH]; cbn; [auto|].
  intros H. inversion H as [|? ? Hr Hrows]; subst.
  destruct (keep r); cbn; [|auto].
  constructor; [|auto]. intros Hin. apply Hr.
  apply in_map_iff in Hin as (y & E & Hy). apply filter_In in Hy as [Hy _].
  rewrite <- E. apply in_map, Hy.
Qed.

Lemma flat_map_filter_incl {A B : Type} (f : A -> list B) (p : A -> bool)
    (l : list A) :
  exists rest, Permutation (flat_map f l) (flat_map f (filter p l) ++ rest).
Proof.
  induction l as [|x l [rest IH]]; cbn.
  - exists []. reflexivity.
  - destruct (p x); cbn.
    + exists rest. rewrite IH, app_assoc. reflexivity.
    + exists (f x ++ rest). rewrite IH.
      rewrite !app_assoc. apply Permutation_app_tail, Permutation_app_comm.
Qed.

Lemma NoDup_app_l {A : Type} (l l' : list A) : NoDup (l ++ l') -> NoDup l.
Proof.
  induction l as [|x l IH]; cbn; intros H; [constructor|].
  inversion H as [|? ? Hx Hl]; subst. constructor; [|auto].
  intros Hin. apply Hx, in_or_app. auto.
Qed.

Lemma perm_snoc_middle {A : Type} (a b d : list A) (h : A) :
  Permutation (a ++ (b ++ [h]) ++ d) (h :: a ++ b ++ d).
Proof.
  rewrite <- app_assoc. cbn. rewrite app_assoc, <- Permutation_middle.
  rewrite <- app_assoc. reflexivity.
Qed.

Lemma delete_card_In (card_id : Z) (db : Session) (c : CardDB.t) :
  In c (snd (delete_card card_id db)) <-> In c db /\ CardDB.id c <> card_id.
Proof.
  unfold delete_card.
  destruct (query_first db card_id) as [card|] eqn:Q; cbn [snd].
  - destruct (query_first_In _ _ _ Q) as [_ <-].
    rewrite filter_In, negb_true_iff, Z.eqb_neq. tauto.
  - apply query_first_None in Q. split; [|tauto].
    intros Hc. split; [exact Hc|]. intros <-. apply Q, in_map, Hc.
Qed.

Lemma create_card_consistent
    (card : CardCreate.t) (db : Session) (t1 t2 t3 : datetime) :
  consistent db -> consistent (snd (create_card card db t1 t2 t3)).
Proof.
  intros (H1 & H2 & H3). unfold create_card. cbv zeta. cbn [snd].
  split; [|split].
  - rewrite map_app. cbn.
    apply (Permutation_NoDup (Permutation_cons_append _ _)).
    constructor; [apply next_card_id_fresh|exact H1].
  - rewrite flat_map_app. cbn. rewrite app_nil_r. exact H2.
  - apply Forall_app. split; [exact H3|]. constructor; constructor.
Qed.

Lemma delete_card_consistent (card_id : Z) (db : Session) :
  consistent db -> consistent (snd (delete_card card_id db)).
Proof.
  intros (H1 & H2 & H3). unfold delete_card.
  destruct (query_first db card_id) as [card|]; cbn [snd];
    [|split; [|split]; assumption].
  split; [|split].
  - apply filter_keeps_keys, H1.
  - destruct (flat_map_filter_incl CardDB.history
                (fun c => negb (CardDB.id c =? CardDB.id card)) db)
      as [rest Hp].
    apply (Permutation_map ReviewHistory.id) in Hp. rewrite map_app in Hp.
    apply (Permutation_NoDup Hp) in H2. apply NoDup_app_l in H2. exact H2.
  - rewrite Forall_forall in *. intros c Hc.
    apply filter_In in Hc as [Hc _]. auto.
Qed.

Lemma review_card_consistent
    (card_id : Z) (review : ReviewRequest.t) (db : Session)
    (now t_updated_at t_reviewed_at : datetime) :
  consistent db ->
  consistent (snd (review_card card_id review db now t_updated_at t_reviewed_at)).
Proof.
  intros Hdb.
  destruct (fst (review_card card_id review db now t_updated_at t_reviewed_at)) as [c|e] eqn:E.
  2:{ rewrite (review_card_raises _ _ _ _ _ _ _ E). exact Hdb. }
  destruct Hdb as (H1 & H2 & H3).
  destruct (review_card_inv _ _ _ _ _ _ _ E)
    as (card & c' & Q & _ & Hid & Hh & Hc & ->).
  assert (Hidc : CardDB.id c = card_id) by (rewrite Hc; exact Hid).
  assert (Hhc : CardDB.history c =
                CardDB.history card ++
                [{| ReviewHistory.id := next_history_id db;
                    ReviewHistory.card_id := card_id;
                    ReviewHistory.quality := ReviewRequest.quality review;
                    ReviewHistory.reviewed_at := t_reviewed_at |}])
    by (rewrite Hc; cbn; rewrite Hh; reflexivity).
  pose proof (next_history_id_fresh db) as Hfresh.
  rewrite <- Hidc in Q.
  destruct (write_back_split c card db Q) as (l1 & l2 & Edb & ->).
  rewrite Edb in *. clear Edb.
  split; [|split].
  - rewrite map_app in *. cbn in *.
    destruct (query_first_In _ _ _ Q) as [_ Hcard].
    rewrite <- Hcard. exact H1.
  - rewrite flat_map_app in *. cbn [flat_map] in *.
    rewrite Hhc, !map_app in *. cbn [map] in *.
    set (h := next_history_id _) in *.
    set (a := map ReviewHistory.id (flat_map CardDB.history l1)) in *.
    set (b := map ReviewHistory.id (CardDB.history card)) in *.
    set (d := map ReviewHistory.id (flat_map CardDB.history l2)) in *.
    apply (Permutation_NoDup (Permutation_sym (perm_snoc_middle a b d h))).
    constructor; assumption.
  - apply Forall_app in H3 as [Ha Hb]. inversion Hb as [|? ? Hcard Hl2]; subst.
    apply Forall_app. split; [exact Ha|]. constructor; [|exact Hl2].
    rewrite Hhc. apply Forall_app. split.
    + destruct (query_first_In _ _ _ Q) as [_ Hcid]. rewrite Hcid in Hcard.
      exact Hcard.
    + constructor; [|constructor]. cbn. symmetry. exact Hidc.
Qed.

(** X8. The three handlers that write keep the keys of the table: from a
    table in which no two cards and no two history rows share an
    identifier, and every history row is under the card it names, each of
    them leaves such a table, whatever it is given, whether it returns or
    raises. *)
Theorem handlers_keep_the_keys (db : Session) :
  consistent db ->
  (forall card t1 t2 t3, consistent (snd (create_card card db t1 t2 t3))) /\
  (forall card_id review now t_updated_at t_reviewed_at,
     consistent (snd (review_card card_id review db now t_updated_at t_reviewed_at))) /\
  (forall card_id, consistent (snd (delete_card card_id db))).
Proof.
  intros H. split; [|split]; intros.
  - apply create_card_consistent, H.
  - apply review_card_consistent, H.
  - apply delete_card_consistent, H.
Qed.

Lemma handlers_keep_the_keys_witness :
  consistent (snd (create_card Sample.kruh Sample.mixed_db Sample.later Sample.later Sample.later)) /\
  consistent (snd (review_card 1 {| ReviewRequest.quality := 4 |}
                     Sample.mixed_db Sample.later Sample.later
                     Sample.later)) /\
  consistent (snd (delete_card 1 Sample.mixed_db)).
Proof.
  destruct (handlers_keep_the_keys Sample.mixed_db) as (H1 & H2 & H3).
  - split; [no_duplicates|]. split; [no_duplicates|].
    vm_compute. repeat constructor.
  - split; [apply H1|]. split; [apply H2|apply H3].
Defined.

(** ** What the scheduler keeps of a card *)

Lemma len_snoc {A : Type} (l : list A) (x : A) : len (l ++ [x]) = len l + 1.
Proof. rewrite len_app. reflexivity. Qed.

(** A review that returns, on a card the scheduler has kept so far. *)
Lemma calculate_sm2_scheduled
    (card : CardDB.t) (quality : Z) (now : datetime) (c' after : CardDB.t) :
  scheduled card ->
  calculate_sm2 card quality now = (Ok c', after) ->
  (1.3 <=? CardDB.ease_factor c')%float = true /\
  0 <= CardDB.repetitions c' <= len (CardDB.history card) + 1 /\
  (CardDB.repetitions c' = 0 -> CardDB.interval c' <= 1) /\
  1 <= CardDB.interval c' /\
  CardDB.next_review c' = now + CardDB.interval c' * us_per_day.
Proof.
  intros (Hef & Hreps & H0 & Hh) E.
  destruct (calculate_sm2_returned _ _ _ _ _ E)
    as (_ & (delta & _ & F) & N & H).
  assert (Hef' : (1.3 <=? CardDB.ease_factor c')%float = true)
    by (rewrite F; apply max_floor).
  split; [exact Hef'|].
  assert (Hi : CardDB.repetitions card <> 0 -> 1 <= CardDB.interval card).
  { intros Hr. destruct (CardDB.history card); [|exact Hh].
    change (len []) with 0 in Hreps. lia. }
  destruct H as [(_ & R & I) |
                 (_ & R & [(_ & I) | [(_ & I) | (R0 & R1 & p & Hp & Hr)]])].
  - split; [lia|]. split; [lia|]. split; [lia|exact N].
  - split; [lia|]. split; [lia|]. split; [lia|exact N].
  - split; [lia|]. split; [lia|]. split; [lia|exact N].
  - assert (1 <= CardDB.interval c').
    { apply (round_product_at_least_1 (CardDB.interval card)
               (CardDB.ease_factor c') p); auto. }
    split; [lia|]. split; [lia|]. split; [lia|exact N].
Qed.

Lemma Forall_write_back (P : CardDB.t -> Prop) (c : CardDB.t) (db : Session) :
  P c -> Forall P db -> Forall P (write_back c db).
Proof.
  intros Hc. induction 1 as [|x db Hx Hdb IH]; cbn; [constructor|].
  destruct (CardDB.id x =? CardDB.id c); constructor; assumption.
Qed.

Lemma review_card_scheduled
    (card_id : Z) (review : ReviewRequest.t) (db : Session)
    (now t_updated_at t_reviewed_at : datetime) :
  Forall scheduled db ->
  Forall scheduled (snd (review_card card_id review db now t_updated_at t_reviewed_at)) /\
  forall c,
    fst (review_card card_id review db now t_updated_at t_reviewed_at) = Ok c ->
    scheduled c /\ 1 <= CardDB.interval c /\
    CardDB.next_review c = now + CardDB.interval c * us_per_day.
Proof.
  intros Hdb.
  assert (Hc : forall c,
    fst (review_card card_id review db now t_updated_at t_reviewed_at) = Ok c ->
    scheduled c /\ 1 <= CardDB.interval c /\
    CardDB.next_review c = now + CardDB.interval c * us_per_day).
  { intros c E.
    destruct (review_card_inv _ _ _ _ _ _ _ E)
      as (card & c' & Q & Ec & _ & Hh & -> & _).
    destruct (query_first_In _ _ _ Q) as [Hin _].
    rewrite Forall_forall in Hdb.
    destruct (calculate_sm2_scheduled _ _ _ _ _ (Hdb card Hin) Ec)
      as (H1 & H2 & H3 & H4 & H5).
    split; [|split; [exact H4|exact H5]].
    unfold scheduled. cbn. rewrite Hh, len_snoc.
    split; [exact H1|]. split; [lia|]. split; [exact H3|].
    destruct (CardDB.history card); exact H4. }
  split; [|exact Hc].
  destruct (fst (review_card card_id review db now t_updated_at t_reviewed_at)) as [c|e] eqn:E.
  - destruct (review_card_inv _ _ _ _ _ _ _ E) as (_ & _ & _ & _ & _ & _ & _ & ->).
    apply Forall_write_back; [apply Hc; reflexivity|exact Hdb].
  - rewrite (review_card_raises _ _ _ _ _ _ _ E). exact Hdb.
Qed.

Lemma create_card_scheduled
    (card : CardCreate.t) (db : Session) (t1 t2 t3 : datetime) :
  Forall scheduled db -> Forall scheduled (snd (create_card card db t1 t2 t3)).
Proof.
  intros H. unfold create_card. cbv zeta. cbn [snd].
  apply Forall_app. split; [exact H|]. constructor; [|constructor].
  unfold scheduled. cbn.
  split; [reflexivity|]. split; [lia|]. split; [lia|reflexivity].
Qed.

Lemma delete_card_scheduled (card_id : Z) (db : Session) :
  Forall scheduled db -> Forall scheduled (snd (delete_card card_id db)).
Proof.
  intros H. rewrite Forall_forall in *. intros c Hc.
  apply delete_card_In in Hc as [Hc _]. auto.
Qed.

Lemma reachable_invariants (db : Session) :
  reachable db -> consistent db /\ Forall scheduled db.
Proof.
  induction 1 as [|card db t1 t2 t3 _ [IH1 IH2]
                  |card_id review db now t_updated_at t_reviewed_at _
                   [IH1 IH2]
                  |card_id db _ [IH1 IH2]].
  - split; [|constructor]. split; [constructor|]. split; constructor.
  - split; [apply create_card_consistent|apply create_card_scheduled];
      assumption.
  - split; [apply review_card_consistent|apply review_card_scheduled];
      assumption.
  - split; [apply delete_card_consistent|apply delete_card_scheduled];
      assumption.
Qed.

(** ** [get_stats] *)

Lemma len_filter_split {A : Type} (p q r : A -> bool) (l : list A) :
  (forall x, In x l ->
     (if p x then 1 else 0) + (if q x then 1 else 0) + (if r x then 1 else 0)
     = 1) ->
  len l = len (filter p l) + len (filter q l) + len (filter r l).
Proof.
  unfold len. induction l as [|x l IH]; intros H; [reflexivity|].
  specialize (IH (fun y Hy => H y (or_intror Hy))).
  specialize (H x (or_introl eq_refl)). cbn [filter].
  destruct (p x), (q x), (r x); cbn [List.length] in *; lia.
Qed.

Lemma len_filter_le {A : Type} (p : A -> bool) (l : list A) :
  len (filter p l) <= len l.
Proof.
  unfold len. induction l as [|x l IH]; cbn; [lia|].
  destruct (p x); cbn; lia.
Qed.

Lemma get_stats_partition (db : Session) (now : datetime) :
  (forall c, In c db ->
     0 <= CardDB.repetitions c /\
     (CardDB.repetitions c = 0 -> CardDB.interval c < 21)) ->
  let s := get_stats db now in
  Stats.total s = Stats.new s + Stats.learning s + Stats.mature s.
Proof.
  intros H. cbv zeta. cbn [get_stats Stats.total Stats.new Stats.learning
                            Stats.mature].
  apply len_filter_split. intros c Hc. destruct (H c Hc) as [H0 H1].
  destruct (CardDB.repetitions c =? 0) eqn:E0.
  - apply Z.eqb_eq in E0. specialize (H1 E0).
    assert ((0 <? CardDB.repetitions c) = false) as ->
      by (apply Z.ltb_ge; lia).
    assert ((21 <=? CardDB.interval c) = false) as ->
      by (apply Z.leb_gt; lia).
    reflexivity.
  - apply Z.eqb_neq in E0.
    assert ((0 <? CardDB.repetitions c) = true) as ->
      by (apply Z.ltb_lt; lia).
    destruct (CardDB.interval c <? 21) eqn:E21.
    + apply Z.ltb_lt in E21.
      assert ((21 <=? CardDB.interval c) = false) as ->
        by (apply Z.leb_gt; lia).
      reflexivity.
    + apply Z.ltb_ge in E21.
      assert ((21 <=? CardDB.interval c) = true) as ->
        by (apply Z.leb_le; lia).
      reflexivity.
Qed.

(** X10. The three classes of [get_stats] count every card once when no card
    has a negative [repetitions] and no card of [repetitions] 0 has an
    [interval] of 21 or more: then total = new + learning + mature. The
    number due is never more than the total. *)
Theorem get_stats_classes (db : Session) (now : datetime) :
  (forall c, In c db ->
     0 <= CardDB.repetitions c /\
     (CardDB.repetitions c = 0 -> CardDB.interval c < 21)) ->
  let s := get_stats db now in
  Stats.total s = Stats.new s + Stats.learning s + Stats.mature s /\
  0 <= Stats.due s <= Stats.total s.
Proof.
  intros H. cbv zeta. split; [apply (get_stats_partition db now H)|].
  cbn [get_stats Stats.total Stats.due].
  split; [apply len_nonneg|apply len_filter_le].
Qed.

Lemma get_stats_classes_witness :
  let s := get_stats Sample.mixed_db Sample.later in
  Stats.total s = Stats.new s + Stats.learning s + Stats.mature s /\
  0 <= Stats.due s <= Stats.total s.
Proof.
  apply (get_stats_classes Sample.mixed_db Sample.later).
  each_card Sample.mixed_db ltac:(cbn; lia).
Defined.

(** ** [list_cards] *)

Lemma StronglySorted_weaken {A : Type} (R R' : A -> A -> Prop) (l : list A) :
  (forall a b, R a b -> R' a b) -> StronglySorted R l -> StronglySorted R' l.
Proof.
  intros HR. induction 1 as [|x l Hs IH Hx]; constructor; [exact IH|].
  rewrite Forall_forall in *. auto.
Qed.

(** X11. [list_cards] returns every card of the table, each as often as the
    table has it, the newest first. *)
Theorem list_cards_newest_first (db : Session) :
  Permutation (list_cards db) db /\
  StronglySorted (fun a b => CardDB.created_at b <= CardDB.created_at a)
    (list_cards db).
Proof.
  unfold list_cards. split; [apply order_by_perm|].
  apply (StronglySorted_weaken
           (fun a b => - CardDB.created_at a <= - CardDB.created_at b)).
  - intros a b. lia.
  - apply (order_by_sorted (fun c => - CardDB.created_at c)).
Qed.

(** ** What holds of every table the handlers build *)

(** X12. On a table that [create_card], [review_card] and [delete_card] have
    built from the empty one, at any clock readings and with any requests:
    no two cards have one identifier; every card has an ease factor of at
    least 1.3, a count of repetitions from 0 up to the number of its
    history rows, and an interval of 0 exactly when it has no history, of
    at least 1 once it has been reviewed; and [get_stats] counts every
    card in one class: total = new + learning + mature. *)
Theorem reachable_cards_are_scheduled (db : Session) :
  reachable db ->
  NoDup (map CardDB.id db) /\
  (forall c, In c db ->
     (1.3 <=? CardDB.ease_factor c)%float = true /\
     0 <= CardDB.repetitions c <= len (CardDB.history c) /\
     (CardDB.history c = [] <-> CardDB.interval c = 0) /\
     (CardDB.history c <> [] <-> 1 <= CardDB.interval c)) /\
  (forall now,
     Stats.total (get_stats db now)
     = Stats.new (get_stats db now) + Stats.learning (get_stats db now)
       + Stats.mature (get_stats db now)).
Proof.
  intros H. apply reachable_invariants in H as [(H1 & _) H2].
  split; [exact H1|]. rewrite Forall_forall in H2. split.
  - intros c Hc. destruct (H2 c Hc) as (Hef & Hr & _ & Hh).
    split; [exact Hef|]. split; [exact Hr|].
    destruct (CardDB.history c); split; split; try congruence; try lia.
  - intros now. apply (get_stats_partition db now).
    intros c Hc. destruct (H2 c Hc) as (_ & Hr & H0 & _).
    split; [lia|]. intros E. specialize (H0 E). lia.
Qed.

Lemma reachable_cards_are_scheduled_witness :
  NoDup (map CardDB.id Sample.mixed_db) /\
  Stats.total (get_stats Sample.mixed_db Sample.later)
  = Stats.new (get_stats Sample.mixed_db Sample.later)
    + Stats.learning (get_stats Sample.mixed_db Sample.later)
    + Stats.mature (get_stats Sample.mixed_db Sample.later).
Proof.
  destruct (reachable_cards_are_scheduled Sample.mixed_db) as (H1 & _ & H3).
  - unfold Sample.mixed_db. cbv zeta.
    repeat first [apply reach_review | apply reach_create | apply reach_empty].
  - split; [exact H1|apply H3].
Defined.

(** X13. The scheduler's invariant is kept by each handler that writes, from
    any table that has it; and the card a review returns has an interval
    of at least 1 and a [next_review] that many days after the clock the
    review read, so after that clock. *)
Theorem handlers_keep_cards_scheduled (db : Session) :
  Forall scheduled db ->
  (forall card t1 t2 t3,
     Forall scheduled (snd (create_card card db t1 t2 t3))) /\
  (forall card_id review now t_updated_at t_reviewed_at,
     Forall scheduled (snd (review_card card_id review db now t_updated_at t_reviewed_at)) /\
     forall c,
       fst (review_card card_id review db now t_updated_at t_reviewed_at) = Ok c ->
       1 <= CardDB.interval c /\
       CardDB.next_review c = now + CardDB.interval c * us_per_day /\
       now < CardDB.next_review c) /\
  (forall card_id, Forall scheduled (snd (delete_card card_id db))).
Proof.
  intros H. split; [|split]; intros.
  - apply create_card_scheduled, H.
  - destruct (review_card_scheduled card_id review db now t_updated_at t_reviewed_at H)
      as [H1 H2].
    split; [exact H1|]. intros c Hc. destruct (H2 c Hc) as (_ & Hi & Hn).
    split; [exact Hi|]. split; [exact Hn|]. rewrite Hn, us_per_day_eq. lia.
  - apply delete_card_scheduled, H.
Qed.

Lemma handlers_keep_cards_scheduled_witness :
  let out := review_card 1 {| ReviewRequest.quality := 4 |} Sample.mixed_db
               Sample.later Sample.later Sample.later in
  Forall scheduled (snd out) /\ Sample.later < CardDB.next_review (Sample.returned (fst out)).
Proof.
  cbv zeta.
  destruct (handlers_keep_cards_scheduled Sample.mixed_db) as (_ & H & _).
  - each_card Sample.mixed_db is_scheduled.
  - destruct (H 1 {| ReviewRequest.quality := 4 |} Sample.later Sample.later
                Sample.later) as [H1 H2].
    split; [exact H1|]. apply H2. vm_compute. reflexivity.
Defined.

(** ** A review batch without a card twice *)

Lemma query_NoDup {A : Type} (f : A -> Z) (key : A -> Z) (p : A -> bool)
    (n : Z) (l : list A) :
  NoDup (map f l) -> NoDup (map f (limit n (order_by key (filter p l)))).
Proof.
  intros H.
  destruct (query_selects key p n l) as (_ & _ & _ & rest & Hp & _).
  apply (filter_keeps_keys f p) in H.
  apply (Permutation_map f) in Hp. rewrite map_app in Hp.
  apply (Permutation_NoDup (Permutation_sym Hp)) in H.
  apply NoDup_app_l in H. exact H.
Qed.

(** X14. When no card of [repetitions] 0 is due, and no two cards of the table
    have one identifier, [get_review_cards] returns no identifier twice. *)
Theorem get_review_cards_no_card_twice
    (limit : Z) (db : Session) (now : datetime) :
  NoDup (map CardDB.id db) ->
  (forall c, In c db -> CardDB.repetitions c = 0 -> now < CardDB.next_review c) ->
  NoDup (map CardDB.id (get_review_cards limit db now)).
Proof.
  intros Hn Hnew. unfold get_review_cards. cbv zeta.
  assert (Hd : NoDup (map CardDB.id (get_due_cards db limit now)))
    by (apply query_NoDup, Hn).
  destruct (len (get_due_cards db limit now) <? limit); [|exact Hd].
  rewrite map_app. apply NoDup_app; [exact Hd|apply query_NoDup, Hn|].
  intros i Hi1 Hi2.
  apply in_map_iff in Hi1 as (c1 & E1 & H1).
  apply in_map_iff in Hi2 as (c2 & E2 & H2).
  destruct (query_selects CardDB.next_review
              (fun c => CardDB.next_review c <=? now) limit db)
    as (Hdue & _).
  destruct (query_selects CardDB.created_at
              (fun c => CardDB.repetitions c =? 0)
              (limit - len (get_due_cards db limit now)) db)
    as (Hnw & _).
  destruct (Hdue c1 H1) as [Hin1 Hp1]. destruct (Hnw c2 H2) as [Hin2 Hp2].
  assert (c1 = c2)
    by (apply (NoDup_map_inj CardDB.id db); auto; congruence).
  subst c2. apply Z.leb_le in Hp1. apply Z.eqb_eq in Hp2.
  specialize (Hnew c1 Hin1 Hp2). lia.
Qed.

Lemma get_review_cards_no_card_twice_witness :
  NoDup (map CardDB.id (get_review_cards 20 Sample.mixed_db Sample.later)).
Proof.
  apply (get_review_cards_no_card_twice 20 Sample.mixed_db Sample.later).
  - no_duplicates.
  - apply (proj1 (Forall_forall
                    (fun c => CardDB.repetitions c = 0 ->
                              Sample.later < CardDB.next_review c) Sample.mixed_db)).
    each_card Sample.mixed_db ltac:(cbn; lia).
Defined.

(** ** A reviewed card and the two queues *)

Lemma In_write_back (c card : CardDB.t) (db : Session) :
  query_first db (CardDB.id c) = Some card -> In c (write_back c db).
Proof.
  intros Q. destruct (write_back_split c card db Q) as (l1 & l2 & _ & ->).
  apply in_or_app. right. left. reflexivity.
Qed.

(** X15. After a review that returns, on a table whose cards the scheduler has
    kept and whose identifiers are keys, the card is not in the due queue
    at the clock the review read, nor at any earlier one, whatever the
    limit. *)
Theorem reviewed_card_leaves_the_due_queue
    (card_id : Z) (review : ReviewRequest.t) (db : Session)
    (now t_updated_at t_reviewed_at : datetime) (c : CardDB.t) (limit : Z) (t : datetime) :
  let out := review_card card_id review db now t_updated_at t_reviewed_at in
  NoDup (map CardDB.id db) -> Forall scheduled db ->
  fst out = Ok c -> t <= now ->
  ~ In card_id (map CardDB.id (get_due_cards (snd out) limit t)).
Proof.
  cbv zeta. intros Hn Hs E Ht Hin.
  destruct (review_card_scheduled card_id review db now t_updated_at t_reviewed_at Hs) as [_ H].
  destruct (H c E) as (_ & Hi & Hnr).
  destruct (review_card_inv _ _ _ _ _ _ _ E)
    as (card & c' & Q & _ & Hid & _ & Hc & Hout).
  assert (Hidc : CardDB.id c = card_id) by (rewrite Hc; exact Hid).
  rewrite Hout in Hin.
  apply in_map_iff in Hin as (d & Ed & Hd).
  destruct (query_selects CardDB.next_review
              (fun c => CardDB.next_review c <=? t) limit (write_back c db))
    as (Hdue & _).
  destruct (Hdue d Hd) as [Hind Hp]. apply Z.leb_le in Hp.
  assert (d = c).
  { apply (NoDup_map_inj CardDB.id (write_back c db)).
    - rewrite map_id_write_back. exact Hn.
    - exact Hind.
    - apply (In_write_back c card). rewrite Hidc. exact Q.
    - congruence. }
  subst d. rewrite Hnr, us_per_day_eq in Hp. lia.
Qed.

Lemma reviewed_card_leaves_the_due_queue_witness :
  let out := review_card 1 {| ReviewRequest.quality := 4 |} Sample.mixed_db
               Sample.later Sample.later Sample.later in
  ~ In 1 (map CardDB.id (get_due_cards (snd out) 20 Sample.later)).
Proof.
  apply (reviewed_card_leaves_the_due_queue
           1 {| ReviewRequest.quality := 4 |} Sample.mixed_db
           Sample.later Sample.later Sample.later
           (Sample.returned (fst (review_card 1 {| ReviewRequest.quality := 4 |}
                             Sample.mixed_db Sample.later Sample.later
                             Sample.later))) 20 Sample.later).
  - no_duplicates.
  - each_card Sample.mixed_db is_scheduled.
  - vm_compute. reflexivity.
  - lia.
Defined.

(** X16. A card that is failed in review (quality below 3) has [repetitions] 0
    again: although it has history, the unlimited [get_new_cards] returns
    it, and [get_stats] counts it as new. *)
Theorem failed_card_is_new_again
    (card_id : Z) (review : ReviewRequest.t) (db : Session)
    (now t_updated_at t_reviewed_at : datetime) (c : CardDB.t) :
  let out := review_card card_id review db now t_updated_at t_reviewed_at in
  fst out = Ok c -> ReviewRequest.quality review < 3 ->
  CardDB.history c <> [] /\
  In c (get_new_cards (snd out) (-1)) /\
  1 <= Stats.new (get_stats (snd out) now).
Proof.
  cbv zeta. intros E Hq.
  destruct (review_card_inv _ _ _ _ _ _ _ E)
    as (card & c' & Q & Ec & Hid & _ & Hc & Hout).
  assert (Hidc : CardDB.id c = card_id) by (rewrite Hc; exact Hid).
  destruct (calculate_sm2_returned _ _ _ _ _ Ec) as (_ & _ & _ & H).
  assert (Hr : CardDB.repetitions c = 0).
  { rewrite Hc. cbn. destruct H as [(_ & R & _) | (H3 & _)]; [exact R|lia]. }
  assert (Hin : In c (filter (fun c => CardDB.repetitions c =? 0)
                        (write_back c db))).
  { apply filter_In. split.
    - apply (In_write_back c card). rewrite Hidc. exact Q.
    - apply Z.eqb_eq, Hr. }
  rewrite Hout. split; [|split].
  - rewrite Hc. cbn. destruct (CardDB.history c'); discriminate.
  - unfold get_new_cards, Py.limit. cbn [Z.ltb Z.compare].
    apply (Permutation_in _ (Permutation_sym (order_by_perm _ _))), Hin.
  - cbn [get_stats Stats.new]. unfold len.
    destruct (filter _ (write_back c db)); [destruct Hin|cbn; lia].
Qed.

Lemma failed_card_is_new_again_witness :
  let out := review_card 1 {| ReviewRequest.quality := 1 |} Sample.mixed_db
               Sample.later Sample.later Sample.later in
  CardDB.history (Sample.returned (fst out)) <> [] /\
  In (Sample.returned (fst out)) (get_new_cards (snd out) (-1)) /\
  1 <= Stats.new (get_stats (snd out) Sample.later).
Proof.
  apply (failed_card_is_new_again
           1 {| ReviewRequest.quality := 1 |} Sample.mixed_db
           Sample.later Sample.later Sample.later
           (Sample.returned (fst (review_card 1 {| ReviewRequest.quality := 1 |}
                             Sample.mixed_db Sample.later Sample.later
                             Sample.later)))).
  - vm_compute. reflexivity.
  - cbn. lia.
Defined.

(** ** Quality 4 *)

Lemma add_zero_finite (x : float) :
  (1.3 <=? x)%float = true -> (x + 0)%float = x.
Proof.
  intros H.
  assert (E : Prim2SF (x + 0) = Prim2SF x).
  { rewrite add_spec. unfold SF64add.
    change (Prim2SF 0) with (S754_zero false).
    destruct (at_least_1_3 x H) as [E | (m & e & E & _)]; rewrite E;
      reflexivity. }
  rewrite <- (SF2Prim_Prim2SF (x + 0)), E. apply SF2Prim_Prim2SF.
Qed.

Lemma max_floor_id (x : float) :
  (1.3 <=? x)%float = true -> Py.max 1.3 x = x.
Proof.
  intros H. unfold Py.max. destruct (1.3 <? x)%float eqn:E; [reflexivity|].
  rewrite leb_spec in H. rewrite ltb_spec in E.
  assert (Ex : Prim2SF 1.3 = Prim2SF x).
  { change (Prim2SF 1.3) with (S754_finite false 5854679515581645 (-52)) in *.
    revert H E.
    destruct (Prim2SF x) as [s|s| |s m e]; try destruct s;
      unfold SFleb, SFltb, SFcompare; try discriminate.
    destruct (Z.compare_spec (-52) e) as [<- | |]; try discriminate.
    change (PosDef.Pos.compare_cont Eq 5854679515581645 m)
      with (5854679515581645 ?= m)%positive.
    destruct (Pos.compare_spec 5854679515581645 m) as [<- | |];
      try discriminate.
    reflexivity. }
  rewrite <- (SF2Prim_Prim2SF 1.3), Ex. apply SF2Prim_Prim2SF.
Qed.

(** X17. A review of quality 4 leaves the ease factor of a card as it was,
    when that is at least 1.3: the increment the code computes for 4 is
    the float 0. *)
Theorem quality_4_keeps_the_ease_factor (card : CardDB.t) (now : datetime) :
  (1.3 <=? CardDB.ease_factor card)%float = true ->
  ease_delta 4 = Ok 0%float /\
  CardDB.ease_factor (snd (calculate_sm2 card 4 now)) = CardDB.ease_factor card.
Proof.
  intros H. split; [vm_compute; reflexivity|].
  destruct (calculate_sm2_after card 4 now)
    as (delta & Ed & i & r & t & -> & _).
  cbn [CardDB.ease_factor CardDB.set_next_review CardDB.set_repetitions
       CardDB.set_interval CardDB.set_ease_factor].
  vm_compute in Ed. injection Ed as <-.
  rewrite add_zero_finite by exact H. apply max_floor_id, H.
Qed.

Lemma quality_4_keeps_the_ease_factor_witness :
  CardDB.ease_factor (snd (calculate_sm2 Sample.learning 4 Sample.clock))
  = CardDB.ease_factor Sample.learning.
Proof.
  apply (proj2 (quality_4_keeps_the_ease_factor Sample.learning Sample.clock
                  ltac:(vm_compute; reflexivity))).
Defined.

(** ** Binary64 values: what rounding cannot lose *)

Lemma shr_fexp_floor (m : positive) (e : Z) (l : location) :
  -1021 <= Zpos (digits2_pos m) + e ->
  exists mrs m',
    shr_fexp prec emax (Zpos m) e l
    = (mrs, e + Z.max 0 (Zpos (digits2_pos m) - 53)) /\
    shr_m mrs = Zpos m' /\
    Zpos m' = Zpos m / 2 ^ Z.max 0 (Zpos (digits2_pos m) - 53) /\
    (Zpos (digits2_pos m) <= 53 -> mrs = shr_record_of_loc (Zpos m) l).
Proof.
  intros Hn. unfold shr_fexp. cbn [Zdigits2]. rewrite fexp_normal by exact Hn.
  replace (Zpos (digits2_pos m) + e - 53 - e)
    with (Zpos (digits2_pos m) - 53) by lia.
  destruct (Zpos (digits2_pos m) - 53) as [|p|p] eqn:Ep; cbn [shr].
  - exists (shr_record_of_loc (Zpos m) l), m.
    rewrite shr_record_of_loc_m, Z.add_0_r. cbn [Z.max Z.compare].
    rewrite Z.div_1_r. repeat split.
  - pose proof (digits2_bounds m) as [Dlo Dhi].
    assert (Hm : shr_m (iter_pos shr_1 p (shr_record_of_loc (Zpos m) l))
                 = Zpos m / 2 ^ Zpos p).
    { rewrite iter_shr_1_m; rewrite shr_record_of_loc_m; [reflexivity|lia]. }
    assert (Hp : 0 < 2 ^ Zpos p) by (apply Z.pow_pos_nonneg; lia).
    replace (Zpos (digits2_pos m) - 1) with (Zpos p + 52) in Dlo by lia.
    rewrite Z.pow_add_r in Dlo by lia.
    assert (Hlo : 2 ^ 52 <= Zpos m / 2 ^ Zpos p)
      by (apply Z.div_le_lower_bound; lia).
    destruct (Zpos m / 2 ^ Zpos p) as [|m'|m'] eqn:Eq;
      [change (2 ^ 52) with 4503599627370496 in Hlo; lia| |lia].
    exists (iter_pos shr_1 p (shr_record_of_loc (Zpos m) l)), m'.
    rewrite (Z.max_r 0 (Zpos p)) by lia. split; [reflexivity|].
    split; [exact Hm|]. split; [symmetry; exact Eq|]. lia.
  - exists (shr_record_of_loc (Zpos m) l), m.
    rewrite shr_record_of_loc_m, (Z.max_l 0 (Zneg p)), Z.add_0_r by lia.
    change (2 ^ 0) with 1. rewrite Z.div_1_r. repeat split.
Qed.

Lemma round_nearest_even_value (m : positive) (l : location) :
  exists m',
    round_nearest_even (Zpos m) l = Zpos m' /\
    Zpos m <= Zpos m' <= Zpos m + 1.
Proof.
  destruct l as [|[]]; cbn [round_nearest_even];
    try (exists m; split; [reflexivity|lia]).
  - destruct (Z.even (Zpos m)).
    + exists m. split; [reflexivity|lia].
    + exists (m + 1)%positive. split; [reflexivity|lia].
  - exists (m + 1)%positive. split; [reflexivity|lia].
Qed.

(** Rounding a mantissa of the normal range to 53 digits gives the
    infinity or a value that is not below the mantissa cut to 53 digits. *)
Lemma binary_round_aux_floor (sx : bool) (m : positive) (e : Z) :
  -1021 <= Zpos (digits2_pos m) + e ->
  binary_round_aux prec emax sx (Zpos m) e loc_Exact = S754_infinity sx \/
  exists m' e',
    binary_round_aux prec emax sx (Zpos m) e loc_Exact = S754_finite sx m' e' /\
    e <= e' /\
    Zpos m / 2 ^ Z.max 0 (Zpos (digits2_pos m) - 53)
    * 2 ^ Z.max 0 (Zpos (digits2_pos m) - 53)
    <= Zpos m' * 2 ^ (e' - e).
Proof.
  intros Hn. unfold binary_round_aux.
  set (k := Z.max 0 (Zpos (digits2_pos m) - 53)).
  destruct (shr_fexp_floor m e loc_Exact Hn)
    as (mrs & m1 & -> & Hm1 & V1 & _).
  fold k in V1 |- *. rewrite Hm1.
  destruct (round_nearest_even_value m1 (loc_of_shr_record mrs))
    as (m2 & -> & V2).
  pose proof (digits2_bounds m) as [Dlo Dhi].
  assert (Hk : 0 < 2 ^ k) by (apply Z.pow_pos_nonneg; lia).
  assert (H1 : Zpos m1 < 2 ^ 53).
  { rewrite V1. apply Z.div_lt_upper_bound; [exact Hk|].
    apply Z.lt_le_trans with (1 := Dhi).
    rewrite <- Z.pow_add_r by lia. apply Z.pow_le_mono_r; lia. }
  assert (D2 : Zpos (digits2_pos m2) <= 54).
  { apply digits2_lt; [lia|].
    change (2 ^ 54) with (2 * 2 ^ 53). lia. }
  assert (D1 : Zpos (digits2_pos m) <= Zpos (digits2_pos m2) + k).
  { pose proof (digits2_bounds m2) as [_ Dhi2].
    assert (Zpos m < 2 ^ (Zpos (digits2_pos m2) + k)).
    { rewrite Z.pow_add_r by lia.
      apply Z.lt_le_trans with ((Zpos m1 + 1) * 2 ^ k).
      - rewrite V1.
        pose proof (Z.div_mod (Zpos m) (2 ^ k) ltac:(lia)).
        pose proof (Z.mod_pos_bound (Zpos m) (2 ^ k) Hk). nia.
      - apply Z.mul_le_mono_nonneg_r; lia. }
    assert (Zpos (digits2_pos m) - 1 < Zpos (digits2_pos m2) + k).
    { apply (Z.pow_lt_mono_r_iff 2); lia. }
    lia. }
  destruct (shr_fexp_floor m2 (e + k) loc_Exact)
    as (mrs2 & m3 & -> & Hm3 & V3 & _); [lia|].
  rewrite Hm3.
  destruct (_ <=? _); [right|left; reflexivity].
  exists m3, (e + k + Z.max 0 (Zpos (digits2_pos m2) - 53)).
  split; [reflexivity|]. split; [lia|].
  rewrite <- V1.
  replace (e + k + Z.max 0 (Zpos (digits2_pos m2) - 53) - e)
    with (k + Z.max 0 (Zpos (digits2_pos m2) - 53)) by lia.
  assert (Hm : Zpos m1 <= Zpos m3 * 2 ^ Z.max 0 (Zpos (digits2_pos m2) - 53)).
  { destruct (Z.le_gt_cases (Zpos (digits2_pos m2)) 53) as [Hle | Hgt].
    - rewrite Z.max_l in * by lia. change (2 ^ 0) with 1 in *.
      rewrite Z.div_1_r in V3. lia.
    - replace (Z.max 0 (Zpos (digits2_pos m2) - 53)) with 1 in * by lia.
      change (2 ^ 1) with 2 in *.
      pose proof (digits2_bounds m2) as [Dlo2 _].
      replace (Zpos (digits2_pos m2) - 1) with 53 in Dlo2 by lia.
      assert (H : Zpos m2 = 2 ^ 53) by lia.
      rewrite V3, H. change (2 ^ 53 / 2 * 2) with (2 ^ 53). lia. }
  rewrite Z.pow_add_r by lia.
  revert Hm Hk.
  generalize (2 ^ k), (2 ^ Z.max 0 (Zpos (digits2_pos m2) - 53)).
  intros. nia.
Qed.

Lemma binary_round_aux_exact (sx : bool) (m : positive) (e : Z) :
  Zpos (digits2_pos m) <= 53 -> -1021 <= Zpos (digits2_pos m) + e ->
  e <= 971 ->
  binary_round_aux prec emax sx (Zpos m) e loc_Exact = S754_finite sx m e.
Proof.
  intros HD Hn He. unfold binary_round_aux.
  destruct (shr_fexp_floor m e loc_Exact Hn) as (mrs & m1 & -> & _ & _ & Hr).
  rewrite (Hr HD). cbn [shr_record_of_loc shr_m loc_of_shr_record
                        round_nearest_even].
  destruct (shr_fexp_floor m (e + Z.max 0 (Zpos (digits2_pos m) - 53))
              loc_Exact) as (mrs2 & m3 & -> & _ & _ & Hr2); [lia|].
  rewrite (Hr2 HD). cbn [shr_record_of_loc shr_m].
  rewrite !Z.max_l by lia. rewrite !Z.add_0_r.
  assert ((e <=? emax - prec) = true) as ->
    by (apply Z.leb_le; unfold emax, prec; lia).
  reflexivity.
Qed.

(** [float(n)] is [n] itself for an [int] below 2 ^ 53. *)
Lemma float_of_int_exact (n : Z) :
  1 <= n < 2 ^ 53 ->
  exists f mf d,
    float_of_int n = Ok f /\
    Prim2SF f = S754_finite false mf (- d) /\
    0 <= d <= 52 /\ Zpos mf = n * 2 ^ d /\ Zpos (digits2_pos mf) = 53.
Proof.
  intros Hn. unfold float_of_int.
  destruct n as [|q|q]; try lia. cbn [binary_normalize].
  assert (HD : Zpos (digits2_pos q) <= 53) by (apply digits2_lt; lia).
  assert (Hval : forall mf d,
    0 <= d <= 52 -> Zpos (digits2_pos mf) = 53 ->
    valid_binary (S754_finite false mf (- d)) = true).
  { intros mf d Hd HDf. cbn [valid_binary]. unfold bounded, canonical_mantissa.
    rewrite HDf. unfold fexp, SpecFloat.emin, emax, prec.
    apply andb_true_intro. split; [apply Z.eqb_eq|apply Z.leb_le]; lia. }
  unfold binary_round, shl_align. rewrite fexp_normal by lia.
  destruct (Zpos (digits2_pos q) + 0 - 53 - 0) as [|d|d] eqn:Ed; try lia.
  - rewrite binary_round_aux_exact by lia.
    exists (SF2Prim (S754_finite false q 0)), q, 0.
    split; [reflexivity|].
    split; [apply (Prim2SF_SF2Prim _ (Hval q 0 ltac:(lia) ltac:(lia)))|].
    split; [lia|]. split; lia.
  - pose proof (digits2_shl q d) as Hs.
    rewrite binary_round_aux_exact by lia.
    replace (Zpos (digits2_pos q) + 0 - 53) with (- Zpos d) by lia.
    exists (SF2Prim (S754_finite false (Pos.iter xO q d) (- Zpos d))),
      (Pos.iter xO q d), (Zpos d).
    split; [reflexivity|].
    split; [apply Prim2SF_SF2Prim, Hval; lia|].
    split; [lia|]. split; [|lia].
    change (Pos.iter xO q d) with (shift_pos d q).
    rewrite shift_pos_correct, Zpower_pos_nat, Zpower_nat_Z, positive_nat_Z.
    lia.
Qed.

(** A float of at least 1.3, as a 53-digit mantissa and an exponent. *)
Lemma at_least_1_3_value (x : float) :
  (1.3 <=? x)%float = true ->
  Prim2SF x = S754_infinity false \/
  exists m e,
    Prim2SF x = S754_finite false m e /\ -52 <= e /\
    5854679515581645 <= Zpos m * 2 ^ (e + 52).
Proof.
  rewrite leb_spec.
  change (Prim2SF 1.3) with (S754_finite false 5854679515581645 (-52)).
  pose proof (Prim2SF_valid x) as Hv.
  destruct (Prim2SF x) as [s|s| |s m e]; try destruct s;
    unfold SFleb, SFcompare; try discriminate.
  - left. reflexivity.
  - intros H. right. exists m, e. split; [reflexivity|].
    cbn in Hv. apply andb_prop in Hv as [Hc _].
    unfold canonical_mantissa in Hc. apply Z.eqb_eq in Hc.
    unfold fexp, SpecFloat.emin, prec, emax in Hc.
    pose proof (digits2_bounds m) as [Dlo _].
    destruct (Z.compare_spec (-52) e) as [<- | Hlt | Hgt];
      try discriminate H.
    + split; [lia|]. change (2 ^ (-52 + 52)) with 1.
      change (PosDef.Pos.compare_cont Eq 5854679515581645 m)
        with (5854679515581645 ?= m)%positive in H.
      destruct (Pos.compare_spec 5854679515581645 m); try discriminate H; lia.
    + split; [lia|].
      replace (Zpos (digits2_pos m) - 1) with 52 in Dlo by lia.
      assert (2 ^ 1 <= 2 ^ (e + 52)) by (apply Z.pow_le_mono_r; lia).
      change (2 ^ 1) with 2 in *. change (2 ^ 52) with 4503599627370496 in *.
      nia.
Qed.

Lemma round_half_even_above (m : positive) (e s N : Z) :
  0 <= s -> 0 <= e + s ->
  (2 * N + 1) * 2 ^ s < 2 * Zpos m * 2 ^ (e + s) ->
  N + 1 <= round_half_even (Zpos m) e.
Proof.
  intros Hs Hes H. unfold round_half_even.
  assert (Hps : 0 < 2 ^ s) by (apply Z.pow_pos_nonneg; lia).
  destruct (0 <=? e) eqn:He.
  - apply Z.leb_le in He. rewrite Z.pow_add_r in H by lia.
    assert (0 < 2 ^ e) by (apply Z.pow_pos_nonneg; lia).
    assert (2 * N + 1 < 2 * (Zpos m * 2 ^ e)) by nia. lia.
  - apply Z.leb_gt in He. cbv zeta.
    assert (Hd : 0 < 2 ^ (- e)) by (apply Z.pow_pos_nonneg; lia).
    replace s with ((e + s) + - e) in H at 1 by lia.
    rewrite Z.pow_add_r in H by lia.
    assert (Hpe : 0 < 2 ^ (e + s)) by (apply Z.pow_pos_nonneg; lia).
    assert (H' : (2 * N + 1) * 2 ^ (- e) < 2 * Zpos m) by nia.
    pose proof (Z.div_mod (Zpos m) (2 ^ (- e)) ltac:(lia)) as Hdm.
    pose proof (Z.mod_pos_bound (Zpos m) (2 ^ (- e)) Hd) as Hmb.
    revert H' Hdm Hmb.
    generalize (Zpos m), (2 ^ (- e)), (Zpos m mod 2 ^ (- e)),
      (Zpos m / 2 ^ (- e)).
    intros M d r q H' Hdm Hmb.
    destruct (Z.compare_spec (2 * r) d) as [Hc | Hc | Hc].
    + assert (Hq : (2 * N + 1) * d < (2 * q + 1) * d) by lia.
      apply Zmult_lt_reg_r in Hq; [|lia]. destruct (Z.even q); lia.
    + assert (Hq : (2 * N + 1) * d < (2 * q + 1) * d) by lia.
      apply Zmult_lt_reg_r in Hq; lia.
    + assert (Hq : (2 * N + 1) * d < (2 * q + 2) * d) by lia.
      apply Zmult_lt_reg_r in Hq; lia.
Qed.

(** [round(n * x)] is above [n] when [n] is an [int] of 2 to 2 ^ 53 and
    [x] a float of at least 1.3. *)
Lemma round_product_grows (n : Z) (x p : float) (r : Z) :
  2 <= n < 2 ^ 53 -> (1.3 <=? x)%float = true ->
  int_times_float n x = Ok p -> Py.round p = Ok r -> n + 1 <= r.
Proof.
  intros Hn Hx. unfold int_times_float.
  destruct (float_of_int_exact n) as (f & mf & d & -> & Ef & Hd & Vf & Df);
    [lia|].
  intros [= <-]. unfold Py.round. rewrite mul_spec. unfold SF64mul. rewrite Ef.
  destruct (at_least_1_3_value x Hx) as [-> | (mx & ex & -> & Hex & Vx)];
    cbn [SFmul xorb]; [discriminate|].
  pose proof (digits2_mul mf mx) as Hmul.
  pose proof (Prim2SF_valid x) as _.
  assert (HDx : 1 <= Zpos (digits2_pos mx)) by lia.
  destruct (binary_round_aux_floor false (mf * mx) (- d + ex))
    as [-> | (m3 & e3 & -> & He3 & V3)]; [lia|discriminate|].
  intros [= <-]. cbn [cond_Zopp].
  apply (round_half_even_above m3 e3 (d + 52) n); [lia|lia|].
  (* the product, cut to 53 digits, has lost less than one part in 2^52 *)
  set (k := Z.max 0 (Zpos (digits2_pos (mf * mx)) - 53)) in V3.
  pose proof (digits2_bounds (mf * mx)) as [Mlo _].
  assert (Hk : 0 < 2 ^ k) by (apply Z.pow_pos_nonneg; lia).
  assert (Hk52 : 2 ^ 52 * 2 ^ k <= Zpos (mf * mx)).
  { apply Z.le_trans with (2 := Mlo). rewrite <- Z.pow_add_r by lia.
    apply Z.pow_le_mono_r; lia. }
  pose proof (Z.div_mod (Zpos (mf * mx)) (2 ^ k) ltac:(lia)) as Hdm.
  pose proof (Z.mod_pos_bound (Zpos (mf * mx)) (2 ^ k) Hk) as Hmb.
  rewrite Pos2Z.inj_mul, Vf in *.
  replace (e3 + (d + 52)) with ((e3 - (- d + ex)) + (ex + 52)) by lia.
  rewrite Z.pow_add_r by lia.
  replace (d + 52) with (52 + d) by lia. rewrite Z.pow_add_r by lia.
  assert (Hpd : 0 < 2 ^ d) by (apply Z.pow_pos_nonneg; lia).
  assert (Hpg : 0 < 2 ^ (ex + 52)) by (apply Z.pow_pos_nonneg; lia).
  change (2 ^ 52) with 4503599627370496 in *.
  revert V3 Hk52 Hdm Hmb Vx Hpd Hpg Hk.
  generalize (2 ^ (e3 - (- d + ex))), (2 ^ (ex + 52)), (2 ^ d), (2 ^ k),
    (n * 2 ^ d * Zpos mx / 2 ^ k), (n * 2 ^ d * Zpos mx mod 2 ^ k).
  intros.
  nia.
Qed.

(** ** The interval after a success *)

(** X18. From the third success on (a quality of 3 or more on a card whose
    [repetitions] is neither 0 nor 1), a call that returns never shortens
    an interval of 1 to 999999999 days, and lengthens one of 2 days or
    more. *)
Theorem later_success_lengthens_the_interval
    (card : CardDB.t) (quality : Z) (now : datetime) (c' : CardDB.t) :
  fst (calculate_sm2 card quality now) = Ok c' ->
  3 <= quality ->
  CardDB.repetitions card <> 0 -> CardDB.repetitions card <> 1 ->
  1 <= CardDB.interval card <= max_delta_days ->
  CardDB.interval card <= CardDB.interval c' /\
  (2 <= CardDB.interval card -> CardDB.interval card < CardDB.interval c').
Proof.
  intros E Hq R0 R1 Hi.
  destruct (calculate_sm2 card quality now) as [r after] eqn:Ec.
  cbn [fst] in E. subst r.
  destruct (calculate_sm2_returned _ _ _ _ _ Ec)
    as (_ & (delta & _ & F) & _ & H).
  assert (Hef : (1.3 <=? CardDB.ease_factor c')%float = true)
    by (rewrite F; apply max_floor).
  destruct H as [(Hq' & _) | (_ & _ & [(H & _) | [(H & _) | (_ & _ & p & Hp & Hr)]])];
    try lia.
  rewrite max_delta_days_eq in Hi.
  assert (Hlt : CardDB.interval card < 2 ^ 53)
    by (change (2 ^ 53) with 9007199254740992; lia).
  split.
  - destruct (Z.eq_dec (CardDB.interval card) 1) as [E1 | N1].
    + rewrite E1.
      apply (round_product_at_least_1 (CardDB.interval card)
               (CardDB.ease_factor c') p); auto. lia.
    + assert (CardDB.interval card + 1 <= CardDB.interval c'); [|lia].
      apply (round_product_grows (CardDB.interval card)
               (CardDB.ease_factor c') p); auto. lia.
  - intros H2.
    assert (CardDB.interval card + 1 <= CardDB.interval c'); [|lia].
    apply (round_product_grows (CardDB.interval card)
             (CardDB.ease_factor c') p); auto.
Qed.

Lemma later_success_lengthens_the_interval_witness :
  CardDB.interval Sample.learning
  < CardDB.interval (Sample.returned (fst (calculate_sm2 Sample.learning 5
                                      Sample.clock))).
Proof.
  apply (later_success_lengthens_the_interval Sample.learning 5 Sample.clock).
  - vm_compute. reflexivity.
  - lia.
  - vm_compute. discriminate.
  - vm_compute. discriminate.
  - vm_compute. split; discriminate.
  - vm_compute. discriminate.
Defined.

(** ** The queues and the counts *)

Lemma len_perm {A : Type} (l l' : list A) : Permutation l l' -> len l = len l'.
Proof. intros H. unfold len. rewrite (Permutation_length H). reflexivity. Qed.


(** X19. The numbers [get_stats] reports as due and new are the lengths of what
    [get_due_cards], at the same clock, and [get_new_cards] return without
    a limit. *)
Theorem get_stats_counts_the_queues (db : Session) (now : datetime) :
  Stats.due (get_stats db now) = len (get_due_cards db (-1) now) /\
  Stats.new (get_stats db now) = len (get_new_cards db (-1)).
Proof.
  cbn [get_stats Stats.due Stats.new]. unfold get_due_cards, get_new_cards.
  split; symmetry; apply len_perm, order_by_perm.
Qed.



(** ** Binary64 order: where a sum is rounded to *)

Lemma SFleb_finite (m1 m2 : positive) (e1 e2 : Z) :
  SFleb (S754_finite false m1 e1) (S754_finite false m2 e2) = true <->
  e1 < e2 \/ e1 = e2 /\ Zpos m1 <= Zpos m2.
Proof.
  unfold SFleb, SFcompare.
  change (PosDef.Pos.compare_cont Eq m1 m2) with (m1 ?= m2)%positive.
  destruct (Z.compare_spec e1 e2) as [E | E | E].
  - destruct (Pos.compare_spec m1 m2) as [E' | E' | E']; split; intros H;
      first [reflexivity | discriminate H | lia].
  - split; intros H; [lia|reflexivity].
  - split; intros H; [discriminate H|lia].
Qed.

Lemma SFleb_trans_finite (m1 m2 : positive) (e1 e2 : Z) (r : spec_float) :
  SFleb (S754_finite false m1 e1) (S754_finite false m2 e2) = true ->
  SFleb (S754_finite false m2 e2) r = true ->
  SFleb (S754_finite false m1 e1) r = true.
Proof.
  intros H1. destruct r as [s|s| |s m e]; try destruct s;
    try (unfold SFleb, SFcompare; discriminate);
    try (intros _; reflexivity).
  intros H2. apply SFleb_finite in H1, H2. apply SFleb_finite. lia.
Qed.

(** The result of rounding a mantissa of the normal range, case by case:
    the mantissa cut to 53 digits or the next one, at the exponent that
    goes with it. *)
Lemma binary_round_aux_cases (sx : bool) (m : positive) (e : Z) :
  -1021 <= Zpos (digits2_pos m) + e ->
  exists m2 : positive,
    Zpos m / 2 ^ Z.max 0 (Zpos (digits2_pos m) - 53) <= Zpos m2
    <= Zpos m / 2 ^ Z.max 0 (Zpos (digits2_pos m) - 53) + 1 /\
    Zpos m2 <= 2 ^ 53 /\
    binary_round_aux prec emax sx (Zpos m) e loc_Exact =
    (if Zpos m2 <? 2 ^ 53 then
       if e + Z.max 0 (Zpos (digits2_pos m) - 53) <=? 971
       then S754_finite sx m2 (e + Z.max 0 (Zpos (digits2_pos m) - 53))
       else S754_infinity sx
     else
       if e + Z.max 0 (Zpos (digits2_pos m) - 53) + 1 <=? 971
       then S754_finite sx 4503599627370496
              (e + Z.max 0 (Zpos (digits2_pos m) - 53) + 1)
       else S754_infinity sx).
Proof.
  intros Hn. unfold binary_round_aux.
  set (k := Z.max 0 (Zpos (digits2_pos m) - 53)).
  destruct (shr_fexp_floor m e loc_Exact Hn)
    as (mrs & m1 & -> & Hm1 & V1 & _).
  fold k in V1 |- *. rewrite Hm1.
  destruct (round_nearest_even_value m1 (loc_of_shr_record mrs))
    as (m2 & -> & V2).
  pose proof (digits2_bounds m) as [Dlo Dhi].
  assert (Hk : 0 < 2 ^ k) by (apply Z.pow_pos_nonneg; lia).
  assert (H1 : Zpos m1 < 2 ^ 53).
  { rewrite V1. apply Z.div_lt_upper_bound; [exact Hk|].
    apply Z.lt_le_trans with (1 := Dhi).
    rewrite <- Z.pow_add_r by lia. apply Z.pow_le_mono_r; lia. }
  assert (D1 : Zpos (digits2_pos m) <= Zpos (digits2_pos m2) + k).
  { pose proof (digits2_bounds m2) as [_ Dhi2].
    assert (Zpos m < 2 ^ (Zpos (digits2_pos m2) + k)).
    { rewrite Z.pow_add_r by lia.
      apply Z.lt_le_trans with ((Zpos m1 + 1) * 2 ^ k).
      - rewrite V1.
        pose proof (Z.div_mod (Zpos m) (2 ^ k) ltac:(lia)).
        pose proof (Z.mod_pos_bound (Zpos m) (2 ^ k) Hk). nia.
      - apply Z.mul_le_mono_nonneg_r; lia. }
    assert (Zpos (digits2_pos m) - 1 < Zpos (digits2_pos m2) + k).
    { apply (Z.pow_lt_mono_r_iff 2); lia. }
    lia. }
  destruct (shr_fexp_floor m2 (e + k) loc_Exact)
    as (mrs2 & m3 & -> & Hm3 & V3 & _); [lia|].
  rewrite Hm3. exists m2. rewrite <- V1.
  split; [exact V2|]. split; [lia|].
  change (emax - prec) with 971.
  destruct (Zpos m2 <? 2 ^ 53) eqn:E2.
  - apply Z.ltb_lt in E2.
    assert (D2 : Zpos (digits2_pos m2) <= 53) by (apply digits2_lt; lia).
    rewrite Z.max_l in * by lia. change (2 ^ 0) with 1 in V3.
    rewrite Z.div_1_r in V3. injection V3 as ->. rewrite Z.add_0_r.
    reflexivity.
  - apply Z.ltb_ge in E2. assert (E : Zpos m2 = 2 ^ 53) by lia.
    assert (D2 : Zpos (digits2_pos m2) = 54)
      by (apply digits2_unique; rewrite E; split;
          [apply Z.pow_le_mono_r|apply Z.pow_lt_mono_r]; lia).
    rewrite D2 in *. change (Z.max 0 (54 - 53)) with 1 in *.
    rewrite E in V3. change (2 ^ 53 / 2 ^ 1) with 4503599627370496 in V3.
    injection V3 as ->. reflexivity.
Qed.

Lemma binary_round_large (sx : bool) (m : positive) (e : Z) :
  53 <= Zpos (digits2_pos m) -> -1021 <= Zpos (digits2_pos m) + e ->
  binary_round prec emax sx m e
  = binary_round_aux prec emax sx (Zpos m) e loc_Exact.
Proof.
  intros HD Hn. unfold binary_round, shl_align.
  rewrite fexp_normal by exact Hn.
  destruct (Zpos (digits2_pos m) + e - 53 - e) eqn:E; try reflexivity. lia.
Qed.

Lemma binary_round_small (sx : bool) (m : positive) (e : Z) :
  Zpos (digits2_pos m) < 53 -> -1021 <= Zpos (digits2_pos m) + e ->
  e <= 971 ->
  exists m',
    binary_round prec emax sx m e
    = S754_finite sx m' (e - (53 - Zpos (digits2_pos m))).
Proof.
  intros HD Hn He. unfold binary_round, shl_align.
  rewrite fexp_normal by exact Hn.
  destruct (Zpos (digits2_pos m) + e - 53 - e) as [|d|d] eqn:E; try lia.
  pose proof (digits2_shl m d) as Hs.
  rewrite binary_round_aux_exact by lia.
  exists (Pos.iter xO m d). f_equal. lia.
Qed.

(** A float of at least 1.3 that is finite: its 53-digit mantissa and its
    exponent. *)
Lemma at_least_1_3_normal (x : float) :
  (1.3 <=? x)%float = true ->
  Prim2SF x = S754_infinity false \/
  exists m e,
    Prim2SF x = S754_finite false m e /\
    Zpos (digits2_pos m) = 53 /\ -52 <= e <= 971.
Proof.
  rewrite leb_spec.
  change (Prim2SF 1.3) with (S754_finite false 5854679515581645 (-52)).
  pose proof (Prim2SF_valid x) as Hv.
  destruct (Prim2SF x) as [s|s| |s m e]; try destruct s;
    try (unfold SFleb, SFcompare; discriminate).
  - left. reflexivity.
  - intros H. apply SFleb_finite in H. right. exists m, e.
    split; [reflexivity|].
    cbn in Hv. apply andb_prop in Hv as [Hc Hb].
    unfold canonical_mantissa in Hc. apply Z.eqb_eq in Hc.
    apply Z.leb_le in Hb.
    unfold fexp, SpecFloat.emin, prec, emax in Hc, Hb. lia.
Qed.

(** The increment of the ease factor is below 1 in size, positive for a
    quality of 5 or more, negative for 3 or less. *)
Lemma ease_delta_signed (quality : Z) (delta : float) :
  ease_delta (Z.max 0 (Z.min 5 quality)) = Ok delta -> quality <> 4 ->
  exists m e,
    Prim2SF delta = S754_finite (quality <? 4) m e /\
    Zpos (digits2_pos m) + e <= 0 /\ -60 <= e.
Proof.
  intros H H4.
  destruct (clamp_cases quality) as [E|[E|[E|[E|[E|E]]]]];
    cbv zeta in E; try lia;
    rewrite E in H; vm_compute in H; injection H as <-; eval_Prim2SF;
    [assert ((quality <? 4) = true) as -> by (apply Z.ltb_lt; lia) ..
    |assert ((quality <? 4) = false) as -> by (apply Z.ltb_ge; lia)];
    do 2 eexists; (split; [reflexivity|]); split; vm_compute; discriminate.
Qed.

(** The sum of a finite float of at least 1.3 and a float below 1 in
    size, before it is rounded. *)
Lemma add_delta_sum (x delta : float) (mx my : positive) (ex ey : Z)
    (sy : bool) :
  Prim2SF x = S754_finite false mx ex ->
  Zpos (digits2_pos mx) = 53 -> -52 <= ex ->
  Prim2SF delta = S754_finite sy my ey ->
  Zpos (digits2_pos my) + ey <= 0 -> -60 <= ey ->
  exists M : positive,
    Prim2SF (x + delta) = binary_round prec emax false M (Z.min ex ey) /\
    Zpos M = Zpos mx * 2 ^ (ex - Z.min ex ey)
             + cond_Zopp sy (Zpos my * 2 ^ (ey - Z.min ex ey)) /\
    0 < Zpos my * 2 ^ (ey - Z.min ex ey)
    < Zpos mx * 2 ^ (ex - Z.min ex ey).
Proof.
  intros Hx HDx Hex Hd Hy Hey. rewrite add_spec. unfold SF64add.
  rewrite Hx, Hd. cbn [SFadd]. cbv zeta. rewrite !shl_align_value by lia.
  set (ez := Z.min ex ey).
  pose proof (digits2_bounds mx) as [Xlo _].
  pose proof (digits2_bounds my) as [_ Yhi].
  assert (HA1 : 2 ^ (- ez) <= Zpos mx * 2 ^ (ex - ez)).
  { apply Z.le_trans
      with (2 ^ (Zpos (digits2_pos mx) - 1) * 2 ^ (ex - ez)).
    - rewrite <- Z.pow_add_r by lia. apply Z.pow_le_mono_r; lia.
    - apply Z.mul_le_mono_nonneg_r; [apply Z.pow_nonneg; lia|exact Xlo]. }
  assert (HB1 : 0 < Zpos my * 2 ^ (ey - ez))
    by (apply Z.mul_pos_pos; [lia|apply Z.pow_pos_nonneg; lia]).
  assert (HB2 : Zpos my * 2 ^ (ey - ez) < 2 ^ (- ez)).
  { apply Z.lt_le_trans
      with (2 ^ Zpos (digits2_pos my) * 2 ^ (ey - ez)).
    - apply Z.mul_lt_mono_pos_r; [apply Z.pow_pos_nonneg; lia|exact Yhi].
    - rewrite <- Z.pow_add_r by lia. apply Z.pow_le_mono_r; lia. }
  cbn [cond_Zopp].
  destruct (Zpos mx * 2 ^ (ex - ez) + cond_Zopp sy (Zpos my * 2 ^ (ey - ez)))
    as [|M|M] eqn:EM; [destruct sy; cbn [cond_Zopp] in EM; lia| |
                        destruct sy; cbn [cond_Zopp] in EM; lia].
  exists M. cbn [binary_normalize]. split; [reflexivity|].
  split; [reflexivity|lia].
Qed.

(** Adding a positive float below 1 does not give less. *)
Lemma add_delta_up (x delta : float) (mx my : positive) (ex ey : Z) :
  Prim2SF x = S754_finite false mx ex ->
  Zpos (digits2_pos mx) = 53 -> -52 <= ex <= 971 ->
  Prim2SF delta = S754_finite false my ey ->
  Zpos (digits2_pos my) + ey <= 0 -> -60 <= ey ->
  SFleb (S754_finite false mx ex) (Prim2SF (x + delta)) = true.
Proof.
  intros Hx HDx Hex Hd Hy Hey.
  destruct (add_delta_sum x delta mx my ex ey false Hx HDx ltac:(lia) Hd Hy Hey)
    as (M & -> & VM & HB).
  set (ez := Z.min ex ey) in *. cbn [cond_Zopp] in VM.
  pose proof (digits2_bounds mx) as [Xlo _].
  pose proof (digits2_bounds M) as [_ Mhi].
  rewrite HDx in Xlo. change (2 ^ (53 - 1)) with (2 ^ 52) in Xlo.
  assert (Hp : 0 < 2 ^ (ex - ez)) by (apply Z.pow_pos_nonneg; lia).
  assert (HDM : 53 + (ex - ez) <= Zpos (digits2_pos M)).
  { assert (2 ^ (52 + (ex - ez)) < 2 ^ Zpos (digits2_pos M)).
    { rewrite Z.pow_add_r by lia. nia. }
    assert (52 + (ex - ez) < Zpos (digits2_pos M))
      by (apply (Z.pow_lt_mono_r_iff 2); lia).
    lia. }
  rewrite binary_round_large by lia.
  destruct (binary_round_aux_cases false M ez ltac:(lia))
    as (m2 & V2 & _ & ->).
  rewrite Z.max_r in * by lia.
  set (k := Zpos (digits2_pos M) - 53) in *.
  destruct (Zpos m2 <? 2 ^ 53).
  - destruct (ez + k <=? 971); [|reflexivity].
    apply SFleb_finite.
    destruct (Z.eq_dec k (ex - ez)) as [Ek | Nk]; [right|left; lia].
    split; [lia|]. rewrite <- Ek in *.
    apply Z.le_trans with (Zpos M / 2 ^ k); [|lia].
    apply Z.div_le_lower_bound; lia.
  - destruct (ez + k + 1 <=? 971); [|reflexivity].
    apply SFleb_finite. left. lia.
Qed.

(** Adding a negative float below 1 in size does not give more. *)
Lemma add_delta_down (x delta : float) (mx my : positive) (ex ey : Z) :
  Prim2SF x = S754_finite false mx ex ->
  Zpos (digits2_pos mx) = 53 -> -52 <= ex <= 971 ->
  Prim2SF delta = S754_finite true my ey ->
  Zpos (digits2_pos my) + ey <= 0 -> -60 <= ey ->
  SFleb (Prim2SF (x + delta)) (S754_finite false mx ex) = true.
Proof.
  intros Hx HDx Hex Hd Hy Hey.
  destruct (add_delta_sum x delta mx my ex ey true Hx HDx ltac:(lia) Hd Hy Hey)
    as (M & -> & VM & HB).
  set (ez := Z.min ex ey) in *. cbn [cond_Zopp] in VM.
  pose proof (digits2_bounds mx) as [Xlo Xhi].
  rewrite HDx in Xlo, Xhi. change (2 ^ (53 - 1)) with (2 ^ 52) in Xlo.
  assert (Hp : 0 < 2 ^ (ex - ez)) by (apply Z.pow_pos_nonneg; lia).
  assert (HDM : Zpos (digits2_pos M) <= 53 + (ex - ez)).
  { apply digits2_lt; [lia|]. rewrite Z.pow_add_r by lia. nia. }
  destruct (Z.lt_ge_cases (Zpos (digits2_pos M)) 53) as [Hs | Hl].
  { destruct (binary_round_small false M ez Hs) as (m' & ->); [lia|lia|].
    apply SFleb_finite. left. lia. }
  rewrite binary_round_large by lia.
  destruct (binary_round_aux_cases false M ez ltac:(lia))
    as (m2 & V2 & _ & ->).
  rewrite Z.max_r in * by lia.
  set (k := Zpos (digits2_pos M) - 53) in *.
  assert (Hk : 0 < 2 ^ k) by (apply Z.pow_pos_nonneg; lia).
  assert (Hm2 : Zpos m2 <= Zpos mx * 2 ^ (ex - ez - k)).
  { assert (Zpos M / 2 ^ k < Zpos mx * 2 ^ (ex - ez - k)); [|lia].
    apply Z.div_lt_upper_bound; [exact Hk|].
    replace (2 ^ k * (Zpos mx * 2 ^ (ex - ez - k)))
      with (Zpos mx * 2 ^ (ex - ez)); [lia|].
    replace (ex - ez) with (k + (ex - ez - k)) at 1 by lia.
    rewrite Z.pow_add_r by lia. ring. }
  destruct (Zpos m2 <? 2 ^ 53) eqn:E2.
  - assert ((ez + k <=? 971) = true) as -> by (apply Z.leb_le; lia).
    apply SFleb_finite.
    destruct (Z.eq_dec k (ex - ez)) as [Ek | Nk]; [right|left; lia].
    split; [lia|]. replace (ex - ez - k) with 0 in Hm2 by lia.
    change (2 ^ 0) with 1 in Hm2. lia.
  - apply Z.ltb_ge in E2.
    assert (Hk1 : k + 1 <= ex - ez).
    { destruct (Z.eq_dec k (ex - ez)) as [Ek | Nk]; [|lia].
      replace (ex - ez - k) with 0 in Hm2 by lia.
      change (2 ^ 0) with 1 in Hm2. lia. }
    assert ((ez + k + 1 <=? 971) = true) as -> by (apply Z.leb_le; lia).
    apply SFleb_finite.
    change (Zpos 4503599627370496) with (2 ^ 52). lia.
Qed.

(** X21. The ease factor moves with the quality: on a card whose ease
    factor is at least 1.3, a quality of 5 or more leaves an ease factor
    that is not smaller, and a quality of 3 or less one that is not
    larger. *)
Theorem ease_factor_follows_the_quality
    (card : CardDB.t) (quality : Z) (now : datetime) :
  (1.3 <=? CardDB.ease_factor card)%float = true ->
  let ef := CardDB.ease_factor card in
  let ef' := CardDB.ease_factor (snd (calculate_sm2 card quality now)) in
  (5 <= quality -> (ef <=? ef')%float = true) /\
  (quality <= 3 -> (ef' <=? ef)%float = true).
Proof.
  intros H. cbv zeta.
  destruct (calculate_sm2_after card quality now)
    as (delta & Ed & i & r & t & -> & _).
  cbn [CardDB.ease_factor CardDB.set_next_review CardDB.set_repetitions
       CardDB.set_interval CardDB.set_ease_factor].
  set (x := CardDB.ease_factor card) in *.
  pose proof H as H13. rewrite leb_spec in H13.
  change (Prim2SF 1.3) with (S754_finite false 5854679515581645 (-52)) in H13.
  split; intros Hq.
  - destruct (ease_delta_signed quality delta Ed ltac:(lia))
      as (my & ey & Hd & Hy & Hey).
    assert ((quality <? 4) = false) as E4 by (apply Z.ltb_ge; lia).
    rewrite E4 in Hd.
    assert (Hup : SFleb (Prim2SF x) (Prim2SF (x + delta)) = true).
    { destruct (at_least_1_3_normal x H)
        as [Hx | (mx & ex & Hx & HDx & Hex)].
      - rewrite add_spec. unfold SF64add. rewrite Hx, Hd. reflexivity.
      - rewrite Hx. apply (add_delta_up x delta mx my ex ey); assumption. }
    assert (H13' : (1.3 <=? x + delta)%float = true).
    { rewrite leb_spec.
      change (Prim2SF 1.3) with (S754_finite false 5854679515581645 (-52)).
      destruct (at_least_1_3_normal x H)
        as [Hx | (mx & ex & Hx & HDx & Hex)].
      - rewrite add_spec. unfold SF64add. rewrite Hx, Hd. reflexivity.
      - rewrite Hx in *.
        apply (SFleb_trans_finite _ mx _ ex); assumption. }
    rewrite (max_floor_id _ H13'). rewrite leb_spec. exact Hup.
  - destruct (ease_delta_signed quality delta Ed ltac:(lia))
      as (my & ey & Hd & Hy & Hey).
    assert ((quality <? 4) = true) as E4 by (apply Z.ltb_lt; lia).
    rewrite E4 in Hd.
    unfold Py.max. destruct (1.3 <? x + delta)%float; [|exact H].
    rewrite leb_spec.
    destruct (at_least_1_3_normal x H)
      as [Hx | (mx & ex & Hx & HDx & Hex)].
    + rewrite add_spec. unfold SF64add. rewrite Hx, Hd. reflexivity.
    + rewrite Hx. apply (add_delta_down x delta mx my ex ey); assumption.
Qed.

Lemma ease_factor_follows_the_quality_witness :
  (CardDB.ease_factor Sample.learning
   <=? CardDB.ease_factor (snd (calculate_sm2 Sample.learning 5 Sample.clock)))
  %float = true /\
  (CardDB.ease_factor (snd (calculate_sm2 Sample.learning 2 Sample.clock))
   <=? CardDB.ease_factor Sample.learning)%float = true.
Proof.
  split.
  - apply (proj1 (ease_factor_follows_the_quality Sample.learning 5
                    Sample.clock ltac:(vm_compute; reflexivity))). lia.
  - apply (proj2 (ease_factor_follows_the_quality Sample.learning 2
                    Sample.clock ltac:(vm_compute; reflexivity))). lia.
Defined.
